(** * driver-box updater: a shallow embedding of [src/main.py]

    The updater is a transaction over a directory tree: the constructor
    resets the backup root, [__enter__] moves the live installation aside,
    the body downloads, unpacks and swaps in the new release and migrates the
    configuration, and [__exit__] either restores the backup or discards it.

    The embedding below keeps the program's shape:
    - the working directory is a tree of files and directories
      ([gmap string node]);
    - every method is a computation in a state-and-exception monad [M] whose
      state is the tree, the lines printed so far and the remaining random
      draws; an exception leaves the state as it was when it was raised;
    - what the script obtains from outside (the [packaging] version parser,
      the HTTP response, the zip central directory, and whether the operating
      system refuses a file-system call) is gathered in a record [Env]. *)

From stdpp Require Import gmap strings list fin_maps.
From Stdlib Require Import Strings.Byte Strings.Ascii NArith.
From Stdlib Require DecimalString.

Open Scope string_scope.
Open Scope list_scope.

(** ** Files, directories and paths *)

Module FS.

(** A node of the tree: a regular file with its bytes, or a directory with
    its entries. *)
#[warnings="-register-all"]
Inductive node : Type :=
  | File (data : list byte)
  | Dir (entries : gmap string node).

Abbreviation dir := (gmap string node).

(** A path relative to the working directory, one component per element
    ([Path('.backup').joinpath('conf')] is [[".backup"; "conf"]]). *)
Abbreviation path := (list string).

Definition is_dir_node (n : node) : bool :=
  match n with Dir _ => true | File _ => false end.

(** [lookup_path d p]: the node found by walking [p] down from [d]. *)
Fixpoint lookup_node (n : node) (p : path) : option node :=
  match p with
  | [] => Some n
  | c :: p' =>
      match n with
      | Dir d => match d !! c with
                 | Some n' => lookup_node n' p'
                 | None => None
                 end
      | File _ => None
      end
  end.

Definition lookup_path (d : dir) (p : path) : option node :=
  lookup_node (Dir d) p.

(** [Path.exists()] and [Path.is_dir()]. *)
Definition exists_ (d : dir) (p : path) : bool :=
  match lookup_path d p with Some _ => true | None => false end.

Definition is_dir (d : dir) (p : path) : bool :=
  match lookup_path d p with Some (Dir _) => true | _ => false end.

(** [remove_path d p]: [d] without the node at [p] (unchanged when there is
    none). *)
Fixpoint remove_path (d : dir) (p : path) : dir :=
  match p with
  | [] => d
  | [c] => delete c d
  | c :: p' =>
      match d !! c with
      | Some (Dir sub) => <[c := Dir (remove_path sub p')]> d
      | _ => d
      end
  end.

(** [put_path d p n]: [d] with [n] at [p]; the parent of [p] has to be an
    existing directory. *)
Fixpoint put_path (d : dir) (p : path) (n : node) : option dir :=
  match p with
  | [] => None
  | [c] => Some (<[c := n]> d)
  | c :: p' =>
      match d !! c with
      | Some (Dir sub) =>
          match put_path sub p' n with
          | Some sub' => Some (<[c := Dir sub']> d)
          | None => None
          end
      | _ => None
      end
  end.

(** Last component of a path ([os.path.basename]). *)
Definition basename (p : path) : string := List.last p "".

End FS.
Export FS.

(** ** Exceptions, outcomes and the monad *)

(** The [OSError] subclasses the file-system calls raise. *)
Inductive os_error : Type :=
  | FileNotFoundError
  | FileExistsError
  | NotADirectoryError
  | IsADirectoryError
  | PermissionError.

(** The exceptions of the script and of the libraries it calls. *)
Inductive exn : Type :=
  | ValueError (msg : string)
  | NotImplementedError (msg : string)
  | KeyError (key : string)
  | InvalidVersion (text : string)
  | OSError (kind : os_error) (p : path)
  | ShutilError (msg : string)
  | BadZipFile
  | RequestException (msg : string).

(** The three error messages of [main.py]. *)
Definition msg_downgrade : string := "Downgrade is not supported!".
Definition msg_invalid_artifact : string := "Invalid version or binary type".
Definition DowngradeNotSupported : exn := ValueError msg_downgrade.
Definition InvalidArtifact : exn := ValueError msg_invalid_artifact.

(** One draw of [random_string()]: eight characters. *)
Definition rand8 : Type :=
  (ascii * ascii * ascii * ascii * ascii * ascii * ascii * ascii)%type.

Definition rand8_to_string (d : rand8) : string :=
  let '(a, b, c, e, f, g, h, i) := d in
  String a (String b (String c (String e (String f (String g (String h
    (String i EmptyString))))))).

(** The state the script acts on. *)
Record world : Type := World {
  root : dir;                (* the working directory *)
  stdout : list string;      (* lines printed so far *)
  entropy : list rand8       (* the draws [random.choices] will return *)
}.

(** How a computation ends: it returns, it raises, or it is still looping
    when the supplied random draws run out. *)
Inductive res (A : Type) : Type :=
  | Ok (a : A)
  | Raise (e : exn)
  | Diverge.
Arguments Ok {A} a.
Arguments Raise {A} e.
Arguments Diverge {A}.

Definition M (A : Type) : Type := world -> res A * world.

Definition ret {A} (a : A) : M A := fun w => (Ok a, w).
Definition raise {A} (e : exn) : M A := fun w => (Raise e, w).
Definition bind {A B} (m : M A) (k : A -> M B) : M B :=
  fun w =>
    match m w with
    | (Ok a, w') => k a w'
    | (Raise e, w') => (Raise e, w')
    | (Diverge, w') => (Diverge, w')
    end.

Declare Scope upd_scope.
Delimit Scope upd_scope with upd.
Notation "x <- c1 ;; c2" := (bind c1 (fun x => c2))
  (at level 100, c1 at next level, right associativity) : upd_scope.
Notation "c1 ;; c2" := (bind c1 (fun _ => c2))
  (at level 100, right associativity) : upd_scope.
Open Scope upd_scope.

Definition get_root : M dir := fun w => (Ok (root w), w).
Definition set_root (d : dir) : M unit :=
  fun w => (Ok tt, World d (stdout w) (entropy w)).

(** [print(line)]. *)
Definition print (line : string) : M unit :=
  fun w => (Ok tt, World (root w) (stdout w ++ [line]) (entropy w)).

(** [try: body finally: fin]. *)
Definition try_finally {A} (body : M A) (fin : M unit) : M A :=
  fun w =>
    match body w with
    | (Diverge, w') => (Diverge, w')
    | (r, w') =>
        match fin w' with
        | (Ok _, w'') => (r, w'')
        | (Raise e, w'') => (Raise e, w'')
        | (Diverge, w'') => (Diverge, w'')
        end
    end.

(** [for x in xs: body x]. *)
Fixpoint for_each {A} (xs : list A) (body : A -> M unit) : M unit :=
  match xs with
  | [] => ret tt
  | x :: xs' => body x ;; for_each xs' body
  end.

(** ** What comes from outside the script *)

(** A parsed [packaging.version.Version]: its release segment and its
    normalised text ([str(v)]). *)
Record Version : Type := mkVersion {
  release : list N;
  vtext : string
}.

(** [Version.major]: the first release component, 0 when there is none. *)
Definition major (v : Version) : N := hd 0%N (release v).

(** The two ways [int(text)] rejects a string. [shown] is [repr(text)],
    which is how the message quotes the text (the quotes and the escapes are
    Python's); [rest] is what follows in the message about the digit limit
    of the interpreter. *)
Inductive int_error : Type :=
  | InvalidLiteral (shown : string)
  | ExceedsLimit (rest : string).

(** The message of the [ValueError]. *)
Definition int_error_message (err : int_error) : string :=
  match err with
  | InvalidLiteral shown =>
      ("invalid literal for int() with base 10: " ++ shown)%string
  | ExceedsLimit rest => ("Exceeds the limit (" ++ rest)%string
  end.

(** The ['Content-Length'] header as [int(resp.headers['Content-Length'])]
    sees it: there is no such header, [int] rejects its text, or it is a
    number. *)
Inductive length_header : Type :=
  | NoLength
  | BadLength (err : int_error)
  | Length (n : Z).

(** The response of [requests.get(url, stream=True)]: the two headers the
    script reads, the chunks [iter_content] yields, and the exception it
    raises after them when the connection breaks. *)
Record response : Type := mkResponse {
  content_type : option string;
  content_length : length_header;
  chunks : list (list byte);
  stream_error : option string
}.

(** A member of a zip archive's central directory. A name ending in [/] is a
    directory entry. *)
Record zip_member : Type := mkMember {
  zm_filename : string;
  zm_data : list byte
}.

(** The calls into [os], [pathlib], [shutil] and [zipfile] that change the
    tree. *)
Inductive fs_call : Type :=
  | c_rmtree (p : path)
  | c_mkdir (p : path)
  | c_unlink (p : path)
  | c_move (src dst : path)
  | c_copytree (src dst : path)
  | c_open_wb (p : path)
  | c_extract (member : string) (dest : path).

Record Env : Type := mkEnv {
  (** [packaging.version.parse]; [None] is [InvalidVersion]. *)
  version_parse : string -> option Version;
  (** [requests.get]: a transport error or a response. *)
  requests_get : string -> string + response;
  (** [zipfile.ZipFile(path).filelist]; [None] is [BadZipFile]. *)
  zip_parse : list byte -> option (list zip_member);
  (** Whether the operating system refuses a call (a locked or read-only
      file: [PermissionError], the [WinError 5] of the source's comment). *)
  denied : fs_call -> bool
}.

(** An environment in which no file-system call is refused. *)
Definition no_faults (E : Env) : Prop := forall c, denied E c = false.

(** ** String helpers *)

(** [s.split('/')]. *)
Fixpoint split_slash (acc : string) (s : string) : list string :=
  match s with
  | EmptyString => [String.rev acc]
  | String c s' =>
      if Ascii.eqb c "/"%char then String.rev acc :: split_slash "" s'
      else split_slash (String c acc) s'
  end.

(** Components of a relative path given as text: empty components and [.]
    vanish ([pathlib] drops them). *)
Definition path_of_string (s : string) : path :=
  List.filter (fun c => negb (String.eqb c "" || String.eqb c "."))
    (split_slash "" s).

Fixpoint ends_with_slash (s : string) : bool :=
  match s with
  | EmptyString => false
  | String c EmptyString => Ascii.eqb c "/"%char
  | String _ s' => ends_with_slash s'
  end.

Fixpoint spaces (n : nat) : string :=
  match n with O => "" | S n' => String " " (spaces n') end.

Fixpoint dashes (n : nat) : string :=
  match n with O => "" | S n' => String "-" (dashes n') end.

(** ['{:13s}'.format(s)] and ['{:^13s}'.format(s)]. The width of [s] is
    taken as [String.length s], the number of bytes, which is the number of
    characters [str.format] counts when [s] is ASCII text. *)
Definition ljust (width : nat) (s : string) : string :=
  (s ++ spaces (width - String.length s))%string.

Definition center (width : nat) (s : string) : string :=
  let pad := (width - String.length s)%nat in
  let left := Nat.div2 pad in
  (spaces left ++ s ++ spaces (pad - left))%string.

(** [str(n)] for a natural number. *)
Definition N_to_string (n : N) : string :=
  DecimalString.NilZero.string_of_uint (N.to_uint n).

(** ** The library calls of the script *)

Section Library.

Context (E : Env).

(** The call goes through unless the operating system refuses it. A refusal
    is taken at the start of the call, before it has changed anything: the
    states a call leaves behind when it fails half-way (a tree that
    [shutil.rmtree] has removed in part, the copy [shutil.move] falls back
    to when [os.rename] fails) are not in the model. *)
Definition guarded (c : fs_call) (p : path) (m : M unit) : M unit :=
  if denied E c then raise (OSError PermissionError p) else m.

(** [shutil.rmtree(p, ignore_errors)]: removes the directory with all it
    holds; anything else is an error, which [ignore_errors] swallows. *)
Definition rmtree_strict (p : path) : M unit :=
  guarded (c_rmtree p) p
    (r <- get_root ;;
     match lookup_path r p with
     | Some (Dir _) => set_root (remove_path r p)
     | Some (File _) => raise (OSError NotADirectoryError p)
     | None => raise (OSError FileNotFoundError p)
     end).

Definition ignoring_errors (m : M unit) : M unit :=
  fun w =>
    match m w with
    | (Raise _, w') => (Ok tt, w')
    | other => other
    end.

Definition shutil_rmtree (p : path) (ignore_errors : bool) : M unit :=
  if ignore_errors then ignoring_errors (rmtree_strict p) else rmtree_strict p.

(** [Path.mkdir()] / [os.mkdir]. *)
Definition mkdir (p : path) : M unit :=
  guarded (c_mkdir p) p
    (r <- get_root ;;
     if exists_ r p then raise (OSError FileExistsError p)
     else match put_path r p (Dir ∅) with
          | Some r' => set_root r'
          | None => raise (OSError FileNotFoundError p)
          end).

(** [Path.unlink()]. *)
Definition unlink (p : path) : M unit :=
  guarded (c_unlink p) p
    (r <- get_root ;;
     match lookup_path r p with
     | Some (File _) => set_root (remove_path r p)
     | Some (Dir _) => raise (OSError IsADirectoryError p)
     | None => raise (OSError FileNotFoundError p)
     end).

(** [shutil.move(src, dst)]: into [dst] when [dst] is a directory (an entry of
    that name must not exist there), onto [dst] otherwise (a file may replace a
    file). *)
Definition shutil_move (src dst : path) : M unit :=
  guarded (c_move src dst) src
    (r <- get_root ;;
     match lookup_path r src with
     | None => raise (OSError FileNotFoundError src)
     | Some n =>
         let into := is_dir r dst in
         let real_dst := if into then dst ++ [basename src] else dst in
         match lookup_path r real_dst with
         | Some existing =>
             if into then raise (ShutilError "Destination path already exists")
             else match n, existing with
                  | File _, File _ =>
                      match put_path (remove_path r src) real_dst n with
                      | Some r' => set_root r'
                      | None => raise (OSError FileNotFoundError real_dst)
                      end
                  | _, _ => raise (OSError FileExistsError real_dst)
                  end
         | None =>
             match put_path (remove_path r src) real_dst n with
             | Some r' => set_root r'
             | None => raise (OSError FileNotFoundError real_dst)
             end
         end
     end).

(** [shutil.copytree(src, dst)]: [src] has to be a directory and [dst] must not
    exist. *)
Definition shutil_copytree (src dst : path) : M unit :=
  guarded (c_copytree src dst) src
    (r <- get_root ;;
     match lookup_path r src with
     | None => raise (OSError FileNotFoundError src)
     | Some (File _) => raise (OSError NotADirectoryError src)
     | Some (Dir d) =>
         if exists_ r dst then raise (OSError FileExistsError dst)
         else match put_path r dst (Dir d) with
              | Some r' => set_root r'
              | None => raise (OSError FileNotFoundError dst)
              end
     end).

(** [open(p, 'wb')]: creates the file or truncates it. *)
Definition open_wb (p : path) : M unit :=
  guarded (c_open_wb p) p
    (r <- get_root ;;
     match lookup_path r p with
     | Some (Dir _) => raise (OSError IsADirectoryError p)
     | _ => match put_path r p (File []) with
            | Some r' => set_root r'
            | None => raise (OSError FileNotFoundError p)
            end
     end).

(** [f.write(chunk)] on the file opened at [p]. *)
Definition write (p : path) (chunk : list byte) : M unit :=
  r <- get_root ;;
  match lookup_path r p with
  | Some (File data) =>
      match put_path r p (File (data ++ chunk)) with
      | Some r' => set_root r'
      | None => raise (OSError FileNotFoundError p)
      end
  | _ => raise (OSError FileNotFoundError p)
  end.

(** [ZipFile.getinfo(name)]: the last member of that name. *)
Definition getinfo (members : list zip_member) (name : string)
  : option zip_member :=
  List.find (fun m => String.eqb (zm_filename m) name) (List.rev members).

(** The components [ZipFile._extract_member] keeps of a member name: empty
    ones, [.] and [..] are dropped. *)
Definition arcname (name : string) : path :=
  List.filter
    (fun c => negb (String.eqb c "" || String.eqb c "." || String.eqb c ".."))
    (split_slash "" name).

(** Writes one member below the directory [d]: missing parent directories
    are created; a directory entry creates the directory when it is not there
    yet; a file entry creates or overwrites the file. Where a parent
    component is a regular file, the call that fails ([os.mkdir] or [open])
    is the one on the path one component below it. *)
Fixpoint extract_member (d : dir) (cs : path) (p : path)
    (payload : option (list byte)) : exn + dir :=
  match cs with
  | [] =>
      match payload with
      | None => inr d
      | Some _ => inl (OSError IsADirectoryError p)
      end
  | [c] =>
      match payload, d !! c with
      | None, None => inr (<[c := Dir ∅]> d)
      | None, Some (Dir _) => inr d
      | None, Some (File _) => inl (OSError FileExistsError (p ++ [c]))
      | Some _, Some (Dir _) => inl (OSError IsADirectoryError (p ++ [c]))
      | Some data, _ => inr (<[c := File data]> d)
      end
  | c :: (c2 :: _) as cs' =>
      match d !! c with
      | Some (File _) => inl (OSError NotADirectoryError (p ++ [c; c2]))
      | Some (Dir sub) =>
          match extract_member sub cs' (p ++ [c]) payload with
          | inr sub' => inr (<[c := Dir sub']> d)
          | inl e => inl e
          end
      | None =>
          match extract_member ∅ cs' (p ++ [c]) payload with
          | inr sub' => inr (<[c := Dir sub']> d)
          | inl e => inl e
          end
      end
  end.

(** [z.extract(name, dest)]. *)
Definition zip_extract (members : list zip_member) (name : string)
    (dest : path) : M unit :=
  guarded (c_extract name dest) dest
    (match getinfo members name with
     | None => raise (KeyError name)
     | Some m =>
         r <- get_root ;;
         match lookup_path r dest with
         | Some (Dir d) =>
             let payload :=
               if ends_with_slash (zm_filename m) then None
               else Some (zm_data m) in
             match extract_member d (arcname (zm_filename m)) dest payload with
             | inl e => raise e
             | inr d' =>
                 match put_path r dest (Dir d') with
                 | Some r' => set_root r'
                 | None => raise (OSError FileNotFoundError dest)
                 end
             end
         | Some (File _) => raise (OSError NotADirectoryError dest)
         | None => raise (OSError FileNotFoundError dest)
         end
     end).

End Library.

(** ** [temporary_directory] *)

Section Script.

Context (E : Env).

(** [random_string()]: the next draw. *)
Definition random_string : M string :=
  fun w =>
    match entropy w with
    | [] => (Diverge, w)
    | d :: ds => (Ok (rand8_to_string d), World (root w) (stdout w) ds)
    end.

(** [while dir_temp.exists(): dir_temp = dir_temp.parent.joinpath(random_string())],
    by recursion on the draws that are left. *)
Fixpoint while_exists (r : dir) (parent : path) (cand : string)
    (ds : list rand8) : option string * list rand8 :=
  if exists_ r (parent ++ [cand]) then
    match ds with
    | [] => (None, [])
    | d :: ds' => while_exists r parent (rand8_to_string d) ds'
    end
  else (Some cand, ds).

Definition fresh_dir_temp (parent : path) : M path :=
  first <- random_string ;;
  fun w =>
    match while_exists (root w) parent first (entropy w) with
    | (Some name, ds) => (Ok (parent ++ [name]), World (root w) (stdout w) ds)
    | (None, ds) => (Diverge, World (root w) (stdout w) ds)
    end.

(** The context manager: [with temporary_directory(dir, delete) as t: body t]. *)
Definition temporary_directory {A} (dir : path) (delete : bool)
    (body : path -> M A) : M A :=
  dir_temp <- fresh_dir_temp dir ;;
  mkdir E dir_temp ;;
  try_finally (body dir_temp)
    (if delete then shutil_rmtree E dir_temp true else ret tt).

(** ** The [Updater] class *)

Record Updater : Type := mkUpdater {
  version_from : Version;
  version_to : Version;
  binary_type : string;
  webview : bool
}.

Definition dir_backup : path := [".backup"].

(** The installation manifest, in the order the loops visit it. *)
Definition manifest : list string := ["driver-box.exe"; "bin"; "conf"].

Definition parse_version (text : string) : M Version :=
  match version_parse E text with
  | Some v => ret v
  | None => raise (InvalidVersion text)
  end.

Definition __init__ (version_from version_to binary_type : string)
    (webview : bool) : M Updater :=
  r <- get_root ;;
  (if exists_ r dir_backup then shutil_rmtree E dir_backup false else ret tt) ;;
  mkdir E dir_backup ;;
  vfrom <- parse_version version_from ;;
  vto <- parse_version version_to ;;
  if (major vto <? major vfrom)%N then raise (ValueError msg_downgrade)
  else ret (mkUpdater vfrom vto binary_type webview).

(** The body of the loop of [backup] (lines 71-73). *)
Definition backup_one (filename : string) : M unit :=
  r <- get_root ;;
  if negb (exists_ r [filename]) then ret tt
  else shutil_move E [filename] (dir_backup ++ [filename]).

Definition backup (self : Updater) : M unit :=
  print "▶ Creating backup..." ;;
  r <- get_root ;;
  (if exists_ r dir_backup then shutil_rmtree E dir_backup false else ret tt) ;;
  mkdir E dir_backup ;;
  for_each manifest backup_one.

(** The body of the loop of [restore] (lines 79-87). *)
Definition restore_one (filename : string) : M unit :=
  let newfile := [filename] in
  r <- get_root ;;
  (if exists_ r newfile then
     if is_dir r newfile then shutil_rmtree E newfile true
     else unlink E newfile
   else ret tt) ;;
  r <- get_root ;;
  if negb (exists_ r (dir_backup ++ [filename])) then ret tt
  else shutil_move E (dir_backup ++ [filename]) newfile.

Definition restore (self : Updater) : M unit :=
  print "▶ Restoring from backup..." ;;
  for_each manifest restore_one ;;
  shutil_rmtree E dir_backup true.

Definition cleanup (self : Updater) : M unit :=
  print "▶ Cleaning up backup..." ;;
  shutil_rmtree E dir_backup true.

Definition __enter__ (self : Updater) : M Updater :=
  backup self ;;
  ret self.

(** [exc] is the exception the body raised, if any; the result is whether
    the exception is swallowed. *)
Definition __exit__ (self : Updater) (exc : option exn) : M bool :=
  (match exc with
   | Some _ => restore self
   | None => cleanup self
   end) ;;
  ret false.

(** The name of the release asset and its address. *)
Definition asset_filename (self : Updater) : string :=
  (if webview self then "driver-box." ++ binary_type self ++ "-wv2.zip"
   else "driver-box." ++ binary_type self ++ ".zip")%string.

Definition asset_url (self : Updater) : string :=
  ("https://github.com/markmybytes/driver-box/releases/download/v"
     ++ vtext (version_to self) ++ "/" ++ asset_filename self)%string.

Definition accepted_content_types : list string :=
  ["application/zip"; "application/octet-stream"].

Definition content_type_accepted (resp : response) : bool :=
  match content_type resp with
  | Some t => bool_decide (t ∈ accepted_content_types)
  | None => false
  end.

(** Lines 108-114: the progress bar is sized from the length header, the
    file is opened, and the chunks are written to it. *)
Definition download (resp : response) (fpath : path) (filename : string)
    : M unit :=
  print ("  ↳ Downloading: " ++ filename)%string ;;
  (match content_length resp with
   | NoLength => raise (KeyError "content-length")
   | BadLength err => raise (ValueError (int_error_message err))
   | Length _ => ret tt
   end) ;;
  open_wb E fpath ;;
  for_each (chunks resp) (fun chunk => write fpath chunk) ;;
  match stream_error resp with
  | Some msg => raise (RequestException msg)
  | None => ret tt
  end.

(** Lines 116-119. *)
Definition unpack (fpath tmpdir : path) : M unit :=
  print "  ↳ Unpacking..." ;;
  r <- get_root ;;
  match lookup_path r fpath with
  | Some (File data) =>
      match zip_parse E data with
      | Some filelist =>
          for_each filelist (fun archive =>
            zip_extract E filelist (zm_filename archive) tmpdir)
      | None => raise BadZipFile
      end
  | Some (Dir _) => raise (OSError IsADirectoryError fpath)
  | None => raise (OSError FileNotFoundError fpath)
  end.

(** The body of the loop of lines 124-132. [time.sleep(1)] changes nothing
    that is modelled. *)
Definition update_file (tmpdir : path) (name : string) : M unit :=
  let path := [name] in
  r <- get_root ;;
  (if exists_ r path then
     if is_dir r path then shutil_rmtree E path true
     else unlink E path
   else ret tt) ;;
  r <- get_root ;;
  if exists_ r (tmpdir ++ path) then shutil_move E (tmpdir ++ path) path
  else ret tt.

(** The targets the release replaces. *)
Definition paths (self : Updater) : list string :=
  if webview self then ["driver-box.exe"; "bin"] else ["driver-box.exe"].

(** Lines 121-132. *)
Definition update_files (self : Updater) (tmpdir : path) : M unit :=
  print "  ↳ Updating files..." ;;
  for_each (paths self) (update_file tmpdir).

Definition replace_executable (self : Updater) : M unit :=
  print "▶ Downloading updates..." ;;
  let filename := asset_filename self in
  let url := asset_url self in
  match requests_get E url with
  | inl msg => raise (RequestException msg)
  | inr resp =>
      if negb (content_type_accepted resp)
      then raise (ValueError msg_invalid_artifact)
      else
        temporary_directory [] true (fun tmpdir =>
          let fpath := tmpdir ++ path_of_string filename in
          download resp fpath filename ;;
          unpack fpath tmpdir ;;
          update_files self tmpdir)
  end.

Definition msg_unsupported (self : Updater) : string :=
  ("Auto update from v" ++ N_to_string (major (version_from self))
     ++ " to v" ++ N_to_string (major (version_to self))
     ++ " is not supported yet.")%string.

Definition migrate_config (self : Updater) : M unit :=
  if (major (version_from self) =? major (version_to self))%N then ret tt
  else if (major (version_from self) =? 1)%N
          && ((major (version_to self) =? 2)%N
              || (5 <=? major (version_to self))%N)
  then raise (NotImplementedError (msg_unsupported self))
  else
    print "▶ Migrating configuration..." ;;
    shutil_copytree E (dir_backup ++ ["conf"]) ["conf"].

Definition print_summary (self : Updater) : M unit :=
  let rule := ("+ " ++ dashes 26 ++ " +")%string in
  let row (k v : string) :=
    ("| " ++ ljust 13 k ++ center 13 v ++ " |")%string in
  print rule ;;
  print (row "Update From" (vtext (version_from self))) ;;
  print (row "Update To" (vtext (version_to self))) ;;
  print (row "Binary" (binary_type self)) ;;
  print (row "WebView2" (if webview self then "Yes" else "No")) ;;
  print rule ;;
  print "".

Definition update (self : Updater) : M unit :=
  print_summary self ;;
  replace_executable self ;;
  migrate_config self.

(** [with mgr as updater: body updater]. *)
Definition with_Updater (mgr : M Updater) (body : Updater -> M unit)
    : M unit :=
  mgr0 <- mgr ;;
  updater <- __enter__ mgr0 ;;
  fun w =>
    match body updater w with
    | (Ok _, w') => (__exit__ mgr0 None ;; ret tt) w'
    | (Raise e, w') =>
        (suppress <- __exit__ mgr0 (Some e) ;;
         if (suppress : bool) then ret tt else raise e) w'
    | (Diverge, w') => (Diverge, w')
    end.

(** Lines 187-188 of the main block. *)
Definition transaction (version_from version_to binary_type : string)
    (webview : bool) : M unit :=
  with_Updater (__init__ version_from version_to binary_type webview) update.

End Script.

(** ** A concrete environment for the examples *)

Module Examples.

Definition digit_of (c : ascii) : option N :=
  let n := N_of_ascii c in
  if ((48 <=? n) && (n <=? 57))%N then Some (n - 48)%N else None.

Fixpoint number_of (acc : N) (s : string) : option N :=
  match s with
  | EmptyString => Some acc
  | String c s' =>
      match digit_of c with
      | Some d => number_of (10 * acc + d)%N s'
      | None => None
      end
  end.

Fixpoint split_dot (acc : string) (s : string) : list string :=
  match s with
  | EmptyString => [String.rev acc]
  | String c s' =>
      if Ascii.eqb c "."%char then String.rev acc :: split_dot "" s'
      else split_dot (String c acc) s'
  end.

Fixpoint numbers_of (parts : list string) : option (list N) :=
  match parts with
  | [] => Some []
  | p :: ps =>
      match (if String.eqb p "" then None else number_of 0 p), numbers_of ps with
      | Some n, Some ns => Some (n :: ns)
      | _, _ => None
      end
  end.

(** Dotted decimal versions such as [1.9.0], the part of the [packaging]
    grammar the examples need. *)
Definition parse_dotted (text : string) : option Version :=
  match numbers_of (split_dot "" text) with
  | Some ns => Some (mkVersion ns text)
  | None => None
  end.

Definition exe_v1 : list byte := [x01].
Definition exe_v2 : list byte := [x02].
Definition settings : dir := {["settings.json" := File [x7b; x7d]]}.

(** An archive is identified by its first byte: [x50] holds the new
    executable, [x51] holds only a read-me, anything else is not a zip
    file. *)
Definition toy_zip (data : list byte) : option (list zip_member) :=
  match data with
  | x50 :: _ => Some [mkMember "driver-box.exe" exe_v2]
  | x51 :: _ => Some [mkMember "README.txt" []]
  | _ => None
  end.

Definition good_response : response :=
  mkResponse (Some "application/zip") (Length 1) [[x50]] None.

Definition html_response : response :=
  mkResponse (Some "text/html") (Length 1) [[x3c]] None.

Definition no_exe_response : response :=
  mkResponse (Some "application/octet-stream") (Length 1) [[x51]] None.

Definition env_with (resp : response) (deny : fs_call -> bool) : Env :=
  mkEnv parse_dotted (fun _ => inr resp) toy_zip deny.

Definition allow_all : fs_call -> bool := fun _ => false.

(** The operating system refuses to unlink the executable. *)
Definition deny_unlink_exe (c : fs_call) : bool :=
  match c with
  | c_unlink ["driver-box.exe"] => true
  | _ => false
  end.

Definition draw0 : rand8 :=
  ("a", "B", "c", "D", "0", "1", "2", "3")%char.

(** An installation with an executable and a configuration directory. *)
Definition installed : dir :=
  <["driver-box.exe" := File exe_v1]> (<["conf" := Dir settings]> ∅).

Definition start (r : dir) : world := World r [] [draw0].

End Examples.

(** ** Vocabulary of the properties *)

(** How a computation ended, without the value it returned. *)
Inductive ending : Type :=
  | Returns
  | Raises (e : exn)
  | Loops.

Definition ending_of {A} (r : res A) : ending :=
  match r with
  | Ok _ => Returns
  | Raise e => Raises e
  | Diverge => Loops
  end.

(** [obeys R Q m]: from every state, [m] leads to a state related by [R],
    and the way it ends satisfies [Q]. *)
Definition obeys {A} (R : relation world) (Q : ending -> Prop) (m : M A)
    : Prop :=
  forall w, R w (snd (m w)) /\ Q (ending_of (fst (m w))).

(** It terminates, and an exception it raises satisfies [X]. *)
Definition raising (X : exn -> Prop) : ending -> Prop :=
  fun k =>
    match k with
    | Returns => True
    | Raises e => X e
    | Loops => False
    end.

(** The same, except that it may still be drawing random names. *)
Definition raising_or_looping (X : exn -> Prop) : ending -> Prop :=
  fun k =>
    match k with
    | Returns | Loops => True
    | Raises e => X e
    end.

(** Any exception. *)
Definition any_exn : exn -> Prop := fun _ => True.

(** The exceptions of the libraries, as opposed to those [main.py] raises
    itself. *)
Definition is_lib_error (e : exn) : Prop :=
  match e with
  | OSError _ _ | ShutilError _ | KeyError _ | BadZipFile
  | RequestException _ => True
  | _ => False
  end.

(** A relation on trees, read as a relation on states. *)
Definition on_root (P : relation dir) : relation world :=
  fun w w' => P (root w) (root w').

(** Nothing was printed. *)
Definition same_stdout : relation world :=
  fun w w' => stdout w' = stdout w.

(** [touches m F]: [m] returns or raises a library error, leaves the printed
    lines and the random draws alone, and either leaves the tree as it was or
    changes it as [F] says. *)
Definition touches (m : M unit) (F : relation dir) : Prop :=
  forall w,
    (exists r', snd (m w) = World r' (stdout w) (entropy w) /\
                (r' = root w \/ F (root w) r')) /\
    raising is_lib_error (ending_of (fst (m w))).

(** What the calls do to the tree: remove the node at a path; put a node
    at a path, a directory being replaced by a directory only; move a node
    from one path onto or into another. *)
Definition removes (p : path) : relation dir :=
  fun r r' => r' = remove_path r p.

Definition puts_over (p : path) : relation dir :=
  fun r r' =>
    exists n, put_path r p n = Some r' /\
              (is_dir r p = true -> is_dir_node n = true).

Definition moves (src dst : path) : relation dir :=
  fun r r' =>
    exists n real_dst,
      lookup_path r src = Some n /\
      (real_dst = dst \/ real_dst = dst ++ [basename src]) /\
      put_path (remove_path r src) real_dst n = Some r'.

(** [outside keys]: every top-level entry whose name is not in [keys] is as
    it was. *)
Definition outside (keys : list string) : relation dir :=
  fun r r' => forall k, k ∉ keys -> r' !! k = r !! k.

(** The top-level entry a path starts with lies in [keys]. *)
Definition rooted_in (keys : list string) (p : path) : Prop :=
  match p with
  | [] => True
  | k :: _ => k ∈ keys
  end.

(** The migration plan in the words of the specification: no-op when the
    majors agree; otherwise copy-config, unless the jump is 1 to 2 or 1 to
    anything from 5 on, which is unsupported. *)
Inductive MigrationPlan : Type :=
  | NoOp
  | CopyConfig
  | Unsupported.

Definition spec_planMigration (from_major to_major : N) : MigrationPlan :=
  if (from_major =? to_major)%N then NoOp
  else if (from_major =? 1)%N
          && ((to_major =? 2)%N || (5 <=? to_major)%N)
  then Unsupported
  else CopyConfig.

(** What carrying out a plan means for the updater. *)
Definition run_plan (E : Env) (self : Updater) (plan : MigrationPlan)
    : M unit :=
  match plan with
  | NoOp => ret tt
  | Unsupported => raise (NotImplementedError (msg_unsupported self))
  | CopyConfig =>
      print "▶ Migrating configuration..." ;;
      shutil_copytree E [".backup"; "conf"] ["conf"]
  end.

(** [scratch t keys]: while [t] is a directory it stays one, and nothing
    changes at top level except [t] and the entries named in [keys]. *)
Definition scratch (t : string) (keys : list string) : relation dir :=
  fun r r' =>
    is_dir r [t] = true ->
    is_dir r' [t] = true /\ outside (t :: keys) r r'.

(** As [outside keys], but entries with a name of eight characters (a
    scratch directory) are not spoken for. *)
Definition outside_unless_scratch (keys : list string) : relation dir :=
  fun r r' =>
    forall k, k ∉ keys -> String.length k ≠ 8 -> r' !! k = r !! k.

(** The exceptions the download-and-swap block can raise: library errors,
    and the [ValueError] of [int()] on a malformed length header. *)
Definition is_block_error (e : exn) : Prop :=
  is_lib_error e \/ exists err, e = ValueError (int_error_message err).

(** The exceptions [replace_executable] can raise. *)
Definition is_replace_error (e : exn) : Prop :=
  is_block_error e \/ e = InvalidArtifact.

(** Lines are only ever added to what was printed. *)
Definition stdout_grows : relation world :=
  fun w w' => stdout w `prefix_of` stdout w'.

(** What the transaction does before the download step: the constructor,
    [__enter__] and the summary. *)
Definition prelude (E : Env) (version_from version_to binary_type : string)
    (webview : bool) : M Updater :=
  mgr <- __init__ E version_from version_to binary_type webview ;;
  updater <- __enter__ E mgr ;;
  print_summary updater ;;
  ret updater.

(** Text of ASCII characters only: its length in bytes is its length in
    characters, which is what [str.format] pads by. *)
Definition ascii_text (s : string) : Prop :=
  Forall (fun c => (N_of_ascii c < 128)%N) (String.list_ascii_of_string s).

(** What the extraction of an archive leaves at [driver-box.exe] in the
    scratch directory: the payload of the member [ZipFile.getinfo] finds
    under that name, if there is one. *)
Definition extracted_exe (members : list zip_member) : option node :=
  match getinfo members "driver-box.exe" with
  | Some m => Some (File (zm_data m))
  | None => None
  end.

(** Nothing of the installation [r0] is lost in [r]: the backup root is a
    directory, every entry of the manifest is either live as it was, with no
    copy in the backup root, or has moved to the backup root, and the other
    entries are as they were. *)
Definition held (r0 r : dir) : Prop :=
  is_dir r [".backup"] = true /\
  (forall name, name ∈ manifest ->
     (r !! name = r0 !! name /\ lookup_path r [".backup"; name] = None) \/
     (r !! name = None /\ lookup_path r [".backup"; name] = r0 !! name)) /\
  (forall k, k ∉ manifest -> k ≠ ".backup" -> r !! k = r0 !! k).
(** * Properties *)

(** ** Paths of length one and two *)

Lemma lookup_path_1 (r : dir) (k : string) : lookup_path r [k] = r !! k.
Proof. unfold lookup_path; simpl. by destruct (r !! k). Qed.

Lemma lookup_path_2 (r : dir) (a b : string) :
  lookup_path r [a; b] =
  match r !! a with Some (Dir d) => d !! b | _ => None end.
Proof.
  unfold lookup_path; simpl.
  destruct (r !! a) as [[|d]|]; try done. by destruct (d !! b).
Qed.

Lemma exists_1 (r : dir) (k : string) :
  exists_ r [k] = match r !! k with Some _ => true | None => false end.
Proof. unfold exists_. by rewrite lookup_path_1. Qed.

Lemma is_dir_1 (r : dir) (k : string) :
  is_dir r [k] = match r !! k with Some (Dir _) => true | _ => false end.
Proof. unfold is_dir. by rewrite lookup_path_1. Qed.

Lemma exists_2 (r : dir) (a b : string) :
  exists_ r [a; b] =
  match r !! a with
  | Some (Dir d) => match d !! b with Some _ => true | None => false end
  | _ => false
  end.
Proof. unfold exists_. rewrite lookup_path_2. by destruct (r !! a) as [[|d]|]. Qed.

(** ** Composing [obeys] *)

Section Obeys.

Context (R : relation world) `{!PreOrder R} (Q : ending -> Prop).

Lemma obeys_ret {A} (a : A) : Q Returns -> obeys R Q (ret a).
Proof. intros HQ w; split; [reflexivity | done]. Qed.

Lemma obeys_raise {A} (e : exn) : Q (Raises e) -> obeys R Q (raise (A := A) e).
Proof. intros He w; split; [reflexivity | done]. Qed.

Lemma obeys_get_root : Q Returns -> obeys R Q get_root.
Proof. intros HQ w; split; [reflexivity | done]. Qed.

Lemma obeys_bind {A B} (m : M A) (k : A -> M B) :
  obeys R Q m -> (forall a, obeys R Q (k a)) -> obeys R Q (bind m k).
Proof.
  intros Hm Hk w. destruct (Hm w) as [Hr Hx]. unfold bind.
  destruct (m w) as [[a| e |] w1]; simpl in *; [|done..].
  destruct (Hk a w1) as [Hr' Hx']. split; [by etrans | done].
Qed.

Lemma obeys_for_each {A} (xs : list A) (body : A -> M unit) :
  Q Returns -> (forall x, obeys R Q (body x)) -> obeys R Q (for_each xs body).
Proof.
  intros HQ Hb. induction xs as [|x xs IH]; simpl.
  - by apply obeys_ret.
  - apply obeys_bind; auto.
Qed.

Lemma obeys_try_finally {A} (body : M A) (fin : M unit) :
  obeys R Q body -> obeys R Q fin -> obeys R Q (try_finally body fin).
Proof.
  intros Hb Hf w. destruct (Hb w) as [Hr Hx]. unfold try_finally.
  destruct (body w) as [[a| e |] w1]; simpl in *; [| |done];
    destruct (Hf w1) as [Hr' Hx'];
    destruct (fin w1) as [[[]| e' |] w2]; simpl in *;
    (split; [by etrans | done]).
Qed.

Lemma obeys_ignoring_errors (Y : exn -> Prop) (m : M unit) :
  Q Returns -> obeys R (raising Y) m -> obeys R Q (ignoring_errors m).
Proof.
  intros HQ Hm w. destruct (Hm w) as [Hr Hx]. unfold ignoring_errors.
  by destruct (m w) as [[[]| e |] w1].
Qed.

Lemma obeys_guarded (E : Env) (c : fs_call) (p : path) (m : M unit) :
  Q (Raises (OSError PermissionError p)) ->
  obeys R Q m -> obeys R Q (guarded E c p m).
Proof.
  intros Hx Hm. unfold guarded.
  destruct (denied E c); [by apply obeys_raise | done].
Qed.

Lemma obeys_if {A} (b : bool) (m1 m2 : M A) :
  obeys R Q m1 -> obeys R Q m2 -> obeys R Q (if b then m1 else m2).
Proof. by destruct b. Qed.

(** A call that [touches] the tree within [F] obeys every relation that
    [F] implies. *)
Lemma obeys_touches (m : M unit) (F : relation dir) :
  touches m F ->
  (forall w r', F (root w) r' -> R w (World r' (stdout w) (entropy w))) ->
  (forall k, raising is_lib_error k -> Q k) ->
  obeys R Q m.
Proof.
  intros Hm HF HQ w. destruct (Hm w) as [(r' & Hw & Hr) Hk].
  split; [|by apply HQ]. rewrite Hw. destruct Hr as [->|Hr].
  - by destruct w.
  - by apply HF.
Qed.

End Obeys.

Lemma obeys_weaken {A} (R : relation world) (Q Q' : ending -> Prop) (m : M A) :
  (forall k, Q k -> Q' k) -> obeys R Q m -> obeys R Q' m.
Proof. intros Hxy Hm w. destruct (Hm w). split; auto. Qed.

#[export] Instance on_root_preorder (P : relation dir) `{!PreOrder P} :
  PreOrder (on_root P).
Proof.
  split.
  - intros w. unfold on_root. reflexivity.
  - intros w1 w2 w3 H12 H23. unfold on_root in *. by etrans.
Qed.

#[export] Instance same_stdout_preorder : PreOrder same_stdout.
Proof.
  split.
  - by intros w.
  - intros w1 w2 w3 H12 H23. unfold same_stdout in *. congruence.
Qed.

Lemma obeys_print (P : relation dir) `{!PreOrder P} (Q : ending -> Prop)
    (line : string) :
  Q Returns -> obeys (on_root P) Q (print line).
Proof. intros HQ w; split; [unfold on_root; simpl; reflexivity | done]. Qed.

(** ** What a call can change

    A call on a path changes at most the top-level entry the path starts
    with. *)

Lemma remove_path_cons2 (r : dir) (t c : string) (cs : path) :
  remove_path r (t :: c :: cs) =
  match r !! t with
  | Some (Dir sub) => <[t := Dir (remove_path sub (c :: cs))]> r
  | _ => r
  end.
Proof. reflexivity. Qed.

Lemma put_path_cons2 (r : dir) (t c : string) (cs : path) (n : node) :
  put_path r (t :: c :: cs) n =
  match r !! t with
  | Some (Dir sub) =>
      match put_path sub (c :: cs) n with
      | Some sub' => Some (<[t := Dir sub']> r)
      | None => None
      end
  | _ => None
  end.
Proof. reflexivity. Qed.

Lemma remove_path_other (r : dir) (k : string) (cs : path) (j : string) :
  j ≠ k -> remove_path r (k :: cs) !! j = r !! j.
Proof.
  intros Hne. destruct cs as [|c cs].
  - simpl. by rewrite lookup_delete_ne.
  - rewrite remove_path_cons2.
    destruct (r !! k) as [[|sub]|]; try done. by rewrite lookup_insert_ne.
Qed.

Lemma put_path_other (r r' : dir) (k : string) (cs : path) (n : node)
    (j : string) :
  put_path r (k :: cs) n = Some r' -> j ≠ k -> r' !! j = r !! j.
Proof.
  intros Hput Hne. destruct cs as [|c cs].
  - injection Hput as <-. by rewrite lookup_insert_ne.
  - rewrite put_path_cons2 in Hput.
    destruct (r !! k) as [[|sub]|]; try done.
    destruct (put_path sub (c :: cs) n); try done.
    injection Hput as <-. by rewrite lookup_insert_ne.
Qed.

Lemma put_path_inside (r r' d : dir) (t c : string) (cs : path) (n : node) :
  r !! t = Some (Dir d) ->
  put_path r (t :: c :: cs) n = Some r' ->
  exists d', put_path d (c :: cs) n = Some d' /\ r' = <[t := Dir d']> r.
Proof.
  intros Ht Hput. rewrite put_path_cons2, Ht in Hput.
  destruct (put_path d (c :: cs) n) as [d'|]; [|done].
  injection Hput as <-. eauto.
Qed.

#[export] Instance outside_preorder (keys : list string) :
  PreOrder (outside keys).
Proof.
  split.
  - by intros r k _.
  - intros r1 r2 r3 H12 H23 k Hk. by rewrite H23, H12.
Qed.

Lemma outside_mono (keys keys' : list string) (r r' : dir) :
  keys ⊆ keys' -> outside keys r r' -> outside keys' r r'.
Proof. intros Hsub H k Hk. apply H. intros Hin. apply Hk, Hsub, Hin. Qed.

Lemma remove_path_outside (keys : list string) (r : dir) (p : path) :
  rooted_in keys p -> outside keys r (remove_path r p).
Proof.
  destruct p as [|k cs]; intros Hp j Hj; [done|].
  apply remove_path_other. intros ->. by apply Hj.
Qed.

Lemma put_path_outside (keys : list string) (r r' : dir) (p : path)
    (n : node) :
  rooted_in keys p -> put_path r p n = Some r' -> outside keys r r'.
Proof.
  destruct p as [|k cs]; intros Hp Hput j Hj; [done|].
  eapply put_path_other; [done|]. intros ->. by apply Hj.
Qed.


(** ** Running a computation symbolically

    Equations that push a state through the monad's operations; [exec]
    rewrites with them until a test on the tree is in the way. *)

Lemma run_bind {A B} (m : M A) (k : A -> M B) (w : world) :
  bind m k w =
  match m w with
  | (Ok a, w') => k a w'
  | (Raise e, w') => (Raise e, w')
  | (Diverge, w') => (Diverge, w')
  end.
Proof. reflexivity. Qed.

Lemma run_ret {A} (a : A) (w : world) : ret a w = (Ok a, w).
Proof. reflexivity. Qed.

Lemma run_raise {A} (e : exn) (w : world) : raise (A := A) e w = (Raise e, w).
Proof. reflexivity. Qed.

Lemma run_print (line : string) (w : world) :
  print line w = (Ok tt, World (root w) (stdout w ++ [line]) (entropy w)).
Proof. reflexivity. Qed.

Lemma run_get_root (w : world) : get_root w = (Ok (root w), w).
Proof. reflexivity. Qed.

Lemma run_set_root (d : dir) (w : world) :
  set_root d w = (Ok tt, World d (stdout w) (entropy w)).
Proof. reflexivity. Qed.

Lemma run_guarded (E : Env) (c : fs_call) (p : path) (m : M unit) (w : world) :
  guarded E c p m w =
  if denied E c then (Raise (OSError PermissionError p), w) else m w.
Proof. unfold guarded. by destruct (denied E c). Qed.

Lemma run_ignoring_errors (m : M unit) (w : world) :
  ignoring_errors m w =
  match m w with
  | (Raise _, w') => (Ok tt, w')
  | other => other
  end.
Proof. reflexivity. Qed.

Lemma run_for_each_nil {A} (body : A -> M unit) (w : world) :
  for_each [] body w = (Ok tt, w).
Proof. reflexivity. Qed.

Lemma run_for_each_cons {A} (x : A) (xs : list A) (body : A -> M unit)
    (w : world) :
  for_each (x :: xs) body w = bind (body x) (fun _ => for_each xs body) w.
Proof. reflexivity. Qed.

Lemma run_if {A} (b : bool) (m1 m2 : M A) (w : world) :
  (if b then m1 else m2) w = if b then m1 w else m2 w.
Proof. by destruct b. Qed.

Lemma root_World (r : dir) (o : list string) (e : list rand8) :
  root (World r o e) = r.
Proof. reflexivity. Qed.

Lemma stdout_World (r : dir) (o : list string) (e : list rand8) :
  stdout (World r o e) = o.
Proof. reflexivity. Qed.

Lemma entropy_World (r : dir) (o : list string) (e : list rand8) :
  entropy (World r o e) = e.
Proof. reflexivity. Qed.

Lemma remove_path_1 (r : dir) (k : string) : remove_path r [k] = delete k r.
Proof. reflexivity. Qed.

Lemma put_path_1 (r : dir) (k : string) (n : node) :
  put_path r [k] n = Some (<[k := n]> r).
Proof. reflexivity. Qed.

Lemma remove_path_2 (r : dir) (a b : string) :
  remove_path r [a; b] =
  match r !! a with
  | Some (Dir sub) => <[a := Dir (delete b sub)]> r
  | _ => r
  end.
Proof. reflexivity. Qed.

Lemma put_path_2 (r : dir) (a b : string) (n : node) :
  put_path r [a; b] n =
  match r !! a with
  | Some (Dir sub) => Some (<[a := Dir (<[b := n]> sub)]> r)
  | _ => None
  end.
Proof. simpl. by destruct (r !! a) as [[|sub]|]. Qed.

Create Rewrite HintDb run.

#[export] Hint Rewrite @run_bind @run_ret @run_raise run_print run_get_root
  run_set_root run_guarded run_ignoring_errors @run_for_each_nil
  @run_for_each_cons root_World stdout_World entropy_World
  lookup_path_1 lookup_path_2 exists_1 exists_2 is_dir_1
  remove_path_1 put_path_1 remove_path_2 put_path_2 : run.

Lemma dir_lookup_insert_eq (r : dir) (k : string) (n : node) :
  <[k := n]> r !! k = Some n.
Proof. apply lookup_insert_eq. Qed.

Lemma dir_lookup_insert_ne (r : dir) (k j : string) (n : node) :
  k ≠ j -> <[k := n]> r !! j = r !! j.
Proof. apply lookup_insert_ne. Qed.

Lemma dir_lookup_delete_eq (r : dir) (k : string) : delete k r !! k = None.
Proof. apply lookup_delete_eq. Qed.

Lemma dir_lookup_delete_ne (r : dir) (k j : string) :
  k ≠ j -> delete k r !! j = r !! j.
Proof. apply lookup_delete_ne. Qed.

Lemma dir_lookup_empty (k : string) : (∅ : dir) !! k = None.
Proof. apply lookup_empty. Qed.

Lemma dir_insert_delete_eq (r : dir) (k : string) (n : node) :
  <[k := n]> (delete k r) = <[k := n]> r.
Proof. apply insert_delete_eq. Qed.

Lemma dir_insert_insert_eq (r : dir) (k : string) (n n' : node) :
  <[k := n]> (<[k := n']> r) = <[k := n]> r.
Proof. apply insert_insert_eq. Qed.

#[export] Hint Rewrite dir_lookup_insert_eq dir_lookup_delete_eq
  dir_lookup_empty dir_insert_delete_eq dir_insert_insert_eq : run.
#[export] Hint Rewrite dir_lookup_insert_ne dir_lookup_delete_ne
  using done : run.

Ltac exec :=
  repeat (progress
    (unfold dir_backup;
     cbn [app fst snd negb];
     autorewrite with run;
     cbv beta iota zeta)).

Lemma not_in_1 (k a : string) : k ≠ a -> k ∉ [a].
Proof. by rewrite list_elem_of_singleton. Qed.

(** ** What each library call touches *)

Ltac touch_split :=
  split; [eexists; split; [reflexivity | first [by left | right]] | done].

Ltac touch_done := by (destruct_all world; touch_split).

Lemma touches_ignoring_errors (m : M unit) (F : relation dir) :
  touches m F -> touches (ignoring_errors m) F.
Proof.
  intros Hm w. destruct (Hm w) as [Hw Hk]. unfold ignoring_errors.
  by destruct (m w) as [[[]| e |] w1].
Qed.

Lemma extract_member_error (cs : path) (d : dir) (p : path)
    (payload : option (list byte)) (e : exn) :
  extract_member d cs p payload = inl e -> is_lib_error e.
Proof.
  revert d p. induction cs as [|c cs IH]; intros d p He.
  - simpl in He. destruct payload; by simplify_eq.
  - destruct cs as [|c' cs].
    + simpl in He.
      destruct payload, (d !! c) as [[?|?]|]; by simplify_eq.
    + change (extract_member d (c :: c' :: cs) p payload) with
        (match d !! c with
         | Some (File _) => inl (OSError NotADirectoryError (p ++ [c; c']))
         | Some (Dir sub) =>
             match extract_member sub (c' :: cs) (p ++ [c]) payload with
             | inr sub' => inr (<[c := Dir sub']> d)
             | inl e => inl e
             end
         | None =>
             match extract_member ∅ (c' :: cs) (p ++ [c]) payload with
             | inr sub' => inr (<[c := Dir sub']> d)
             | inl e => inl e
             end
         end) in He.
      destruct (d !! c) as [[?|sub]|].
      * by simplify_eq.
      * destruct (extract_member sub (c' :: cs) (p ++ [c]) payload) eqn:Hs;
          simplify_eq. by eapply IH.
      * destruct (extract_member ∅ (c' :: cs) (p ++ [c]) payload) eqn:Hs;
          simplify_eq. by eapply IH.
Qed.

Section Touches.

Context (E : Env).

Lemma rmtree_strict_touches (p : path) :
  touches (rmtree_strict E p) (removes p).
Proof.
  intros w. unfold rmtree_strict. exec.
  destruct (denied E (c_rmtree p)); exec; [touch_done|].
  destruct (lookup_path (root w) p) as [[data|d]|]; exec; touch_done.
Qed.

Lemma shutil_rmtree_touches (p : path) (ignore_errors : bool) :
  touches (shutil_rmtree E p ignore_errors) (removes p).
Proof.
  unfold shutil_rmtree. destruct ignore_errors;
    [apply touches_ignoring_errors|]; apply rmtree_strict_touches.
Qed.

Lemma unlink_touches (p : path) : touches (unlink E p) (removes p).
Proof.
  intros w. unfold unlink. exec.
  destruct (denied E (c_unlink p)); exec; [touch_done|].
  destruct (lookup_path (root w) p) as [[data|d]|]; exec; touch_done.
Qed.

Lemma mkdir_touches (p : path) : touches (mkdir E p) (puts_over p).
Proof.
  intros w. unfold mkdir. exec.
  destruct (denied E (c_mkdir p)); exec; [touch_done|].
  destruct (exists_ (root w) p) eqn:Hex; exec; [touch_done|].
  destruct (put_path (root w) p (Dir ∅)) as [r'|] eqn:Hput; exec;
    [|touch_done].
  touch_split. by exists (Dir ∅).
Qed.

Lemma shutil_copytree_touches (src dst : path) :
  touches (shutil_copytree E src dst) (puts_over dst).
Proof.
  intros w. unfold shutil_copytree. exec.
  destruct (denied E (c_copytree src dst)); exec; [touch_done|].
  destruct (lookup_path (root w) src) as [[data|d]|]; exec; try touch_done.
  destruct (exists_ (root w) dst) eqn:Hex; exec; [touch_done|].
  destruct (put_path (root w) dst (Dir d)) as [r'|] eqn:Hput; exec;
    [|touch_done].
  touch_split. by exists (Dir d).
Qed.

Lemma open_wb_touches (p : path) : touches (open_wb E p) (puts_over p).
Proof.
  intros w. unfold open_wb. exec.
  destruct (denied E (c_open_wb p)); exec; [touch_done|].
  destruct (lookup_path (root w) p) as [[data|d]|] eqn:Hl; exec;
    try touch_done;
    (destruct (put_path (root w) p (File [])) as [r'|] eqn:Hput; exec;
     [|touch_done]);
    touch_split; exists (File []); (split; [done|]);
    unfold is_dir; by rewrite Hl.
Qed.

Lemma write_touches (p : path) (chunk : list byte) :
  touches (write p chunk) (puts_over p).
Proof.
  intros w. unfold write. exec.
  destruct (lookup_path (root w) p) as [[data|d]|] eqn:Hl; exec;
    try touch_done.
  destruct (put_path (root w) p (File (data ++ chunk))) as [r'|] eqn:Hput;
    exec; [|touch_done].
  touch_split. exists (File (data ++ chunk)). split; [done|].
  unfold is_dir. by rewrite Hl.
Qed.

Lemma shutil_move_touches (src dst : path) :
  touches (shutil_move E src dst) (moves src dst).
Proof.
  intros w. unfold shutil_move. exec.
  destruct (denied E (c_move src dst)); exec; [touch_done|].
  destruct (lookup_path (root w) src) as [n|] eqn:Hsrc; exec; [|touch_done].
  set (real_dst := if is_dir (root w) dst then dst ++ [basename src] else dst).
  assert (Hreal : real_dst = dst \/ real_dst = dst ++ [basename src]).
  { unfold real_dst. destruct (is_dir (root w) dst); auto. }
  destruct (lookup_path (root w) real_dst) as [existing|]; exec.
  - destruct (is_dir (root w) dst); exec; [touch_done|].
    destruct n as [data|d], existing as [data'|d']; exec; try touch_done.
    destruct (put_path (remove_path (root w) src) real_dst (File data))
      as [r'|] eqn:Hput; exec; [|touch_done].
    touch_split. by exists (File data), real_dst.
  - destruct (put_path (remove_path (root w) src) real_dst n)
      as [r'|] eqn:Hput; exec; [|touch_done].
    touch_split. by exists n, real_dst.
Qed.

Lemma zip_extract_touches (members : list zip_member) (name : string)
    (dest : path) :
  touches (zip_extract E members name dest) (puts_over dest).
Proof.
  intros w. unfold zip_extract. exec.
  destruct (denied E (c_extract name dest)); exec; [touch_done|].
  destruct (getinfo members name) as [m|]; exec; [|touch_done].
  destruct (lookup_path (root w) dest) as [[data|d]|]; exec; try touch_done.
  match goal with
  | |- context [extract_member ?a ?b ?c ?d] =>
      destruct (extract_member a b c d) as [e|d'] eqn:Hex
  end; exec.
  - assert (He : is_lib_error e) by by eapply extract_member_error.
    touch_done.
  - destruct (put_path (root w) dest (Dir d')) as [r'|] eqn:Hput; exec;
      [|touch_done].
    touch_split. by exists (Dir d').
Qed.

End Touches.

(** Footprints rooted in [keys] stay [outside keys]. *)
Lemma removes_outside (keys : list string) (p : path) (r r' : dir) :
  rooted_in keys p -> removes p r r' -> outside keys r r'.
Proof. intros Hp ->. by apply remove_path_outside. Qed.

Lemma puts_over_outside (keys : list string) (p : path) (r r' : dir) :
  rooted_in keys p -> puts_over p r r' -> outside keys r r'.
Proof. intros Hp (n & Hput & _). by eapply put_path_outside. Qed.

Lemma moves_outside (keys : list string) (src dst : path) (r r' : dir) :
  rooted_in keys src -> dst ≠ [] -> rooted_in keys dst ->
  moves src dst r r' -> outside keys r r'.
Proof.
  intros Hsrc Hne Hdst (n & real_dst & _ & Hreal & Hput).
  trans (remove_path r src); [by apply remove_path_outside|].
  eapply put_path_outside; [|done].
  destruct Hreal as [->| ->]; [done|]. by destruct dst.
Qed.

Lemma touches_same_stdout (m : M unit) (F : relation dir) :
  touches m F -> obeys same_stdout (raising is_lib_error) m.
Proof. intros Hm. eapply obeys_touches; [apply _ | done | done | done]. Qed.

Lemma touches_outside (m : M unit) (F : relation dir) (keys : list string) :
  touches m F ->
  (forall r r', F r r' -> outside keys r r') ->
  obeys (on_root (outside keys)) (raising is_lib_error) m.
Proof.
  intros Hm HF. eapply obeys_touches; [apply _ | done | | done].
  intros w r' Hr. by apply HF.
Qed.

(** ** Discarding the backup *)

Lemma cleanup_returns (E : Env) (self : Updater) (w : world) :
  fst (cleanup E self w) = Ok tt.
Proof.
  unfold cleanup, shutil_rmtree, rmtree_strict. exec.
  destruct (denied E (c_rmtree [".backup"])); exec; [done|].
  by destruct (root w !! ".backup") as [[|d]|]; exec.
Qed.

Lemma cleanup_outside (E : Env) (self : Updater) :
  obeys (on_root (outside [".backup"])) (raising is_lib_error) (cleanup E self).
Proof.
  unfold cleanup. apply obeys_bind; [apply _ | by apply obeys_print; [apply _|] |].
  intros _. eapply touches_outside; [apply shutil_rmtree_touches|].
  intros r r'. apply removes_outside. simpl. by left.
Qed.

Lemma cleanup_stdout (E : Env) (self : Updater) (w : world) :
  stdout (snd (cleanup E self w)) = stdout w ++ ["▶ Cleaning up backup..."].
Proof.
  unfold cleanup, shutil_rmtree, rmtree_strict. exec.
  destruct (denied E (c_rmtree [".backup"])); exec; [done|].
  by destruct (root w !! ".backup") as [[|d]|]; exec.
Qed.

(** C8. [cleanup] (the discard operation) returns normally from every
    state, whatever the backup root is (a directory, a file, absent) and
    whatever the operating system refuses; so a second call right after the
    first returns normally too, as does a call with no backup root. No
    top-level entry other than [.backup] is changed by one call or by two. *)
Theorem cleanup_never_raises_keeps_live (E : Env) (self : Updater) (w : world) :
  let w1 := snd (cleanup E self w) in
  let w2 := snd (cleanup E self w1) in
  fst (cleanup E self w) = Ok tt /\
  fst (cleanup E self w1) = Ok tt /\
  (forall k, k ≠ ".backup" ->
     root w1 !! k = root w !! k /\ root w2 !! k = root w !! k).
Proof.
  intros w1 w2. split; [apply cleanup_returns|]. split; [apply cleanup_returns|].
  intros k Hk.
  assert (Hout : forall v, root (snd (cleanup E self v)) !! k = root v !! k).
  { intros v. destruct (cleanup_outside E self v) as [H _]. by apply H, not_in_1. }
  split; [apply Hout|]. unfold w2. rewrite Hout. apply Hout.
Qed.

(** ** The constructor *)

(** When nothing is refused and the backup root is not a regular file, the
    constructor leaves an empty backup root behind, whether it returns or
    raises. *)
Lemma init_resets_backup_root (E : Env) (vf vt bt : string) (wv : bool)
    (w : world) :
  denied E (c_rmtree dir_backup) = false ->
  denied E (c_mkdir dir_backup) = false ->
  (forall data, root w !! ".backup" ≠ Some (File data)) ->
  __init__ E vf vt bt wv w =
  (match version_parse E vf with
   | None => Raise (InvalidVersion vf)
   | Some pf =>
       match version_parse E vt with
       | None => Raise (InvalidVersion vt)
       | Some pt =>
           if (major pt <? major pf)%N then Raise DowngradeNotSupported
           else Ok (mkUpdater pf pt bt wv)
       end
   end, World (<[".backup" := Dir ∅]> (root w)) (stdout w) (entropy w)).
Proof.
  intros Hrm Hmk Hfile.
  unfold __init__, shutil_rmtree, rmtree_strict, mkdir, parse_version.
  unfold dir_backup in *. exec.
  destruct (root w !! ".backup") as [[data|d]|] eqn:Hb;
    [by destruct (Hfile data) | ..];
    repeat (exec; rewrite ?Hrm, ?Hmk, ?Hb);
    (destruct (version_parse E vf) as [pf|]; exec; [|done]);
    (destruct (version_parse E vt) as [pt|]; exec; [|done]);
    by destruct (major pt <? major pf)%N; exec.
Qed.

(** In every environment the constructor prints nothing and changes no
    entry but [.backup]; with a downgrade it raises. *)
Lemma init_downgrade_raises (E : Env) (vf vt bt : string) (wv : bool)
    (pf pt : Version) (w : world) :
  version_parse E vf = Some pf ->
  version_parse E vt = Some pt ->
  (major pt < major pf)%N ->
  exists e w', __init__ E vf vt bt wv w = (Raise e, w') /\
               stdout w' = stdout w /\
               outside [".backup"] (root w) (root w').
Proof.
  intros Hpf Hpt Hlt. apply N.ltb_lt in Hlt.
  unfold __init__, shutil_rmtree, rmtree_strict, mkdir, parse_version.
  unfold dir_backup in *. rewrite Hpf, Hpt.
  assert (Hins : forall v, outside [".backup"] (root w) (<[".backup" := v]> (root w))).
  { intros v k Hk. apply lookup_insert_ne. intros <-. apply Hk. by left. }
  assert (Hdel : outside [".backup"] (root w) (delete ".backup" (root w))).
  { intros k Hk. apply lookup_delete_ne. intros <-. apply Hk. by left. }
  destruct (denied E (c_rmtree [".backup"])) eqn:Hrm,
    (denied E (c_mkdir [".backup"])) eqn:Hmk,
    (root w !! ".backup") as [[data|d]|] eqn:Hb;
    repeat (exec; rewrite ?Hrm, ?Hmk, ?Hb, ?Hlt);
    eexists _, _; (split; [reflexivity|]); (split; [reflexivity|]);
    first [reflexivity | apply Hins | apply Hdel].
Qed.

(** ** Downgrades *)

Lemma transaction_init_raise (E : Env) (vf vt bt : string) (wv : bool)
    (w w' : world) (e : exn) :
  __init__ E vf vt bt wv w = (Raise e, w') ->
  transaction E vf vt bt wv w = (Raise e, w').
Proof.
  intros Hinit. unfold transaction, with_Updater. by rewrite run_bind, Hinit.
Qed.

(** C1, as the code has it. With a downgrade ([from.major > to.major]) the
    transaction always fails, prints nothing (neither [backup] nor the body
    ran) and leaves every entry other than the backup root as it was. The
    backup root itself is reset first: when the operating system refuses
    nothing and [.backup] is not a regular file, the failure is
    [DowngradeNotSupported] and the tree afterwards is the original one with
    [.backup] replaced by an empty directory. *)
Theorem downgrade_rejected_after_backup_reset (E : Env) (vf vt bt : string)
    (wv : bool) (pf pt : Version) (w : world) :
  version_parse E vf = Some pf ->
  version_parse E vt = Some pt ->
  (major pt < major pf)%N ->
  let out := transaction E vf vt bt wv w in
  (exists e, fst out = Raise e) /\
  stdout (snd out) = stdout w /\
  (forall k, k ≠ ".backup" -> root (snd out) !! k = root w !! k) /\
  (denied E (c_rmtree dir_backup) = false ->
   denied E (c_mkdir dir_backup) = false ->
   (forall data, root w !! ".backup" ≠ Some (File data)) ->
   out = (Raise DowngradeNotSupported,
          World (<[".backup" := Dir ∅]> (root w)) (stdout w) (entropy w))).
Proof.
  intros Hpf Hpt Hlt out.
  destruct (init_downgrade_raises E vf vt bt wv pf pt w Hpf Hpt Hlt)
    as (e & w' & Hinit & Hout & Hframe).
  assert (Hrun : out = (Raise e, w')) by by apply transaction_init_raise.
  rewrite Hrun. simpl. split; [by exists e|]. split; [done|].
  split; [intros k Hk; by apply Hframe, not_in_1|].
  intros Hrm Hmk Hfile.
  rewrite (init_resets_backup_root E vf vt bt wv w Hrm Hmk Hfile) in Hinit.
  rewrite Hpf, Hpt in Hinit. apply N.ltb_lt in Hlt. rewrite Hlt in Hinit.
  congruence.
Qed.

Lemma downgrade_rejected_after_backup_reset_witness :
  transaction (Examples.env_with Examples.good_response Examples.allow_all)
    "2.0.0" "1.0.0" "x64" false (Examples.start Examples.installed) =
  (Raise DowngradeNotSupported,
   World (<[".backup" := Dir ∅]> Examples.installed) [] [Examples.draw0]).
Proof.
  apply (downgrade_rejected_after_backup_reset
           (Examples.env_with Examples.good_response Examples.allow_all)
           "2.0.0" "1.0.0" "x64" false
           (mkVersion [2; 0; 0]%N "2.0.0") (mkVersion [1; 0; 0]%N "1.0.0")
           (Examples.start Examples.installed));
    [reflexivity | reflexivity | reflexivity | reflexivity | reflexivity |].
  intros data. vm_compute. discriminate.
Defined.

(** C1 as stated fails: a downgrade is refused only after the constructor
    has reset the backup root. Starting without a backup root, one exists
    afterwards; starting with a backup root that holds a directory, it is
    empty afterwards. *)
Lemma downgrade_mutates_backup_root :
  let E := Examples.env_with Examples.good_response Examples.allow_all in
  let fresh := Examples.start Examples.installed in
  let stale :=
    Examples.start (<[".backup" := Dir Examples.settings]> Examples.installed) in
  let run w := transaction E "2.0.0" "1.0.0" "x64" false w in
  fst (run fresh) = Raise DowngradeNotSupported /\
  root fresh !! ".backup" = None /\
  root (snd (run fresh)) !! ".backup" = Some (Dir ∅) /\
  root (snd (run fresh)) ≠ root fresh /\
  fst (run stale) = Raise DowngradeNotSupported /\
  root stale !! ".backup" = Some (Dir Examples.settings) /\
  root (snd (run stale)) !! ".backup" = Some (Dir ∅).
Proof.
  cbv zeta. repeat split; try (vm_compute; reflexivity).
  intros Heq. apply (f_equal (fun r : dir => r !! ".backup")) in Heq.
  vm_compute in Heq. discriminate.
Qed.

(** ** The migration plan *)

(** C3. [migrate_config] carries out exactly the plan of the specification:
    it does nothing when the majors agree, raises [NotImplementedError]
    (UnsupportedMigration) exactly when [from.major = 1] and [to.major] is 2
    or at least 5, and copies [.backup/conf] to [conf] in every other case;
    1 to 3 and 1 to 4 are copy-config. *)
Theorem migrate_config_follows_plan (E : Env) (self : Updater) :
  let f := major (version_from self) in
  let t := major (version_to self) in
  migrate_config E self = run_plan E self (spec_planMigration f t) /\
  (spec_planMigration f t = NoOp <-> f = t) /\
  (spec_planMigration f t = Unsupported <->
     f = 1%N /\ (t = 2%N \/ (5 <= t)%N)) /\
  (spec_planMigration f t = CopyConfig <->
     f ≠ t /\ ~ (f = 1%N /\ (t = 2%N \/ (5 <= t)%N))) /\
  (forall w, run_plan E self NoOp w = (Ok tt, w)) /\
  (forall w, run_plan E self Unsupported w =
             (Raise (NotImplementedError (msg_unsupported self)), w)) /\
  spec_planMigration 1 3 = CopyConfig /\
  spec_planMigration 1 4 = CopyConfig.
Proof.
  intros f t.
  assert (Hdeny : ((f =? 1)%N && ((t =? 2)%N || (5 <=? t)%N) = true) <->
                  f = 1%N /\ (t = 2%N \/ (5 <= t)%N)).
  { rewrite andb_true_iff, orb_true_iff, !N.eqb_eq, N.leb_le. tauto. }
  split; [|split; [|split; [|split]]].
  - unfold migrate_config, spec_planMigration. fold f t.
    destruct (f =? t)%N; [done|].
    by destruct ((f =? 1)%N && ((t =? 2)%N || (5 <=? t)%N)).
  - unfold spec_planMigration. destruct (N.eqb_spec f t) as [Heq|Hne].
    + done.
    + by destruct ((f =? 1)%N && ((t =? 2)%N || (5 <=? t)%N)).
  - unfold spec_planMigration. destruct (N.eqb_spec f t) as [Heq|Hne].
    + split; [done|]. intros [-> Ht]. lia.
    + destruct ((f =? 1)%N && ((t =? 2)%N || (5 <=? t)%N)) eqn:Hd.
      * split; [intros _; by apply Hdeny | done].
      * split; [done|]. intros Hc. apply Hdeny in Hc. congruence.
  - unfold spec_planMigration. destruct (N.eqb_spec f t) as [Heq|Hne].
    + split; [done|]. by intros [Hne _].
    + destruct ((f =? 1)%N && ((t =? 2)%N || (5 <=? t)%N)) eqn:Hd.
      * split; [done|]. intros [_ Hn]. destruct Hn. by apply Hdeny.
      * split; [|done]. intros _. split; [done|]. intros Hc.
        apply Hdeny in Hc. congruence.
  - repeat split.
Qed.
(** ** The calls when nothing is in the way *)

Section Runs.

Context (E : Env).

Lemma run_rmtree_dir (p : path) (ignore_errors : bool) (w : world) (d : dir) :
  denied E (c_rmtree p) = false ->
  lookup_path (root w) p = Some (Dir d) ->
  shutil_rmtree E p ignore_errors w =
  (Ok tt, World (remove_path (root w) p) (stdout w) (entropy w)).
Proof.
  intros Hd Hl. unfold shutil_rmtree, rmtree_strict.
  destruct ignore_errors; exec; by rewrite Hd, Hl.
Qed.

Lemma run_rmtree_ignored (p : path) (w : world) :
  (forall d, lookup_path (root w) p ≠ Some (Dir d)) ->
  shutil_rmtree E p true w = (Ok tt, w).
Proof.
  intros Hl. unfold shutil_rmtree, rmtree_strict. exec.
  destruct (denied E (c_rmtree p)); exec; [done|].
  destruct (lookup_path (root w) p) as [[data|d]|]; exec; try done.
  by destruct (Hl d).
Qed.

Lemma run_unlink_file (p : path) (w : world) (data : list byte) :
  denied E (c_unlink p) = false ->
  lookup_path (root w) p = Some (File data) ->
  unlink E p w = (Ok tt, World (remove_path (root w) p) (stdout w) (entropy w)).
Proof. intros Hd Hl. unfold unlink. exec. by rewrite Hd, Hl. Qed.

Lemma run_mkdir_fresh (p : path) (w : world) (r' : dir) :
  denied E (c_mkdir p) = false ->
  exists_ (root w) p = false ->
  put_path (root w) p (Dir ∅) = Some r' ->
  mkdir E p w = (Ok tt, World r' (stdout w) (entropy w)).
Proof. intros Hd Hex Hput. unfold mkdir. exec. by rewrite Hd, Hex, Hput. Qed.

Lemma run_move_rename (src dst : path) (w : world) (n : node) (r' : dir) :
  denied E (c_move src dst) = false ->
  lookup_path (root w) src = Some n ->
  lookup_path (root w) dst = None ->
  put_path (remove_path (root w) src) dst n = Some r' ->
  shutil_move E src dst w = (Ok tt, World r' (stdout w) (entropy w)).
Proof.
  intros Hd Hsrc Hdst Hput. unfold shutil_move. exec. rewrite Hd, Hsrc.
  unfold is_dir. rewrite Hdst. exec. by rewrite Hdst, Hput.
Qed.

End Runs.

(** ** Backup and restore, entry by entry *)

Section BackupRestore.

Context (E : Env) (Hnf : no_faults E).

Ltac side := autorewrite with run; first [apply Hnf | eassumption | done].

Lemma restore_one_spec (name : string) (w : world) :
  name ≠ ".backup" ->
  exists r',
    restore_one E name w = (Ok tt, World r' (stdout w) (entropy w)) /\
    r' !! name = lookup_path (root w) [".backup"; name] /\
    (forall k, k ≠ name -> k ≠ ".backup" -> r' !! k = root w !! k) /\
    (forall k, k ≠ name ->
       lookup_path r' [".backup"; k] = lookup_path (root w) [".backup"; k]) /\
    is_dir r' [".backup"] = is_dir (root w) [".backup"] /\
    (is_dir (root w) [".backup"] = false ->
     r' !! ".backup" = root w !! ".backup").
Proof.
  intros Hne. unfold restore_one. exec.
  assert (Hclear :
    (if match root w !! name with Some _ => true | None => false end
     then if match root w !! name with Some (Dir _) => true | _ => false end
          then shutil_rmtree E [name] true
          else unlink E [name]
     else ret tt) w =
    (Ok tt, World (delete name (root w)) (stdout w) (entropy w))).
  { destruct (root w !! name) as [[data|d]|] eqn:Hname.
    - erewrite run_unlink_file by side. by exec.
    - erewrite run_rmtree_dir by side. by exec.
    - exec. rewrite delete_id by done. by destruct w. }
  rewrite Hclear. clear Hclear. exec.
  destruct (root w !! ".backup") as [[data|b]|] eqn:Hb; exec.
  1, 3: eexists; split; [reflexivity|]; exec; rewrite ?Hb;
    repeat split; try done; intros; by exec.
  destruct (b !! name) as [n|] eqn:Hn; exec.
  - erewrite run_move_rename; [| side | exec; rewrite Hb; exact Hn | side
                                | exec; rewrite Hb; reflexivity].
    eexists; split; [reflexivity|]. exec.
    repeat split; try done; intros; exec; try done.
    by rewrite Hb.
  - eexists; split; [reflexivity|]; exec; rewrite ?Hb, ?Hn;
    repeat split; try done; intros; by exec.
Qed.

Lemma backup_one_spec (name : string) (w : world) :
  name ≠ ".backup" ->
  is_dir (root w) [".backup"] = true ->
  lookup_path (root w) [".backup"; name] = None ->
  exists r',
    backup_one E name w = (Ok tt, World r' (stdout w) (entropy w)) /\
    r' !! name = None /\
    lookup_path r' [".backup"; name] = root w !! name /\
    (forall k, k ≠ name -> k ≠ ".backup" -> r' !! k = root w !! k) /\
    (forall k, k ≠ name ->
       lookup_path r' [".backup"; k] = lookup_path (root w) [".backup"; k]) /\
    is_dir r' [".backup"] = true.
Proof.
  intros Hne Hdir Hfree. destruct w as [r out ent].
  unfold backup_one. revert Hdir Hfree. exec.
  destruct (r !! ".backup") as [[data|b]|] eqn:Hb; try done.
  intros _ Hfree.
  destruct (r !! name) as [n|] eqn:Hn; exec.
  - erewrite run_move_rename; [| side | side | exec; by rewrite Hb | ].
    2: { exec. rewrite Hb. reflexivity. }
    eexists; split; [reflexivity|]. exec.
    repeat split; try done; intros; exec; try done. by rewrite Hb.
  - eexists; split; [done|]. exec. rewrite Hb.
    repeat split; try done.
Qed.

Lemma restore_spec (self : Updater) (w : world) :
  exists r',
    restore E self w =
    (Ok tt, World r' (stdout w ++ ["▶ Restoring from backup..."]) (entropy w)) /\
    (forall name, name ∈ manifest ->
       r' !! name = lookup_path (root w) [".backup"; name]) /\
    (forall k, k ∉ manifest -> k ≠ ".backup" -> r' !! k = root w !! k) /\
    r' !! ".backup" =
      (if is_dir (root w) [".backup"] then None else root w !! ".backup").
Proof.
  unfold restore, manifest. exec.
  set (w0 := World (root w) (stdout w ++ ["▶ Restoring from backup..."])
               (entropy w)).
  destruct (restore_one_spec "driver-box.exe" w0) as
    (r1 & Hrun1 & Hat1 & Hoth1 & Hbak1 & Hdir1 & Hkeep1); [done|].
  rewrite Hrun1. exec.
  destruct (restore_one_spec "bin" (World r1 (stdout w0) (entropy w0))) as
    (r2 & Hrun2 & Hat2 & Hoth2 & Hbak2 & Hdir2 & Hkeep2); [done|].
  rewrite Hrun2. exec.
  destruct (restore_one_spec "conf" (World r2 (stdout w0) (entropy w0))) as
    (r3 & Hrun3 & Hat3 & Hoth3 & Hbak3 & Hdir3 & Hkeep3); [done|].
  rewrite Hrun3. exec.
  cbn [root stdout entropy] in *.
  assert (Hlive : forall name, name ∈ ["driver-box.exe"; "bin"; "conf"] ->
            r3 !! name = lookup_path (root w) [".backup"; name]).
  { intros name Hin. rewrite !elem_of_cons, elem_of_nil in Hin.
    destruct Hin as [->|[->|[->|[]]]].
    - by rewrite Hoth3, Hoth2, Hat1.
    - by rewrite Hoth3, Hat2, Hbak1.
    - by rewrite Hat3, Hbak2, Hbak1. }
  assert (Hother : forall k, k ∉ ["driver-box.exe"; "bin"; "conf"] ->
            k ≠ ".backup" -> r3 !! k = root w !! k).
  { intros k Hk Hkb. rewrite !not_elem_of_cons in Hk.
    destruct Hk as (? & ? & ? & _). by rewrite Hoth3, Hoth2, Hoth1. }
  assert (Hdir : is_dir r3 [".backup"] = is_dir (root w) [".backup"]).
  { by rewrite Hdir3, Hdir2, Hdir1. }
  assert (Hkeep : is_dir (root w) [".backup"] = false ->
            r3 !! ".backup" = root w !! ".backup").
  { intros Hd. rewrite Hkeep3, Hkeep2, Hkeep1; [done|congruence..]. }
  rewrite (is_dir_1 r3), (is_dir_1 (root w)) in Hdir.
  rewrite is_dir_1 in Hkeep.
  destruct (r3 !! ".backup") as [[data|b]|] eqn:Hb3.
  - rewrite run_rmtree_ignored by (intros d; autorewrite with run; by rewrite Hb3).
    eexists; split; [reflexivity|]. split; [done|]. split; [done|].
    rewrite <- Hdir in Hkeep |- *. rewrite Hb3. by apply Hkeep.
  - erewrite run_rmtree_dir by side. exec.
    eexists; split; [reflexivity|]. split; [|split].
    + intros name Hin. rewrite lookup_delete_ne; [by apply Hlive|].
      intros <-. rewrite !elem_of_cons, elem_of_nil in Hin.
      by destruct Hin as [?|[?|[?|[]]]].
    + intros k Hk Hkb. rewrite lookup_delete_ne by done. by apply Hother.
    + rewrite <- Hdir. apply lookup_delete_eq.
  - rewrite run_rmtree_ignored by (intros d; autorewrite with run; by rewrite Hb3).
    eexists; split; [reflexivity|]. split; [done|]. split; [done|].
    rewrite <- Hdir in Hkeep |- *. rewrite Hb3. by apply Hkeep.
Qed.

Lemma backup_loop_spec (w0 : world) :
  is_dir (root w0) [".backup"] = true ->
  (forall name, name ∈ manifest ->
     lookup_path (root w0) [".backup"; name] = None) ->
  exists r',
    for_each manifest (backup_one E) w0 =
    (Ok tt, World r' (stdout w0) (entropy w0)) /\
    (forall name, name ∈ manifest ->
       r' !! name = None /\
       lookup_path r' [".backup"; name] = root w0 !! name) /\
    (forall k, k ∉ manifest -> k ≠ ".backup" -> r' !! k = root w0 !! k) /\
    is_dir r' [".backup"] = true.
Proof.
  intros Hdir0 Hfree. unfold manifest in *. exec.
  destruct (backup_one_spec "driver-box.exe" w0) as
    (r1 & Hrun1 & Hat1 & Hin1 & Hoth1 & Hbak1 & Hdir1);
    [done | done | apply Hfree; set_solver+ |].
  rewrite Hrun1. exec.
  destruct (backup_one_spec "bin" (World r1 (stdout w0) (entropy w0))) as
    (r2 & Hrun2 & Hat2 & Hin2 & Hoth2 & Hbak2 & Hdir2);
    [done | done
     | cbn [root]; rewrite Hbak1 by done; apply Hfree; set_solver+ |].
  rewrite Hrun2. exec.
  destruct (backup_one_spec "conf" (World r2 (stdout w0) (entropy w0))) as
    (r3 & Hrun3 & Hat3 & Hin3 & Hoth3 & Hbak3 & Hdir3);
    [done | done
     | cbn [root]; rewrite Hbak2, Hbak1 by done; apply Hfree; set_solver+ |].
  rewrite Hrun3. cbn [root stdout entropy] in *.
  eexists; split; [reflexivity|]. split; [|split; [|done]].
  - intros name Hin. rewrite !elem_of_cons, elem_of_nil in Hin.
    destruct Hin as [->|[->|[->|[]]]].
    + by rewrite Hoth3, Hoth2, Hat1, Hbak3, Hbak2, Hin1.
    + by rewrite Hoth3, Hat2, Hbak3, Hin2, Hoth1.
    + by rewrite Hat3, Hin3, Hoth2, Hoth1.
  - intros k Hk Hkb. rewrite !not_elem_of_cons in Hk.
    destruct Hk as (? & ? & ? & _). by rewrite Hoth3, Hoth2, Hoth1.
Qed.

Lemma backup_spec (self : Updater) (w : world) :
  (forall data, root w !! ".backup" ≠ Some (File data)) ->
  exists r',
    backup E self w =
    (Ok tt, World r' (stdout w ++ ["▶ Creating backup..."]) (entropy w)) /\
    (forall name, name ∈ manifest ->
       r' !! name = None /\
       lookup_path r' [".backup"; name] = root w !! name) /\
    (forall k, k ∉ manifest -> k ≠ ".backup" -> r' !! k = root w !! k) /\
    is_dir r' [".backup"] = true.
Proof.
  intros Hfile.
  set (out := stdout w ++ ["▶ Creating backup..."]).
  set (w0 := World (<[".backup" := Dir ∅]> (root w)) out (entropy w)).
  assert (Hrun : backup E self w = for_each manifest (backup_one E) w0).
  { unfold backup. exec.
    destruct (root w !! ".backup") as [[data|b]|] eqn:Hb.
    - by destruct (Hfile data).
    - erewrite run_rmtree_dir by side. exec.
      erewrite run_mkdir_fresh; [| side | by exec | by exec]. by exec.
    - exec. erewrite run_mkdir_fresh; [| side | exec; by rewrite Hb | by exec].
      by exec. }
  destruct (backup_loop_spec w0) as (r' & Hloop & Hlive & Hoth & Hdir).
  { unfold w0. by exec. }
  { intros name _. unfold w0. by exec. }
  exists r'. rewrite Hrun, Hloop. split; [done|]. split; [|split; [|done]].
  - intros name Hin. destruct (Hlive name Hin) as [H1 H2].
    split; [done|]. rewrite H2. unfold w0. cbn [root].
    apply lookup_insert_ne. intros <-. unfold manifest in Hin.
    rewrite !elem_of_cons, elem_of_nil in Hin.
    by destruct Hin as [?|[?|[?|[]]]].
  - intros k Hk Hkb. rewrite Hoth by done. unfold w0. cbn [root].
    by apply lookup_insert_ne.
Qed.

End BackupRestore.

(** ** Round trip *)

Lemma no_faults_allow_all (resp : response) :
  no_faults (Examples.env_with resp Examples.allow_all).
Proof. by intros c. Qed.

(** C4. In an environment that refuses no call, and with a backup root that
    is absent or a directory (the constructor leaves it so), [backup]
    followed at once by [restore] returns normally and gives back the tree
    it started from, without the backup root: every entry of the manifest,
    present or not, file or directory, is as it was, and so is every other
    entry; [.backup] is gone. *)
Theorem backup_restore_roundtrip (E : Env) (self : Updater) (w : world) :
  no_faults E ->
  (forall data, root w !! ".backup" ≠ Some (File data)) ->
  exists w1 w2,
    backup E self w = (Ok tt, w1) /\
    restore E self w1 = (Ok tt, w2) /\
    root w2 = delete ".backup" (root w) /\
    (forall name, name ∈ manifest -> root w2 !! name = root w !! name) /\
    root w2 !! ".backup" = None.
Proof.
  intros Hnf Hfile.
  destruct (backup_spec E Hnf self w Hfile) as (r1 & Hbackup & Hlive1 & Hoth1 & Hdir1).
  set (w1 := World r1 (stdout w ++ ["▶ Creating backup..."]) (entropy w)) in *.
  destruct (restore_spec E Hnf self w1) as (r2 & Hrestore & Hlive2 & Hoth2 & Hbak2).
  subst w1. cbn [root] in *. rewrite Hdir1 in Hbak2.
  assert (Hlive : forall name, name ∈ manifest -> r2 !! name = root w !! name).
  { intros name Hin. rewrite Hlive2 by done. by apply Hlive1. }
  eexists _, _. split; [exact Hbackup|]. split; [exact Hrestore|].
  cbn [root]. split; [|done].
  apply map_eq. intros k.
  destruct (decide (k = ".backup")) as [->|Hkb].
  { by rewrite Hbak2, lookup_delete_eq. }
  rewrite lookup_delete_ne by done.
  destruct (decide (k ∈ manifest)) as [Hin|Hout]; [by apply Hlive|].
  by rewrite Hoth2, Hoth1.
Qed.

Lemma backup_restore_roundtrip_witness :
  exists w1 w2,
    backup (Examples.env_with Examples.good_response Examples.allow_all)
      (mkUpdater (mkVersion [1; 3; 0]%N "1.3.0") (mkVersion [1; 4; 0]%N "1.4.0")
         "x64" false)
      (Examples.start Examples.installed) = (Ok tt, w1) /\
    restore (Examples.env_with Examples.good_response Examples.allow_all)
      (mkUpdater (mkVersion [1; 3; 0]%N "1.3.0") (mkVersion [1; 4; 0]%N "1.4.0")
         "x64" false) w1 = (Ok tt, w2) /\
    root w2 = delete ".backup" (root (Examples.start Examples.installed)) /\
    (forall name, name ∈ manifest ->
       root w2 !! name = root (Examples.start Examples.installed) !! name) /\
    root w2 !! ".backup" = None.
Proof.
  apply (backup_restore_roundtrip
           (Examples.env_with Examples.good_response Examples.allow_all)
           (mkUpdater (mkVersion [1; 3; 0]%N "1.3.0")
              (mkVersion [1; 4; 0]%N "1.4.0") "x64" false)
           (Examples.start Examples.installed)).
  - apply no_faults_allow_all.
  - intros data. vm_compute. discriminate.
Defined.

(** ** Leaving the scope *)

Ltac obeys_step :=
  lazymatch goal with
  | |- PreOrder _ => apply _
  | |- obeys _ _ (bind _ _) => apply obeys_bind
  | |- obeys _ _ (for_each _ _) => apply obeys_for_each
  | |- obeys _ _ (if _ then _ else _) => apply obeys_if
  | |- obeys _ _ (ret _) => apply obeys_ret
  | |- obeys _ _ (raise _) => apply obeys_raise
  | |- obeys _ _ get_root => apply obeys_get_root
  | |- obeys _ _ (guarded _ _ _ _) => apply obeys_guarded
  | |- forall _, _ => intros
  end.

Ltac quiet_call :=
  eapply touches_same_stdout;
  first [ apply shutil_rmtree_touches | apply unlink_touches
        | apply mkdir_touches | apply shutil_move_touches
        | apply shutil_copytree_touches | apply open_wb_touches
        | apply write_touches | apply zip_extract_touches ].

Lemma restore_one_quiet (E : Env) (name : string) :
  obeys same_stdout (raising is_lib_error) (restore_one E name).
Proof. unfold restore_one. repeat obeys_step; first [done | quiet_call]. Qed.

Lemma restore_stdout (E : Env) (self : Updater) (w : world) :
  stdout (snd (restore E self w)) = stdout w ++ ["▶ Restoring from backup..."].
Proof.
  unfold restore. rewrite run_bind, run_print. cbv beta iota.
  match goal with
  | |- stdout (snd (?m ?w0)) = _ =>
      assert (Hm : obeys same_stdout (raising is_lib_error) m)
  end.
  { repeat obeys_step; first [done | apply restore_one_quiet | quiet_call]. }
  apply Hm.
Qed.

Lemma restore_returns (E : Env) (self : Updater) (w : world) :
  no_faults E -> fst (restore E self w) = Ok tt.
Proof.
  intros Hnf. destruct (restore_spec E Hnf self w) as (r' & Hrun & _).
  by rewrite Hrun.
Qed.

(** C7, as the code has it. Once the constructor and [__enter__] have
    returned, leaving the scope runs exactly one of [cleanup] and [restore]:
    [cleanup] when the body returned, [restore] when it raised (each prints
    its one line, and the state afterwards is the one that call leaves). The
    body's exception is the one reported when [restore] returns, which it
    always does when the operating system refuses nothing; an exception
    raised by [restore] itself is reported in its place. *)
Theorem scope_exit_runs_cleanup_or_restore (E : Env) (mgr : M Updater)
    (body : Updater -> M unit) (w w0 w1 w2 : world) (u u' : Updater)
    (r : res unit) :
  mgr w = (Ok u, w0) ->
  __enter__ E u w0 = (Ok u', w1) ->
  body u' w1 = (r, w2) ->
  match r with
  | Ok _ =>
      with_Updater E mgr body w = (Ok tt, snd (cleanup E u w2)) /\
      stdout (snd (cleanup E u w2)) = stdout w2 ++ ["▶ Cleaning up backup..."]
  | Raise e =>
      with_Updater E mgr body w =
        (match fst (restore E u w2) with
         | Ok _ => Raise e
         | Raise e' => Raise e'
         | Diverge => Diverge
         end, snd (restore E u w2)) /\
      stdout (snd (restore E u w2)) =
        stdout w2 ++ ["▶ Restoring from backup..."] /\
      (no_faults E -> with_Updater E mgr body w = (Raise e, snd (restore E u w2)))
  | Diverge => with_Updater E mgr body w = (Diverge, w2)
  end.
Proof.
  intros Hmgr Henter Hbody.
  assert (Hwith : with_Updater E mgr body w =
    match r with
    | Ok _ => (__exit__ E u None ;; ret tt) w2
    | Raise e =>
        (suppress <- __exit__ E u (Some e) ;;
         if (suppress : bool) then ret tt else raise e) w2
    | Diverge => (Diverge, w2)
    end).
  { unfold with_Updater. rewrite run_bind, Hmgr. cbv beta iota.
    rewrite run_bind, Henter. cbv beta iota. rewrite Hbody.
    by destruct r. }
  rewrite Hwith. destruct r as [[]|e|]; [| |done].
  - split; [|apply cleanup_stdout].
    unfold __exit__. exec.
    pose proof (cleanup_returns E u w2) as Hret.
    destruct (cleanup E u w2) as [[[]|e|] w3]; simpl in *; by simplify_eq.
  - assert (Hexit : (suppress <- __exit__ E u (Some e) ;;
                     if (suppress : bool) then ret tt else raise e) w2 =
                    (match fst (restore E u w2) with
                     | Ok _ => Raise e
                     | Raise e' => Raise e'
                     | Diverge => Diverge
                     end, snd (restore E u w2))).
    { unfold __exit__. exec. by destruct (restore E u w2) as [[[]|e'|] w3]. }
    split; [done|]. split; [apply restore_stdout|].
    intros Hnf. rewrite Hexit. by rewrite (restore_returns E u w2 Hnf).
Qed.

Lemma scope_exit_runs_cleanup_or_restore_witness :
  let E := Examples.env_with Examples.html_response Examples.allow_all in
  let u := mkUpdater (mkVersion [1; 3; 0]%N "1.3.0")
             (mkVersion [1; 4; 0]%N "1.4.0") "x64" false in
  let mgr := __init__ E "1.3.0" "1.4.0" "x64" false in
  let w := Examples.start Examples.installed in
  let w2 := snd (update E u (snd (__enter__ E u (snd (mgr w))))) in
  with_Updater E mgr (update E) w =
    (match fst (restore E u w2) with
     | Ok _ => Raise InvalidArtifact
     | Raise e' => Raise e'
     | Diverge => Diverge
     end, snd (restore E u w2)) /\
  stdout (snd (restore E u w2)) = stdout w2 ++ ["▶ Restoring from backup..."] /\
  (no_faults E ->
   with_Updater E mgr (update E) w = (Raise InvalidArtifact, snd (restore E u w2))).
Proof.
  intros E u mgr w w2.
  apply (scope_exit_runs_cleanup_or_restore E mgr (update E) w
           (snd (mgr w)) (snd (__enter__ E u (snd (mgr w)))) w2 u u
           (Raise InvalidArtifact)).
  - vm_compute. reflexivity.
  - vm_compute. reflexivity.
  - vm_compute. reflexivity.
Defined.

(** C7 as stated fails where it says that a failure of [restore] never
    replaces the body's error. Updating 1.9.0 to 2.0.0 with a good archive,
    the body raises [NotImplementedError] after the new executable is in
    place; when the operating system then refuses to unlink that executable,
    [restore] raises [PermissionError], and that is what the caller sees. *)
Lemma restore_failure_replaces_body_error :
  let E := Examples.env_with Examples.good_response Examples.deny_unlink_exe in
  let w := Examples.start Examples.installed in
  let entered :=
    (mgr <- __init__ E "1.9.0" "2.0.0" "x64" false ;; __enter__ E mgr) w in
  match fst entered with
  | Ok u =>
      fst (update E u (snd entered)) =
        Raise (NotImplementedError
                 "Auto update from v1 to v2 is not supported yet.") /\
      fst (restore E u (snd (update E u (snd entered)))) =
        Raise (OSError PermissionError ["driver-box.exe"])
  | _ => False
  end /\
  fst (transaction E "1.9.0" "2.0.0" "x64" false w) =
    Raise (OSError PermissionError ["driver-box.exe"]).
Proof. vm_compute. repeat split. Qed.

(** ** The scratch directory *)

Lemma rand8_length (d : rand8) : String.length (rand8_to_string d) = 8.
Proof. by destruct d as [[[[[[[a b] c] e] f] g] h] i]. Qed.

Lemma rand8_not_target (d : rand8) :
  rand8_to_string d ∉ ["driver-box.exe"; "bin"].
Proof.
  intros Hin. rewrite !elem_of_cons, elem_of_nil in Hin.
  pose proof (rand8_length d) as Hlen.
  destruct Hin as [H|[H|[]]]; rewrite H in Hlen; discriminate.
Qed.

#[export] Instance scratch_preorder (t : string) (keys : list string) :
  PreOrder (scratch t keys).
Proof.
  split.
  - intros r Hdir. split; [done | reflexivity].
  - intros r1 r2 r3 H12 H23 Hdir. destruct (H12 Hdir) as [Hdir2 Hout12].
    destruct (H23 Hdir2) as [Hdir3 Hout23]. split; [done | by etrans].
Qed.

#[export] Instance outside_unless_scratch_preorder (keys : list string) :
  PreOrder (outside_unless_scratch keys).
Proof.
  split.
  - by intros r k _ _.
  - intros r1 r2 r3 H12 H23 k Hk Hlen. by rewrite H23, H12.
Qed.

Lemma while_exists_spec (r : dir) (ds : list rand8) (cand : string) :
  match while_exists r [] cand ds with
  | (Some name, _) =>
      r !! name = None /\ (name = cand \/ exists d, name = rand8_to_string d)
  | (None, _) => True
  end.
Proof.
  revert cand. induction ds as [|d ds IH]; intros cand; simpl.
  - rewrite exists_1. destruct (r !! cand) eqn:Hc; [done|]. auto.
  - rewrite exists_1. destruct (r !! cand) eqn:Hc; [|auto].
    specialize (IH (rand8_to_string d)).
    destruct (while_exists r [] (rand8_to_string d) ds) as [[name|] ds'];
      [|done].
    destruct IH as [Hfree [->|Hd]]; eauto.
Qed.

(** The name [fresh_dir_temp] settles on, if any, is one of the draws and is
    not taken; the tree and the printed lines are as before. *)
Lemma fresh_dir_temp_spec (w : world) :
  (exists d ds,
     fresh_dir_temp [] w =
       (Ok [rand8_to_string d], World (root w) (stdout w) ds) /\
     root w !! rand8_to_string d = None) \/
  (exists ds, fresh_dir_temp [] w = (Diverge, World (root w) (stdout w) ds)).
Proof.
  unfold fresh_dir_temp, random_string. rewrite run_bind.
  destruct (entropy w) as [|d0 ds0] eqn:Hent.
  { right. exists []. rewrite <- Hent. by destruct w. }
  cbv beta iota. cbn [root stdout entropy].
  pose proof (while_exists_spec (root w) ds0 (rand8_to_string d0)) as Hspec.
  destruct (while_exists (root w) [] (rand8_to_string d0) ds0)
    as [[name|] ds']; [|right; eauto].
  left. destruct Hspec as [Hfree [->|[d ->]]]; eauto.
Qed.

(** Footprints that respect a scratch directory [t]. *)
Section Scratch.

Context (t : string) (keys : list string).

Lemma insert_scratch (r : dir) (d d' : dir) :
  r !! t = Some (Dir d) -> scratch t keys r (<[t := Dir d']> r).
Proof.
  intros Ht _. split; [by rewrite is_dir_1, lookup_insert_eq|].
  intros k Hk. apply lookup_insert_ne. intros <-. apply Hk. by left.
Qed.

Lemma target_scratch (r r' : dir) (name : string) :
  name ∈ keys -> name ≠ t ->
  (forall k, k ≠ name -> r' !! k = r !! k) ->
  scratch t keys r r'.
Proof.
  intros Hin Hne Hsame Hdir. split.
  - rewrite is_dir_1 in *. by rewrite Hsame.
  - intros k Hk. apply Hsame. intros ->. apply Hk. by right.
Qed.

Lemma removes_target_scratch (name : string) (cs : path) (r r' : dir) :
  name ∈ keys -> name ≠ t -> removes (name :: cs) r r' -> scratch t keys r r'.
Proof.
  intros Hin Hne ->. eapply target_scratch; [done..|].
  intros k Hk. by apply remove_path_other.
Qed.

Lemma puts_over_target_scratch (name : string) (cs : path) (r r' : dir) :
  name ∈ keys -> name ≠ t -> puts_over (name :: cs) r r' -> scratch t keys r r'.
Proof.
  intros Hin Hne (n & Hput & _). eapply target_scratch; [done..|].
  intros k Hk. by eapply put_path_other.
Qed.

Lemma puts_over_inside_scratch (cs : path) (r r' : dir) :
  puts_over (t :: cs) r r' -> scratch t keys r r'.
Proof.
  intros (n & Hput & Hkind) Hdir. destruct cs as [|c cs].
  - injection Hput as <-. specialize (Hkind Hdir).
    destruct n as [|d']; [done|]. split.
    + by rewrite is_dir_1, lookup_insert_eq.
    + intros k Hk. apply lookup_insert_ne. intros <-. apply Hk. by left.
  - rewrite is_dir_1 in Hdir.
    destruct (r !! t) as [[|d]|] eqn:Ht; try done.
    destruct (put_path_inside r r' d t c cs n Ht Hput) as (d' & _ & ->).
    apply (insert_scratch r d d' Ht). by rewrite is_dir_1, Ht.
Qed.

Lemma moves_out_scratch (c name : string) (cs : path) (r r' : dir) :
  name ∈ keys -> name ≠ t ->
  moves (t :: c :: cs) [name] r r' -> scratch t keys r r'.
Proof.
  intros Hin Hne (n & real_dst & Hsrc & Hreal & Hput) Hdir.
  rewrite is_dir_1 in Hdir.
  destruct (r !! t) as [[|d]|] eqn:Ht; try done.
  rewrite remove_path_cons2, Ht in Hput.
  assert (Hhead : exists cs', real_dst = name :: cs').
  { destruct Hreal as [->| ->]; eauto. }
  destruct Hhead as [cs' ->]. split.
  - rewrite is_dir_1, (put_path_other _ _ _ _ _ _ Hput) by done.
    by rewrite lookup_insert_eq.
  - intros k Hk. rewrite !not_elem_of_cons in Hk. destruct Hk as [Hkt Hk].
    rewrite (put_path_other _ _ _ _ _ k Hput).
    + by rewrite lookup_insert_ne.
    + intros ->. by apply Hk.
Qed.

End Scratch.

Lemma obeys_for_each_in {A} (R : relation world) `{!PreOrder R}
    (Q : ending -> Prop) (xs : list A) (body : A -> M unit) :
  Q Returns -> (forall x, x ∈ xs -> obeys R Q (body x)) ->
  obeys R Q (for_each xs body).
Proof.
  intros HQ. induction xs as [|x xs IH]; intros Hb; simpl.
  - by apply obeys_ret.
  - apply obeys_bind; [done | apply Hb; by left |].
    intros _. apply IH. intros y Hy. apply Hb. by right.
Qed.

Lemma lib_error_block (k : ending) :
  raising is_lib_error k -> raising is_block_error k.
Proof. destruct k; simpl; try done. by left. Qed.

(** The targets the release may replace. *)
Lemma paths_targets (self : Updater) (name : string) :
  name ∈ paths self -> name ∈ ["driver-box.exe"; "bin"].
Proof.
  unfold paths. destruct (webview self); [done|].
  rewrite list_elem_of_singleton. intros ->. by left.
Qed.

Lemma obeys_prints (R : relation world) (Q : ending -> Prop) (line : string) :
  (forall w, R w (World (root w) (stdout w ++ [line]) (entropy w))) ->
  Q Returns -> obeys R Q (print line).
Proof. intros HR HQ w. split; [apply HR | done]. Qed.

(** The block of [replace_executable], for a scratch directory [t]. The
    lemmas hold for every relation on states that printing a line and a
    change of the tree within [scratch t] respect. *)
Section Block.

Context (E : Env) (t : string).
Context (Ht : t ∉ ["driver-box.exe"; "bin"]).
Context (R : relation world) `{!PreOrder R}.
Context (Hprint : forall w line,
  R w (World (root w) (stdout w ++ [line]) (entropy w))).
Context (Hroot : forall w r',
  scratch t ["driver-box.exe"; "bin"] (root w) r' ->
  R w (World r' (stdout w) (entropy w))).

Local Abbreviation targets := ["driver-box.exe"; "bin"].

Lemma download_rest_block (resp : response) (cs : path) :
  obeys R (raising is_block_error)
    ((match content_length resp with
      | NoLength => raise (KeyError "content-length")
      | BadLength err => raise (ValueError (int_error_message err))
      | Length _ => ret tt
      end) ;;
     open_wb E (t :: cs) ;;
     for_each (chunks resp) (fun chunk => write (t :: cs) chunk) ;;
     match stream_error resp with
     | Some msg => raise (RequestException msg)
     | None => ret tt
     end).
Proof.
  apply obeys_bind; [apply _ | | intros _].
  { destruct (content_length resp) as [|err|n].
    - apply obeys_raise; [apply _|]. by left.
    - apply obeys_raise; [apply _|]. right. by exists err.
    - by apply obeys_ret; [apply _|]. }
  apply obeys_bind; [apply _ | | intros _].
  { eapply obeys_touches; [apply _ | apply open_wb_touches | | apply lib_error_block].
    intros w r' HF. by apply Hroot, (puts_over_inside_scratch _ _ cs). }
  apply obeys_bind; [apply _ | | intros _].
  { apply obeys_for_each; [apply _ | done |]. intros chunk.
    eapply obeys_touches; [apply _ | apply write_touches | | apply lib_error_block].
    intros w r' HF. by apply Hroot, (puts_over_inside_scratch _ _ cs). }
  destruct (stream_error resp).
  - apply obeys_raise; [apply _|]. by left.
  - by apply obeys_ret; [apply _|].
Qed.

Lemma download_block (resp : response) (cs : path) (filename : string) :
  obeys R (raising is_block_error) (download E resp (t :: cs) filename).
Proof.
  unfold download.
  apply obeys_bind; [apply _ | by apply obeys_prints | intros _].
  apply download_rest_block.
Qed.

Lemma unpack_block (fpath : path) :
  obeys R (raising is_block_error) (unpack E fpath [t]).
Proof.
  unfold unpack.
  apply obeys_bind; [apply _ | by apply obeys_prints |]. intros _.
  apply obeys_bind; [apply _ | by apply obeys_get_root; [apply _|] |]. intros r.
  destruct (lookup_path r fpath) as [[data|d]|].
  - destruct (zip_parse E data) as [filelist|].
    + apply obeys_for_each; [apply _ | done |]. intros archive.
      eapply obeys_touches;
        [apply _ | apply zip_extract_touches | | apply lib_error_block].
      intros w r' HF. by apply Hroot, (puts_over_inside_scratch _ _ []).
    + apply obeys_raise; [apply _|]. by left.
  - apply obeys_raise; [apply _|]. by left.
  - apply obeys_raise; [apply _|]. by left.
Qed.

Lemma update_file_block (name : string) :
  name ∈ targets ->
  obeys R (raising is_block_error) (update_file E [t] name).
Proof.
  intros Hin. assert (Hne : name ≠ t) by (by intros ->).
  unfold update_file. cbn [app].
  apply obeys_bind; [apply _ | by apply obeys_get_root; [apply _|] |]. intros r.
  apply obeys_bind; [apply _ | | intros _].
  { destruct (exists_ r [name]); [destruct (is_dir r [name])|].
    - eapply obeys_touches;
        [apply _ | apply shutil_rmtree_touches | | apply lib_error_block].
      intros w r' HF. by apply Hroot, (removes_target_scratch _ _ name []).
    - eapply obeys_touches;
        [apply _ | apply unlink_touches | | apply lib_error_block].
      intros w r' HF. by apply Hroot, (removes_target_scratch _ _ name []).
    - by apply obeys_ret; [apply _|]. }
  apply obeys_bind; [apply _ | by apply obeys_get_root; [apply _|] |]. intros r1.
  apply obeys_if; [| by apply obeys_ret; [apply _|]].
  eapply obeys_touches;
    [apply _ | apply shutil_move_touches | | apply lib_error_block].
  intros w r' HF. by apply Hroot, (moves_out_scratch _ _ name name []).
Qed.

Lemma update_files_block (self : Updater) :
  obeys R (raising is_block_error) (update_files E self [t]).
Proof.
  unfold update_files.
  apply obeys_bind; [apply _ | by apply obeys_prints |]. intros _.
  apply obeys_for_each_in; [apply _ | done |]. intros name Hin.
  apply update_file_block. by eapply paths_targets.
Qed.

(** What follows the download in the block. *)
Lemma after_download_block (self : Updater) (fpath : path) :
  obeys R (raising is_block_error)
    (unpack E fpath [t] ;; update_files E self [t]).
Proof.
  apply obeys_bind; [apply _ | apply unpack_block | intros _].
  apply update_files_block.
Qed.

End Block.

Lemma rmtree_ignoring_returns (E : Env) (p : path) (w : world) :
  fst (shutil_rmtree E p true w) = Ok tt.
Proof.
  unfold shutil_rmtree, rmtree_strict. exec.
  destruct (denied E (c_rmtree p)); exec; [done|].
  by destruct (lookup_path (root w) p) as [[|d]|]; exec.
Qed.

Section TemporaryDirectory.

Context (E : Env) (keys : list string) (X : exn -> Prop).
Context (body : path -> M unit).
Context (Hlib : forall e, is_lib_error e -> X e).
Context (Hbody : forall d,
  obeys (on_root (scratch (rand8_to_string d) keys)) (raising X)
    (body [rand8_to_string d])).

(** Whatever the block does and however it ends, [temporary_directory]
    either leaves the tree as it was, or it picked a name [t] that was free
    and changed nothing but [t] and the entries in [keys]; and then [t] is
    gone again unless the operating system refused to remove it. *)
Lemma temporary_directory_run (w w' : world) (res : res unit) :
  temporary_directory E [] true body w = (res, w') ->
  raising_or_looping X (ending_of res) /\
  (root w' = root w \/
   exists d,
     root w !! rand8_to_string d = None /\
     outside (rand8_to_string d :: keys) (root w) (root w') /\
     (denied E (c_rmtree [rand8_to_string d]) = false ->
      root w' !! rand8_to_string d = None)).
Proof.
  unfold temporary_directory. cbn [app]. rewrite run_bind.
  destruct (fresh_dir_temp_spec w) as [(d & ds & Hfresh & Hfree)|[ds Hloop]].
  2: { rewrite Hloop. intros [= <- <-]. split; [done | by left]. }
  rewrite Hfresh. cbv beta iota zeta. rewrite run_bind.
  set (t := rand8_to_string d) in *.
  unfold mkdir. exec.
  destruct (denied E (c_mkdir [t])); exec.
  { intros [= <- <-]. split; [by apply Hlib | by left]. }
  rewrite Hfree. exec.
  set (w2 := World (<[t := Dir ∅]> (root w)) (stdout w) ds).
  destruct (Hbody d w2) as [Hrel Hend]. fold t in Hrel, Hend.
  unfold on_root, scratch in Hrel.
  destruct Hrel as [Hdir Hout]; [unfold w2; by exec|].
  unfold try_finally.
  pose proof (rmtree_ignoring_returns E [t]) as Hfin.
  assert (Hbase : forall w3, outside (t :: keys) (root w2) (root w3) ->
            outside (t :: keys) (root w) (root w3)).
  { intros w3 H3 k Hk. rewrite H3 by done. unfold w2. cbn [root].
    apply lookup_insert_ne. intros <-. apply Hk. by left. }
  assert (Hexit : forall w3 w4 r4,
            is_dir (root w3) [t] = true ->
            outside (t :: keys) (root w2) (root w3) ->
            shutil_rmtree E [t] true w3 = (r4, w4) ->
            r4 = Ok tt /\
            outside (t :: keys) (root w) (root w4) /\
            (denied E (c_rmtree [t]) = false -> root w4 !! t = None)).
  { intros w3 w4 r4 Hdir3 Hout3 Hrm. specialize (Hfin w3).
    rewrite Hrm in Hfin. split; [done|].
    destruct (shutil_rmtree_touches E [t] true w3) as [(r' & Hw4 & Hr4) _].
    rewrite Hrm in Hw4. cbn [snd] in Hw4. subst w4. cbn [root]. split.
    - destruct Hr4 as [->| ->]; [by apply Hbase|].
      intros k Hk. rewrite remove_path_1, lookup_delete_ne.
      + by apply Hbase.
      + intros <-. apply Hk. by left.
    - intros Hallowed. rewrite is_dir_1 in Hdir3.
      destruct (root w3 !! t) as [[|d3]|] eqn:Ht3; try done.
      erewrite run_rmtree_dir in Hrm by (rewrite ?lookup_path_1; done).
      assert (r' = remove_path (root w3) [t]) as -> by congruence.
      by rewrite remove_path_1, lookup_delete_eq. }
  destruct (body [t] w2) as [[[]|e|] w3]; cbn [fst snd ending_of] in *;
    [| |done].
  all: destruct (shutil_rmtree E [t] true w3) as [r4 w4] eqn:Hrm;
    destruct (Hexit w3 w4 r4 Hdir Hout Hrm) as (-> & Hout4 & Hgone);
    intros [= <- <-]; (split; [done|]); right; exists d; by fold t.
Qed.

End TemporaryDirectory.

(** ** [replace_executable] *)

Lemma replace_block_scratch (E : Env) (self : Updater) (resp : response)
    (d : rand8) :
  obeys (on_root (scratch (rand8_to_string d) ["driver-box.exe"; "bin"]))
    (raising is_block_error)
    (let tmpdir := [rand8_to_string d] in
     let fpath := tmpdir ++ path_of_string (asset_filename self) in
     download E resp fpath (asset_filename self) ;;
     unpack E fpath tmpdir ;;
     update_files E self tmpdir).
Proof.
  cbv zeta. cbn [app].
  assert (Hprint : forall (w : world) (line : string),
    on_root (scratch (rand8_to_string d) ["driver-box.exe"; "bin"]) w
      (World (root w) (stdout w ++ [line]) (entropy w))).
  { intros w line. unfold on_root. cbn [root]. reflexivity. }
  assert (Hroot : forall (w : world) (r' : dir),
    scratch (rand8_to_string d) ["driver-box.exe"; "bin"] (root w) r' ->
    on_root (scratch (rand8_to_string d) ["driver-box.exe"; "bin"]) w
      (World r' (stdout w) (entropy w))).
  { by intros w r' H. }
  apply obeys_bind; [apply _ | | intros _].
  - apply download_block;
      first [apply _ | exact Hprint | exact Hroot | apply rand8_not_target].
  - apply after_download_block;
      first [apply _ | exact Hprint | exact Hroot | apply rand8_not_target].
Qed.

(** Whatever happens in [replace_executable], the tree afterwards differs
    from the one before at most in the two targets and in a scratch
    directory, whose name was free before and which is gone again unless the
    operating system refused to remove it. *)
Lemma replace_executable_run (E : Env) (self : Updater) (w w' : world)
    (res : res unit) :
  replace_executable E self w = (res, w') ->
  raising_or_looping is_replace_error (ending_of res) /\
  (root w' = root w \/
   exists d,
     root w !! rand8_to_string d = None /\
     outside (rand8_to_string d :: ["driver-box.exe"; "bin"]) (root w) (root w') /\
     (denied E (c_rmtree [rand8_to_string d]) = false ->
      root w' !! rand8_to_string d = None)).
Proof.
  unfold replace_executable. rewrite run_bind, run_print. cbv beta iota zeta.
  destruct (requests_get E (asset_url self)) as [msg|resp].
  { intros [= <- <-]. split; [by left; left | by left]. }
  destruct (content_type_accepted resp); cbn [negb].
  2: { intros [= <- <-]. split; [by right | by left]. }
  intros Hrun.
  destruct (temporary_directory_run E ["driver-box.exe"; "bin"] is_block_error
              _ (fun e He => or_introl He)
              (replace_block_scratch E self resp) _ _ _ Hrun)
    as [Hend Hroot].
  split; [|exact Hroot].
  destruct res; simpl in *; try done. by left.
Qed.

Lemma replace_executable_outside (E : Env) (self : Updater) (w : world) :
  (forall p, denied E (c_rmtree p) = false) ->
  outside ["driver-box.exe"; "bin"] (root w)
    (root (snd (replace_executable E self w))).
Proof.
  intros Hallowed.
  destruct (replace_executable E self w) as [res w'] eqn:Hrun. cbn [snd].
  destruct (replace_executable_run E self w w' res Hrun)
    as [_ [->|(d & Hfree & Hout & Hgone)]]; [done|].
  intros k Hk.
  destruct (decide (k = rand8_to_string d)) as [->|Hne].
  - rewrite Hfree. by apply Hgone.
  - apply Hout. rewrite not_elem_of_cons. by split.
Qed.

Lemma replace_executable_keeps (E : Env) (self : Updater) (w : world) :
  outside_unless_scratch ["driver-box.exe"; "bin"] (root w)
    (root (snd (replace_executable E self w))).
Proof.
  destruct (replace_executable E self w) as [res w'] eqn:Hrun. cbn [snd].
  destruct (replace_executable_run E self w w' res Hrun)
    as [_ [->|(d & Hfree & Hout & Hgone)]]; [done|].
  intros k Hk Hlen. apply Hout. rewrite not_elem_of_cons.
  split; [|done]. intros ->. by rewrite rand8_length in Hlen.
Qed.

(** ** The scratch directory is gone on every exit path *)




(** ** The content-type check *)

#[export] Instance stdout_grows_preorder : PreOrder stdout_grows.
Proof.
  split.
  - intros w. unfold stdout_grows. reflexivity.
  - intros w1 w2 w3 H12 H23. unfold stdout_grows in *. by etrans.
Qed.

Lemma not_block_error_invalid_artifact : ~ is_block_error InvalidArtifact.
Proof. intros [H|[[shown|rest] H]]; [done | discriminate H..]. Qed.

Lemma content_type_accepted_iff (resp : response) :
  content_type_accepted resp = true <->
  content_type resp = Some "application/zip" \/
  content_type resp = Some "application/octet-stream".
Proof.
  unfold content_type_accepted, accepted_content_types.
  destruct (content_type resp) as [ct|].
  - rewrite bool_decide_eq_true, !elem_of_cons, elem_of_nil.
    split.
    + intros [->|[->|[]]]; auto.
    + intros [[= ->]|[= ->]]; auto.
  - split; [done|]. by intros [?|?].
Qed.

(** With a scratch name at hand and [mkdir] not refused, the block gets as
    far as announcing the download. *)
Lemma block_announces_download (E : Env) (self : Updater) (resp : response)
    (w : world) (t : string) :
  fst (fresh_dir_temp [] w) = Ok [t] ->
  denied E (c_mkdir [t]) = false ->
  ("  ↳ Downloading: " ++ asset_filename self)%string ∈
    stdout (snd (temporary_directory E [] true (fun tmpdir =>
      let fpath := tmpdir ++ path_of_string (asset_filename self) in
      download E resp fpath (asset_filename self) ;;
      unpack E fpath tmpdir ;;
      update_files E self tmpdir) w)).
Proof.
  intros Ht Hmk. unfold temporary_directory. rewrite run_bind.
  destruct (fresh_dir_temp_spec w) as [(d & ds & Hfresh & Hfree)|[ds Hloop]];
    [|by rewrite Hloop in Ht].
  rewrite Hfresh in Ht |- *. injection Ht as <-. cbv beta iota zeta.
  set (t := rand8_to_string d) in *.
  erewrite run_bind, run_mkdir_fresh; [| done | exec; by rewrite Hfree | by exec].
  cbv beta iota. cbn [app root stdout entropy].
  set (w2 := World (<[t := Dir ∅]> (root w)) (stdout w) ds).
  set (line := ("  ↳ Downloading: " ++ asset_filename self)%string).
  assert (Hgrow : forall w0 line0,
    stdout_grows w0 (World (root w0) (stdout w0 ++ [line0]) (entropy w0))).
  { intros w0 line0. unfold stdout_grows. cbn. by apply prefix_app_r. }
  assert (Hsame : forall w0 r',
    scratch t ["driver-box.exe"; "bin"] (root w0) r' ->
    stdout_grows w0 (World r' (stdout w0) (entropy w0))).
  { intros w0 r' _. unfold stdout_grows. cbn. reflexivity. }
  assert (Hbody : line ∈ stdout (snd (
    (download E resp (t :: path_of_string (asset_filename self))
       (asset_filename self) ;;
     unpack E (t :: path_of_string (asset_filename self)) [t] ;;
     update_files E self [t]) w2))).
  { subst line. rewrite run_bind. unfold download.
    rewrite run_bind, run_print. cbv beta iota.
    set (line := ("  ↳ Downloading: " ++ asset_filename self)%string).
    set (w3 := World (root w2) (stdout w2 ++ [line]) (entropy w2)).
    set (rest := (_ ;; _ ;; _ ;; _)%upd).
    destruct (download_rest_block E t stdout_grows Hsame resp
                (path_of_string (asset_filename self)) w3) as [Hr1 _].
    fold rest in Hr1.
    assert (Hin3 : forall w4, stdout_grows w3 w4 -> line ∈ stdout w4).
    { intros w4 [tail Htail]. rewrite Htail. unfold w3. cbn [stdout].
      set_solver+. }
    destruct (rest w3) as [[[]|e|] w4]; cbn [snd] in *; try by apply Hin3.
    destruct (after_download_block E t (rand8_not_target d) stdout_grows
                Hgrow Hsame self
                (t :: path_of_string (asset_filename self)) w4) as [Hr2 _].
    apply Hin3. by etrans. }
  unfold try_finally.
  destruct ((download E resp (t :: path_of_string (asset_filename self))
       (asset_filename self) ;;
     unpack E (t :: path_of_string (asset_filename self)) [t] ;;
     update_files E self [t]) w2) as [[[]|e|] w3]; cbn [snd] in *;
    [| |done].
  all: destruct (touches_same_stdout _ _ (shutil_rmtree_touches E [t] true) w3)
         as [Hs _]; unfold same_stdout in Hs;
    destruct (shutil_rmtree E [t] true w3) as [[[]|e'|] w4];
    cbn [snd] in *; by rewrite Hs.
Qed.

Lemma fresh_dir_temp_printed (w : world) (lines : list string) :
  fst (fresh_dir_temp [] (World (root w) lines (entropy w))) =
  fst (fresh_dir_temp [] w).
Proof.
  unfold fresh_dir_temp, random_string. rewrite !run_bind.
  cbn [root stdout entropy].
  destruct (entropy w) as [|d ds]; [done|]. cbv beta iota.
  cbn [root stdout entropy].
  by destruct (while_exists (root w) [] (rand8_to_string d) ds) as [[name|] ds'].
Qed.

(** ** Swapping the new files in *)

Section Swap.

Context (E : Env) (Hnf : no_faults E).

Ltac side := autorewrite with run; first [apply Hnf | eassumption | done].

Lemma update_file_spec (t name : string) (w : world) (d : dir) :
  name ≠ t ->
  root w !! t = Some (Dir d) ->
  exists r' d',
    update_file E [t] name w = (Ok tt, World r' (stdout w) (entropy w)) /\
    r' !! name = d !! name /\
    r' !! t = Some (Dir d') /\
    (forall k, k ≠ name -> d' !! k = d !! k) /\
    (forall k, k ≠ name -> k ≠ t -> r' !! k = root w !! k).
Proof.
  intros Hne Ht. unfold update_file. exec.
  assert (Hclear :
    (if match root w !! name with Some _ => true | None => false end
     then if match root w !! name with Some (Dir _) => true | _ => false end
          then shutil_rmtree E [name] true
          else unlink E [name]
     else ret tt) w =
    (Ok tt, World (delete name (root w)) (stdout w) (entropy w))).
  { destruct (root w !! name) as [[data|d0]|] eqn:Hname.
    - erewrite run_unlink_file by side. by exec.
    - erewrite run_rmtree_dir by side. by exec.
    - exec. rewrite delete_id by done. by destruct w. }
  rewrite Hclear. clear Hclear. exec. rewrite Ht.
  destruct (d !! name) as [n|] eqn:Hn; exec.
  - erewrite run_move_rename; [| side | exec; rewrite Ht; exact Hn | side
                                | exec; rewrite Ht; reflexivity].
    eexists _, _; split; [reflexivity|]. exec.
    repeat split; try done; intros; by exec.
  - eexists _, d; split; [reflexivity|]. exec.
    repeat split; try done; intros; by exec.
Qed.

End Swap.




(** ** Termination of the scratch-name loop *)

Lemma while_exists_terminates (r : dir) (ds : list rand8) (d0 : rand8) :
  Exists (fun d => r !! rand8_to_string d = None) (d0 :: ds) ->
  exists name ds', while_exists r [] (rand8_to_string d0) ds = (Some name, ds').
Proof.
  revert d0. induction ds as [|d ds IH]; intros d0 Hex; simpl;
    rewrite exists_1.
  - apply Exists_cons in Hex as [Hfree|Hex]; [|by apply Exists_nil in Hex].
    rewrite Hfree. eauto.
  - destruct (r !! rand8_to_string d0) eqn:Hd0; [|eauto].
    apply Exists_cons in Hex as [Hfree|Hex]; [congruence|]. by apply IH.
Qed.

Lemma fresh_dir_temp_terminates (w : world) :
  Exists (fun d => root w !! rand8_to_string d = None) (entropy w) ->
  fst (fresh_dir_temp [] w) ≠ Diverge.
Proof.
  intros Hex. unfold fresh_dir_temp, random_string. rewrite run_bind.
  destruct (entropy w) as [|d0 ds]; [by apply Exists_nil in Hex|].
  cbv beta iota. cbn [root stdout entropy].
  destruct (while_exists_terminates (root w) ds d0 Hex) as (name & ds' & ->).
  done.
Qed.

Lemma obeys_terminates {A} (R : relation world) (X : exn -> Prop) (m : M A)
    (w : world) :
  obeys R (raising X) m -> fst (m w) ≠ Diverge.
Proof.
  intros Hm. destruct (Hm w) as [_ Hend]. by destruct (m w) as [[a| e |] w'].
Qed.

Lemma temporary_directory_terminates (E : Env) (body : path -> M unit)
    (w : world) :
  fst (fresh_dir_temp [] w) ≠ Diverge ->
  (forall d w0, fst (body [rand8_to_string d] w0) ≠ Diverge) ->
  fst (temporary_directory E [] true body w) ≠ Diverge.
Proof.
  intros Hfresh Hbody. unfold temporary_directory. rewrite run_bind.
  destruct (fresh_dir_temp_spec w) as [(d & ds & Hrun & _)|[ds Hloop]];
    [|by rewrite Hloop in Hfresh].
  rewrite Hrun. cbv beta iota. rewrite run_bind.
  set (t := [rand8_to_string d]). set (w1 := World _ _ _).
  pose proof (obeys_terminates _ _ _ w1
                (touches_same_stdout _ _ (mkdir_touches E t))) as Hmk.
  destruct (mkdir E t w1) as [[[]| e |] w2]; cbn [fst] in *; [|done..].
  unfold try_finally. specialize (Hbody d w2). fold t in Hbody.
  destruct (body t w2) as [[[]| e |] w3]; cbn [fst] in *; [| |done].
  all: pose proof (rmtree_ignoring_returns E t w3) as Hfin;
    by destruct (shutil_rmtree E t true w3) as [[[]| e' |] w4].
Qed.

Lemma replace_executable_terminates (E : Env) (self : Updater) (w : world) :
  Exists (fun d => root w !! rand8_to_string d = None) (entropy w) ->
  fst (replace_executable E self w) ≠ Diverge.
Proof.
  intros Hex. unfold replace_executable. rewrite run_bind, run_print.
  cbv beta iota zeta.
  destruct (requests_get E (asset_url self)) as [msg|resp]; [done|].
  destruct (content_type_accepted resp); cbn [negb]; [|done].
  apply temporary_directory_terminates.
  - rewrite fresh_dir_temp_printed. by apply fresh_dir_temp_terminates.
  - intros d w0.
    apply (obeys_terminates _ _ _ w0 (replace_block_scratch E self resp d)).
Qed.

(** ** What has been printed stays printed *)

Lemma stdout_grows_print (w : world) (line : string) :
  stdout_grows w (World (root w) (stdout w ++ [line]) (entropy w)).
Proof. unfold stdout_grows. cbn. by apply prefix_app_r. Qed.

Lemma stdout_grows_root (w : world) (r' : dir) :
  stdout_grows w (World r' (stdout w) (entropy w)).
Proof. unfold stdout_grows. cbn. reflexivity. Qed.

Lemma same_stdout_grows (w w' : world) : same_stdout w w' -> stdout_grows w w'.
Proof. unfold same_stdout, stdout_grows. by intros ->. Qed.

Lemma stdout_grows_elem (w w' : world) (line : string) :
  stdout_grows w w' -> line ∈ stdout w -> line ∈ stdout w'.
Proof. intros [tail ->] Hin. apply elem_of_app. by left. Qed.

Lemma temporary_directory_grows (E : Env) (body : path -> M unit) (w : world) :
  (forall d w0, stdout_grows w0 (snd (body [rand8_to_string d] w0))) ->
  stdout_grows w (snd (temporary_directory E [] true body w)).
Proof.
  intros Hbody. unfold temporary_directory. rewrite run_bind.
  destruct (fresh_dir_temp_spec w) as [(d & ds & Hrun & _)|[ds Hloop]].
  2: { rewrite Hloop. cbn. unfold stdout_grows. cbn. reflexivity. }
  rewrite Hrun. cbv beta iota. rewrite run_bind.
  set (t := [rand8_to_string d]). set (w1 := World _ _ _).
  assert (H1 : stdout_grows w w1) by (unfold stdout_grows, w1; by cbn).
  destruct (touches_same_stdout _ _ (mkdir_touches E t) w1) as [Hmk _].
  apply same_stdout_grows in Hmk.
  destruct (mkdir E t w1) as [[[]| e |] w2]; cbn [fst snd] in *;
    [|by etrans..].
  unfold try_finally. specialize (Hbody d w2). fold t in Hbody.
  assert (H2 : stdout_grows w w2) by by etrans.
  destruct (body t w2) as [[[]| e |] w3]; cbn [fst snd] in *;
    [| |by etrans].
  all: destruct (touches_same_stdout _ _ (shutil_rmtree_touches E t true) w3)
         as [Hfin _]; apply same_stdout_grows in Hfin;
    destruct (shutil_rmtree E t true w3) as [[[]| e' |] w4];
    cbn [fst snd] in *;
    (etrans; [exact H2|]); (etrans; [exact Hbody|]); exact Hfin.
Qed.

Lemma replace_block_grows (E : Env) (self : Updater) (resp : response)
    (d : rand8) (w0 : world) :
  stdout_grows w0 (snd (
    (let tmpdir := [rand8_to_string d] in
     let fpath := tmpdir ++ path_of_string (asset_filename self) in
     download E resp fpath (asset_filename self) ;;
     unpack E fpath tmpdir ;;
     update_files E self tmpdir) w0)).
Proof.
  cbv zeta. cbn [app].
  assert (Hm : obeys stdout_grows (raising is_block_error)
    (download E resp (rand8_to_string d :: path_of_string (asset_filename self))
       (asset_filename self) ;;
     unpack E (rand8_to_string d :: path_of_string (asset_filename self))
       [rand8_to_string d] ;;
     update_files E self [rand8_to_string d])).
  { apply obeys_bind; [apply _ | | intros _].
    - apply download_block;
        first [apply _ | exact stdout_grows_print
              | intros; apply stdout_grows_root].
    - apply after_download_block;
        first [apply _ | exact stdout_grows_print
              | intros; apply stdout_grows_root | apply rand8_not_target]. }
  apply Hm.
Qed.

Lemma replace_executable_announces (E : Env) (self : Updater) (w : world) :
  stdout_grows (World (root w) (stdout w ++ ["▶ Downloading updates..."])
                  (entropy w))
    (snd (replace_executable E self w)).
Proof.
  unfold replace_executable. rewrite run_bind, run_print. cbv beta iota zeta.
  destruct (requests_get E (asset_url self)) as [msg|resp]; [reflexivity|].
  destruct (content_type_accepted resp); cbn [negb]; [|reflexivity].
  apply temporary_directory_grows. intros d w0.
  apply (replace_block_grows E self resp d w0).
Qed.

(** ** The transaction, step by step *)

Lemma print_summary_run (self : Updater) (w : world) :
  exists lines,
    print_summary self w = (Ok tt, World (root w) (stdout w ++ lines) (entropy w)).
Proof.
  unfold print_summary. exec. eexists. by rewrite <- !app_assoc.
Qed.

Lemma with_Updater_raise (E : Env) (mgr : M Updater) (body : Updater -> M unit)
    (w w0 w1 w2 w3 : world) (u : Updater) (e : exn) :
  mgr w = (Ok u, w0) ->
  __enter__ E u w0 = (Ok u, w1) ->
  body u w1 = (Raise e, w2) ->
  restore E u w2 = (Ok tt, w3) ->
  with_Updater E mgr body w = (Raise e, w3).
Proof.
  intros Hmgr Henter Hbody Hrestore. unfold with_Updater.
  rewrite run_bind, Hmgr. cbv beta iota. rewrite run_bind, Henter.
  cbv beta iota. rewrite Hbody. unfold __exit__. exec. rewrite Hrestore.
  by exec.
Qed.

Section Transaction.

Context (E : Env) (Hnf : no_faults E).

(** The state in which the body starts: the live installation has been
    moved into a fresh backup root. *)
Lemma enter_spec (vf vt bt : string) (wv : bool) (pf pt : Version) (w : world) :
  version_parse E vf = Some pf ->
  version_parse E vt = Some pt ->
  (major pf <= major pt)%N ->
  (forall data, root w !! ".backup" ≠ Some (File data)) ->
  let u := mkUpdater pf pt bt wv in
  exists w0 r1,
    __init__ E vf vt bt wv w = (Ok u, w0) /\
    __enter__ E u w0 =
      (Ok u, World r1 (stdout w ++ ["▶ Creating backup..."]) (entropy w)) /\
    (forall name, name ∈ manifest ->
       r1 !! name = None /\
       lookup_path r1 [".backup"; name] = root w !! name) /\
    (forall k, k ∉ manifest -> k ≠ ".backup" -> r1 !! k = root w !! k) /\
    is_dir r1 [".backup"] = true.
Proof.
  intros Hpf Hpt Hle Hfile u.
  pose proof (init_resets_backup_root E vf vt bt wv w (Hnf _) (Hnf _) Hfile)
    as Hinit.
  rewrite Hpf, Hpt in Hinit.
  assert (Hltb : (major pt <? major pf)%N = false) by by apply N.ltb_ge.
  rewrite Hltb in Hinit.
  set (w0 := World (<[".backup" := Dir ∅]> (root w)) (stdout w) (entropy w)) in *.
  destruct (backup_spec E Hnf u w0) as (r1 & Hbackup & Hlive & Hoth & Hdir).
  { intros data. unfold w0. cbn [root]. by rewrite lookup_insert_eq. }
  exists w0, r1. split; [exact Hinit|]. split.
  { unfold __enter__. rewrite run_bind, Hbackup. by exec. }
  unfold w0 in *. cbn [root] in *. split; [|split; [|done]].
  - intros name Hin. destruct (Hlive name Hin) as [H1 H2].
    split; [done|]. rewrite H2. apply lookup_insert_ne. intros <-.
    unfold manifest in Hin. rewrite !elem_of_cons, elem_of_nil in Hin.
    by destruct Hin as [?|[?|[?|[]]]].
  - intros k Hk Hkb. rewrite Hoth by done. by apply lookup_insert_ne.
Qed.

(** Rolling back: whatever happened to the entries of the manifest since
    the backup was taken, [restore] brings the original tree back and
    removes the backup root. *)
Lemma rollback_restores (self : Updater) (r r1 : dir) (w2 : world) :
  (forall name, name ∈ manifest ->
     lookup_path r1 [".backup"; name] = r !! name) ->
  (forall k, k ∉ manifest -> k ≠ ".backup" -> r1 !! k = r !! k) ->
  is_dir r1 [".backup"] = true ->
  outside manifest r1 (root w2) ->
  restore E self w2 =
    (Ok tt, World (delete ".backup" r)
              (stdout w2 ++ ["▶ Restoring from backup..."]) (entropy w2)).
Proof.
  intros Hbak Hoth Hdir Hout.
  assert (Hnb : ".backup" ∉ manifest).
  { unfold manifest. rewrite !not_elem_of_cons. repeat split; try done.
    apply not_elem_of_nil. }
  assert (Hsame : root w2 !! ".backup" = r1 !! ".backup") by by apply Hout.
  destruct (restore_spec E Hnf self w2) as (r3 & Hrun & Hlive3 & Hoth3 & Hbak3).
  rewrite Hrun. f_equal. f_equal. apply map_eq. intros k.
  destruct (decide (k = ".backup")) as [->|Hkb].
  { rewrite Hbak3, lookup_delete_eq. rewrite is_dir_1 in *.
    rewrite Hsame. by destruct (r1 !! ".backup") as [[|?]|]. }
  rewrite lookup_delete_ne by done.
  destruct (decide (k ∈ manifest)) as [Hin|Hnin].
  - rewrite Hlive3 by done. rewrite <- Hbak by done.
    by rewrite !lookup_path_2, Hsame.
  - rewrite Hoth3 by done. rewrite Hout by done. by apply Hoth.
Qed.

End Transaction.

Lemma rand8_not_manifest (d : rand8) :
  (rand8_to_string d ∉ manifest) /\ rand8_to_string d ≠ ".backup".
Proof.
  pose proof (rand8_length d) as Hlen. split.
  - intros Hin. unfold manifest in Hin.
    rewrite !elem_of_cons, elem_of_nil in Hin.
    destruct Hin as [H|[H|[H|[]]]]; rewrite H in Hlen; discriminate.
  - intros H. rewrite H in Hlen. discriminate.
Qed.

Lemma targets_in_manifest : ["driver-box.exe"; "bin"] ⊆ manifest.
Proof.
  intros k Hk. unfold manifest. rewrite !elem_of_cons, elem_of_nil in Hk.
  rewrite !elem_of_cons. destruct Hk as [->|[->|[]]]; auto.
Qed.

Section FailingUpdate.

Context (E : Env) (Hnf : no_faults E).

(** An update whose migration step is bound to raise: the transaction
    fails, but only after the download step has started, and the rollback
    gives back the original tree without the backup root. *)
Lemma failing_update_rolls_back (P : exn -> Prop) (vf vt bt : string)
    (wv : bool) (pf pt : Version) (w : world) :
  version_parse E vf = Some pf ->
  version_parse E vt = Some pt ->
  (major pf <= major pt)%N ->
  (forall data, root w !! ".backup" ≠ Some (File data)) ->
  Exists (fun d => root w !! rand8_to_string d = None) (entropy w) ->
  (forall w2,
     lookup_path (root w2) [".backup"; "conf"] = root w !! "conf" ->
     exists e w3,
       migrate_config E (mkUpdater pf pt bt wv) w2 = (Raise e, w3) /\
       root w3 = root w2 /\ stdout_grows w2 w3 /\ P e) ->
  exists e w' w1 res w2,
    transaction E vf vt bt wv w = (Raise e, w') /\
    root w' = delete ".backup" (root w) /\
    "▶ Downloading updates..." ∈ stdout w' /\
    last (stdout w') = Some "▶ Restoring from backup..." /\
    prelude E vf vt bt wv w = (Ok (mkUpdater pf pt bt wv), w1) /\
    replace_executable E (mkUpdater pf pt bt wv) w1 = (res, w2) /\
    (res = Raise e /\ is_replace_error e \/ res = Ok tt /\ P e).
Proof.
  intros Hpf Hpt Hle Hfile Hfresh Hmig.
  destruct (enter_spec E Hnf vf vt bt wv pf pt w Hpf Hpt Hle Hfile)
    as (w0 & r1 & Hinit & Henter & Hlive & Hoth & Hdir).
  set (u := mkUpdater pf pt bt wv) in *.
  set (w1 := World r1 (stdout w ++ ["▶ Creating backup..."]) (entropy w)) in *.
  destruct (print_summary_run u w1) as [lines Hsummary].
  set (w1' := World (root w1) (stdout w1 ++ lines) (entropy w1)) in *.
  assert (Hprelude : prelude E vf vt bt wv w = (Ok u, w1')).
  { unfold prelude. rewrite run_bind, Hinit. cbv beta iota.
    rewrite run_bind, Henter. cbv beta iota.
    rewrite run_bind, Hsummary. by exec. }
  assert (Hbody : exists e wb res w2,
    update E u w1 = (Raise e, wb) /\
    outside ["driver-box.exe"; "bin"] r1 (root wb) /\
    "▶ Downloading updates..." ∈ stdout wb /\
    replace_executable E u w1' = (res, w2) /\
    (res = Raise e /\ is_replace_error e \/ res = Ok tt /\ P e)).
  { unfold update. rewrite run_bind, Hsummary. cbv beta iota. rewrite run_bind.
    pose proof (replace_executable_outside E u w1' (fun p => Hnf _)) as Hout.
    pose proof (replace_executable_announces E u w1') as Hgrow.
    assert (Hterm : fst (replace_executable E u w1') ≠ Diverge).
    { apply replace_executable_terminates. unfold w1', w1. cbn [root entropy].
      eapply Exists_impl; [exact Hfresh|]. intros d Hd. cbv beta in *.
      destruct (rand8_not_manifest d) as [Hnm Hnb]. by rewrite Hoth. }
    destruct (replace_executable E u w1') as [res w2] eqn:Hrun.
    destruct (replace_executable_run E u w1' w2 res Hrun) as [Hend _].
    cbn [fst snd] in *. change (root w1') with r1 in Hout.
    assert (Hann : "▶ Downloading updates..." ∈ stdout w2).
    { eapply stdout_grows_elem; [exact Hgrow|]. cbn [stdout].
      apply elem_of_app. right. by left. }
    destruct res as [[]|e|]; [| |done].
    - destruct (Hmig w2) as (e & w3 & Hm & Hroot3 & Hgrow3 & HP).
      { assert (Hb2 : root w2 !! ".backup" = r1 !! ".backup").
        { apply Hout. rewrite !not_elem_of_cons.
          repeat split; try done. apply not_elem_of_nil. }
        assert (Hconf : "conf" ∈ manifest).
        { unfold manifest. rewrite !elem_of_cons. auto. }
        rewrite <- (proj2 (Hlive "conf" Hconf)).
        by rewrite !lookup_path_2, Hb2. }
      exists e, w3, (Ok tt), w2. split; [exact Hm|]. rewrite Hroot3.
      split; [done|]. split; [by eapply stdout_grows_elem|].
      split; [done|]. by right.
    - exists e, w2, (Raise e), w2. split; [done|]. split; [done|].
      split; [done|]. split; [done|]. by left. }
  destruct Hbody as (e & wb & res & w2 & Hbody & Hout & Hann & Hrun & He).
  assert (Hrestore := rollback_restores E Hnf u (root w) r1 wb
            (fun name Hin => proj2 (Hlive name Hin)) Hoth Hdir
            (outside_mono _ _ _ _ targets_in_manifest Hout)).
  eexists e, _, w1', res, w2. split.
  { unfold transaction.
    eapply (with_Updater_raise E _ _ w w0 w1 wb _ u e);
      [exact Hinit | exact Henter | exact Hbody | exact Hrestore]. }
  cbn [root stdout]. split; [done|]. split; [|split; [|done]].
  - apply elem_of_app. by left.
  - apply last_snoc.
Qed.

End FailingUpdate.

(** ** Unsupported jumps *)

(** C2, as the code has it. With an unsupported plan ([from.major = 1] and
    [to.major] 2 or at least 5), when the operating system refuses nothing,
    the backup root is not a regular file and a scratch name is available,
    the transaction always fails, but not before the download step: the
    constructor, the backup and the summary run first, then
    [replace_executable]; when that step raises, its error is the one
    reported, and when it returns (the new files are in place by then),
    [migrate_config] raises [NotImplementedError] (UnsupportedMigration). In
    both cases the download has been announced, [restore] runs last, and the
    tree afterwards is the original one without a backup root. *)
Theorem unsupported_migration_fails_after_download (E : Env)
    (vf vt bt : string) (wv : bool) (pf pt : Version) (w : world) :
  no_faults E ->
  version_parse E vf = Some pf ->
  version_parse E vt = Some pt ->
  major pf = 1%N ->
  (major pt = 2%N \/ (5 <= major pt)%N) ->
  (forall data, root w !! ".backup" ≠ Some (File data)) ->
  Exists (fun d => root w !! rand8_to_string d = None) (entropy w) ->
  exists e w' w1 res w2,
    transaction E vf vt bt wv w = (Raise e, w') /\
    root w' = delete ".backup" (root w) /\
    "▶ Downloading updates..." ∈ stdout w' /\
    last (stdout w') = Some "▶ Restoring from backup..." /\
    prelude E vf vt bt wv w = (Ok (mkUpdater pf pt bt wv), w1) /\
    replace_executable E (mkUpdater pf pt bt wv) w1 = (res, w2) /\
    (res = Raise e /\ is_replace_error e \/
     res = Ok tt /\
     e = NotImplementedError (msg_unsupported (mkUpdater pf pt bt wv))).
Proof.
  intros Hnf Hpf Hpt Hfrom Hto Hfile Hfresh.
  apply (failing_update_rolls_back E Hnf
           (fun e => e = NotImplementedError
                           (msg_unsupported (mkUpdater pf pt bt wv))));
    try done.
  - rewrite Hfrom. destruct Hto as [->|Hto]; lia.
  - intros w2 _. exists (NotImplementedError
                           (msg_unsupported (mkUpdater pf pt bt wv))), w2.
    split; [|by repeat split].
    unfold migrate_config. cbn [version_from version_to]. rewrite Hfrom.
    assert (H1 : (1 =? major pt)%N = false).
    { apply N.eqb_neq. destruct Hto as [->|Hto]; lia. }
    assert (H2 : ((major pt =? 2)%N || (5 <=? major pt)%N) = true).
    { apply orb_true_iff. rewrite N.eqb_eq, N.leb_le. tauto. }
    by rewrite H1, H2.
Qed.

Lemma unsupported_migration_fails_after_download_witness :
  let E := Examples.env_with Examples.good_response Examples.allow_all in
  let w := Examples.start Examples.installed in
  let u := mkUpdater (mkVersion [1; 9; 0]%N "1.9.0")
             (mkVersion [2; 0; 0]%N "2.0.0") "x64" false in
  exists e w' w1 res w2,
    transaction E "1.9.0" "2.0.0" "x64" false w = (Raise e, w') /\
    root w' = delete ".backup" (root w) /\
    "▶ Downloading updates..." ∈ stdout w' /\
    last (stdout w') = Some "▶ Restoring from backup..." /\
    prelude E "1.9.0" "2.0.0" "x64" false w = (Ok u, w1) /\
    replace_executable E u w1 = (res, w2) /\
    (res = Raise e /\ is_replace_error e \/
     res = Ok tt /\ e = NotImplementedError (msg_unsupported u)).
Proof.
  intros E w u.
  apply (unsupported_migration_fails_after_download E "1.9.0" "2.0.0" "x64"
           false (mkVersion [1; 9; 0]%N "1.9.0")
           (mkVersion [2; 0; 0]%N "2.0.0") w).
  - apply no_faults_allow_all.
  - reflexivity.
  - reflexivity.
  - reflexivity.
  - by left.
  - intros data. vm_compute. discriminate.
  - apply Exists_cons_hd. vm_compute. reflexivity.
Defined.

(** C2 as stated fails. Updating 1.9.0 to 2.0.0 with a good archive, the
    transaction does fail with [NotImplementedError], but only after the
    release has been downloaded, unpacked and swapped in; and when the
    response is an HTML page, the failure is the download step's
    [ValueError], not UnsupportedMigration. *)
Lemma unsupported_migration_is_detected_after_swap :
  let w := Examples.start Examples.installed in
  let good := transaction
    (Examples.env_with Examples.good_response Examples.allow_all)
    "1.9.0" "2.0.0" "x64" false w in
  let html := transaction
    (Examples.env_with Examples.html_response Examples.allow_all)
    "1.9.0" "2.0.0" "x64" false w in
  fst good =
    Raise (NotImplementedError "Auto update from v1 to v2 is not supported yet.") /\
  stdout (snd good) =
    ["▶ Creating backup..."; "+ -------------------------- +";
     "| Update From      1.9.0     |"; "| Update To        2.0.0     |";
     "| Binary            x64      |"; "| WebView2          No       |";
     "+ -------------------------- +"; ""; "▶ Downloading updates...";
     "  ↳ Downloading: driver-box.x64.zip"; "  ↳ Unpacking...";
     "  ↳ Updating files..."; "▶ Restoring from backup..."] /\
  fst html = Raise InvalidArtifact.
Proof. vm_compute. repeat split. Qed.

(** ** Copy-config without a configuration directory *)

(** C9. With a copy-config plan (an upgrade across majors that is not on the
    deny list) and an installation that has no [conf] directory, when the
    operating system refuses nothing, the backup root is not a regular file
    and a scratch name is available, the transaction never succeeds: if the
    download-and-swap step raises, that is the error; if it returns,
    [migrate_config] raises because its copy source [.backup/conf] is
    missing ([FileNotFoundError]) or is a file ([NotADirectoryError]). Either
    way [restore] runs and the tree afterwards is the original one without a
    backup root. *)
Theorem copy_config_needs_conf_directory (E : Env) (vf vt bt : string)
    (wv : bool) (pf pt : Version) (w : world) :
  no_faults E ->
  version_parse E vf = Some pf ->
  version_parse E vt = Some pt ->
  (major pf <= major pt)%N ->
  spec_planMigration (major pf) (major pt) = CopyConfig ->
  (forall data, root w !! ".backup" ≠ Some (File data)) ->
  (forall d, root w !! "conf" ≠ Some (Dir d)) ->
  Exists (fun d => root w !! rand8_to_string d = None) (entropy w) ->
  exists e w' w1 res w2,
    transaction E vf vt bt wv w = (Raise e, w') /\
    root w' = delete ".backup" (root w) /\
    "▶ Downloading updates..." ∈ stdout w' /\
    last (stdout w') = Some "▶ Restoring from backup..." /\
    prelude E vf vt bt wv w = (Ok (mkUpdater pf pt bt wv), w1) /\
    replace_executable E (mkUpdater pf pt bt wv) w1 = (res, w2) /\
    (res = Raise e /\ is_replace_error e \/
     res = Ok tt /\
     (e = OSError FileNotFoundError [".backup"; "conf"] \/
      e = OSError NotADirectoryError [".backup"; "conf"])).
Proof.
  intros Hnf Hpf Hpt Hle Hplan Hfile Hconf Hfresh.
  apply (failing_update_rolls_back E Hnf
           (fun e => e = OSError FileNotFoundError [".backup"; "conf"] \/
                     e = OSError NotADirectoryError [".backup"; "conf"]));
    try done.
  intros w2 Hsrc. unfold migrate_config. cbn [version_from version_to].
  unfold spec_planMigration in Hplan.
  destruct (major pf =? major pt)%N; [done|].
  destruct ((major pf =? 1)%N && ((major pt =? 2)%N || (5 <=? major pt)%N));
    [done|].
  rewrite run_bind, run_print. cbv beta iota.
  unfold shutil_copytree, dir_backup. cbn [app].
  rewrite run_guarded, Hnf, run_bind, run_get_root. cbv beta iota.
  cbn [root]. rewrite Hsrc.
  destruct (root w !! "conf") as [[data|d]|] eqn:Hc.
  - eexists _, _. split; [reflexivity|]. cbn [root].
    split; [done|]. split; [apply stdout_grows_print | by right].
  - by destruct (Hconf d).
  - eexists _, _. split; [reflexivity|]. cbn [root].
    split; [done|]. split; [apply stdout_grows_print | by left].
Qed.

Lemma copy_config_needs_conf_directory_witness :
  let E := Examples.env_with Examples.good_response Examples.allow_all in
  let w := Examples.start (delete "conf" Examples.installed) in
  let u := mkUpdater (mkVersion [2; 0; 0]%N "2.0.0")
             (mkVersion [3; 1; 0]%N "3.1.0") "x64" false in
  exists e w' w1 res w2,
    transaction E "2.0.0" "3.1.0" "x64" false w = (Raise e, w') /\
    root w' = delete ".backup" (root w) /\
    "▶ Downloading updates..." ∈ stdout w' /\
    last (stdout w') = Some "▶ Restoring from backup..." /\
    prelude E "2.0.0" "3.1.0" "x64" false w = (Ok u, w1) /\
    replace_executable E u w1 = (res, w2) /\
    (res = Raise e /\ is_replace_error e \/
     res = Ok tt /\
     (e = OSError FileNotFoundError [".backup"; "conf"] \/
      e = OSError NotADirectoryError [".backup"; "conf"])).
Proof.
  intros E w u.
  apply (copy_config_needs_conf_directory E "2.0.0" "3.1.0" "x64"
           false (mkVersion [2; 0; 0]%N "2.0.0")
           (mkVersion [3; 1; 0]%N "3.1.0") w).
  - apply no_faults_allow_all.
  - reflexivity.
  - reflexivity.
  - vm_compute. discriminate.
  - reflexivity.
  - intros data. vm_compute. discriminate.
  - intros d. vm_compute. discriminate.
  - apply Exists_cons_hd. vm_compute. reflexivity.
Defined.

(** * Further properties of the code *)

(** ** [restore] and [backup] on their own *)

(** [restore] in an environment that refuses nothing: it always returns;
    afterwards every path of the manifest holds exactly what the backup root
    held under that name (nothing, when the backup has no such entry:
    whatever was live there is removed), every other entry is as it was, and
    a backup root that was a directory is gone. *)
Theorem restore_reinstates_backup (E : Env) (self : Updater) (w : world) :
  no_faults E ->
  exists r',
    restore E self w =
      (Ok tt, World r' (stdout w ++ ["▶ Restoring from backup..."]) (entropy w)) /\
    (forall name, name ∈ manifest ->
       r' !! name = lookup_path (root w) [".backup"; name]) /\
    (forall k, k ∉ manifest -> k ≠ ".backup" -> r' !! k = root w !! k) /\
    r' !! ".backup" =
      (if is_dir (root w) [".backup"] then None else root w !! ".backup").
Proof. intros Hnf. by apply restore_spec. Qed.

Lemma restore_reinstates_backup_witness :
  let E := Examples.env_with Examples.good_response Examples.allow_all in
  let self := mkUpdater (mkVersion [1; 3; 0]%N "1.3.0")
                (mkVersion [1; 4; 0]%N "1.4.0") "x64" false in
  let w := Examples.start
             (<[".backup" := Dir Examples.installed]> Examples.installed) in
  exists r',
    restore E self w =
      (Ok tt, World r' (stdout w ++ ["▶ Restoring from backup..."]) (entropy w)) /\
    (forall name, name ∈ manifest ->
       r' !! name = lookup_path (root w) [".backup"; name]) /\
    (forall k, k ∉ manifest -> k ≠ ".backup" -> r' !! k = root w !! k) /\
    r' !! ".backup" =
      (if is_dir (root w) [".backup"] then None else root w !! ".backup").
Proof.
  intros E self w. apply (restore_reinstates_backup E self w).
  apply no_faults_allow_all.
Defined.

(** [restore] when there is no backup root: the live executable, [bin] and
    [conf] are removed all the same, and nothing is put in their place. *)
Theorem restore_without_backup_removes_live (E : Env) (self : Updater)
    (w : world) :
  no_faults E ->
  root w !! ".backup" = None ->
  exists r',
    restore E self w =
      (Ok tt, World r' (stdout w ++ ["▶ Restoring from backup..."]) (entropy w)) /\
    (forall name, name ∈ manifest -> r' !! name = None) /\
    (forall k, k ∉ manifest -> r' !! k = root w !! k).
Proof.
  intros Hnf Hnone.
  destruct (restore_spec E Hnf self w) as (r' & Hrun & Hlive & Hoth & Hbak).
  exists r'. split; [done|]. split.
  - intros name Hin. rewrite Hlive by done. by rewrite lookup_path_2, Hnone.
  - intros k Hk. destruct (decide (k = ".backup")) as [->|Hkb].
    + rewrite Hbak, is_dir_1, Hnone. done.
    + by apply Hoth.
Qed.

Lemma restore_without_backup_removes_live_witness :
  let E := Examples.env_with Examples.good_response Examples.allow_all in
  let self := mkUpdater (mkVersion [1; 3; 0]%N "1.3.0")
                (mkVersion [1; 4; 0]%N "1.4.0") "x64" false in
  let w := Examples.start Examples.installed in
  exists r',
    restore E self w =
      (Ok tt, World r' (stdout w ++ ["▶ Restoring from backup..."]) (entropy w)) /\
    (forall name, name ∈ manifest -> r' !! name = None) /\
    (forall k, k ∉ manifest -> r' !! k = root w !! k).
Proof.
  intros E self w. apply (restore_without_backup_removes_live E self w).
  - apply no_faults_allow_all.
  - reflexivity.
Defined.

Section BackupAlone.

Context (E : Env) (Hnf : no_faults E).

Ltac side := autorewrite with run; first [apply Hnf | eassumption | done].

Lemma backup_starts_afresh (self : Updater) (w : world) :
  (forall data, root w !! ".backup" ≠ Some (File data)) ->
  backup E self w =
  for_each manifest (backup_one E)
    (World (<[".backup" := Dir ∅]> (root w))
       (stdout w ++ ["▶ Creating backup..."]) (entropy w)).
Proof.
  intros Hfile. unfold backup. exec.
  destruct (root w !! ".backup") as [[data|b]|] eqn:Hb.
  - by destruct (Hfile data).
  - erewrite run_rmtree_dir by side. exec.
    erewrite run_mkdir_fresh; [| side | by exec | by exec]. by exec.
  - exec. erewrite run_mkdir_fresh; [| side | exec; by rewrite Hb | by exec].
    by exec.
Qed.

(** The entries of the backup root that are not of the manifest are not
    touched by the loop. *)
Lemma backup_loop_other_entries (w0 : world) (k : string) :
  is_dir (root w0) [".backup"] = true ->
  (forall name, name ∈ manifest ->
     lookup_path (root w0) [".backup"; name] = None) ->
  k ∉ manifest ->
  lookup_path (root (snd (for_each manifest (backup_one E) w0))) [".backup"; k] =
  lookup_path (root w0) [".backup"; k].
Proof.
  intros Hdir0 Hfree Hk. unfold manifest in *.
  rewrite !not_elem_of_cons in Hk. destruct Hk as (Hk1 & Hk2 & Hk3 & _).
  exec.
  destruct (backup_one_spec E Hnf "driver-box.exe" w0) as
    (r1 & Hrun1 & Hat1 & Hin1 & Hoth1 & Hbak1 & Hdir1);
    [done | done | apply Hfree; set_solver+ |].
  rewrite Hrun1. exec.
  destruct (backup_one_spec E Hnf "bin" (World r1 (stdout w0) (entropy w0))) as
    (r2 & Hrun2 & Hat2 & Hin2 & Hoth2 & Hbak2 & Hdir2);
    [done | done
     | cbn [root]; rewrite Hbak1 by done; apply Hfree; set_solver+ |].
  rewrite Hrun2. exec.
  destruct (backup_one_spec E Hnf "conf" (World r2 (stdout w0) (entropy w0))) as
    (r3 & Hrun3 & Hat3 & Hin3 & Hoth3 & Hbak3 & Hdir3);
    [done | done
     | cbn [root]; rewrite Hbak2, Hbak1 by done; apply Hfree; set_solver+ |].
  rewrite Hrun3. exec. cbn [root stdout entropy snd] in *.
  rewrite <- !lookup_path_2. by rewrite Hbak3, Hbak2, Hbak1.
Qed.

End BackupAlone.

(** [backup] in an environment that refuses nothing, with a backup root that
    is absent or a directory: it returns, and afterwards the backup root is
    a directory that holds exactly the entries of the manifest as they were
    in the working directory (what a stale backup root held is discarded);
    the live paths of the manifest are absent (moved, not copied), and every
    other entry is as it was. *)
Theorem backup_moves_manifest_aside (E : Env) (self : Updater) (w : world) :
  no_faults E ->
  (forall data, root w !! ".backup" ≠ Some (File data)) ->
  exists r' b,
    backup E self w =
      (Ok tt, World r' (stdout w ++ ["▶ Creating backup..."]) (entropy w)) /\
    r' !! ".backup" = Some (Dir b) /\
    (forall name, name ∈ manifest ->
       r' !! name = None /\ b !! name = root w !! name) /\
    (forall k, k ∉ manifest -> b !! k = None) /\
    (forall k, k ∉ manifest -> k ≠ ".backup" -> r' !! k = root w !! k).
Proof.
  intros Hnf Hfile.
  destruct (backup_spec E Hnf self w Hfile) as (r' & Hrun & Hlive & Hoth & Hdir).
  rewrite is_dir_1 in Hdir.
  destruct (r' !! ".backup") as [[|b]|] eqn:Hb; try done.
  exists r', b. split; [done|]. split; [done|]. split; [|split; [|done]].
  - intros name Hin. destruct (Hlive name Hin) as [H1 H2].
    split; [done|]. by rewrite lookup_path_2, Hb in H2.
  - intros k Hk.
    pose proof (backup_starts_afresh E Hnf self w Hfile) as Hfresh.
    set (w0 := World _ _ _) in Hfresh.
    pose proof (backup_loop_other_entries E Hnf w0 k) as Hloop.
    rewrite <- Hfresh, Hrun in Hloop. cbn [snd root] in Hloop.
    rewrite lookup_path_2, Hb in Hloop. rewrite Hloop; [| | |done].
    + unfold w0. by exec.
    + unfold w0. by exec.
    + intros name _. unfold w0. by exec.
Qed.

Lemma backup_moves_manifest_aside_witness :
  let E := Examples.env_with Examples.good_response Examples.allow_all in
  let self := mkUpdater (mkVersion [1; 3; 0]%N "1.3.0")
                (mkVersion [1; 4; 0]%N "1.4.0") "x64" false in
  let w := Examples.start
             (<[".backup" := Dir Examples.settings]> Examples.installed) in
  exists r' b,
    backup E self w =
      (Ok tt, World r' (stdout w ++ ["▶ Creating backup..."]) (entropy w)) /\
    r' !! ".backup" = Some (Dir b) /\
    (forall name, name ∈ manifest ->
       r' !! name = None /\ b !! name = root w !! name) /\
    (forall k, k ∉ manifest -> b !! k = None) /\
    (forall k, k ∉ manifest -> k ≠ ".backup" -> r' !! k = root w !! k).
Proof.
  intros E self w. apply (backup_moves_manifest_aside E self w).
  - apply no_faults_allow_all.
  - intros data. vm_compute. discriminate.
Defined.

(** ** The targets of [replace_executable], by the WebView2 flag *)

(** The block of [replace_executable] again, for a scratch directory [t] and
    any list [keys] of top-level names the swap may replace. *)
Section BlockOn.

Context (E : Env) (t : string) (keys : list string).
Context (Ht : t ∉ keys).
Context (R : relation world) `{!PreOrder R}.
Context (Hprint : forall w line,
  R w (World (root w) (stdout w ++ [line]) (entropy w))).
Context (Hroot : forall w r',
  scratch t keys (root w) r' -> R w (World r' (stdout w) (entropy w))).

Lemma download_block_on (resp : response) (cs : path) (filename : string) :
  obeys R (raising is_block_error) (download E resp (t :: cs) filename).
Proof.
  unfold download.
  apply obeys_bind; [apply _ | by apply obeys_prints | intros _].
  apply obeys_bind; [apply _ | | intros _].
  { destruct (content_length resp) as [|err|n].
    - apply obeys_raise; [apply _|]. by left.
    - apply obeys_raise; [apply _|]. right. by exists err.
    - by apply obeys_ret; [apply _|]. }
  apply obeys_bind; [apply _ | | intros _].
  { eapply obeys_touches; [apply _ | apply open_wb_touches | | apply lib_error_block].
    intros w r' HF. by apply Hroot, (puts_over_inside_scratch _ _ cs). }
  apply obeys_bind; [apply _ | | intros _].
  { apply obeys_for_each; [apply _ | done |]. intros chunk.
    eapply obeys_touches; [apply _ | apply write_touches | | apply lib_error_block].
    intros w r' HF. by apply Hroot, (puts_over_inside_scratch _ _ cs). }
  destruct (stream_error resp).
  - apply obeys_raise; [apply _|]. by left.
  - by apply obeys_ret; [apply _|].
Qed.

Lemma unpack_block_on (fpath : path) :
  obeys R (raising is_block_error) (unpack E fpath [t]).
Proof.
  unfold unpack.
  apply obeys_bind; [apply _ | by apply obeys_prints |]. intros _.
  apply obeys_bind; [apply _ | by apply obeys_get_root; [apply _|] |]. intros r.
  destruct (lookup_path r fpath) as [[data|d]|].
  - destruct (zip_parse E data) as [filelist|].
    + apply obeys_for_each; [apply _ | done |]. intros archive.
      eapply obeys_touches;
        [apply _ | apply zip_extract_touches | | apply lib_error_block].
      intros w r' HF. by apply Hroot, (puts_over_inside_scratch _ _ []).
    + apply obeys_raise; [apply _|]. by left.
  - apply obeys_raise; [apply _|]. by left.
  - apply obeys_raise; [apply _|]. by left.
Qed.

Lemma update_file_block_on (name : string) :
  name ∈ keys ->
  obeys R (raising is_block_error) (update_file E [t] name).
Proof.
  intros Hin. assert (Hne : name ≠ t) by (by intros ->).
  unfold update_file. cbn [app].
  apply obeys_bind; [apply _ | by apply obeys_get_root; [apply _|] |]. intros r.
  apply obeys_bind; [apply _ | | intros _].
  { destruct (exists_ r [name]); [destruct (is_dir r [name])|].
    - eapply obeys_touches;
        [apply _ | apply shutil_rmtree_touches | | apply lib_error_block].
      intros w r' HF. by apply Hroot, (removes_target_scratch _ _ name []).
    - eapply obeys_touches;
        [apply _ | apply unlink_touches | | apply lib_error_block].
      intros w r' HF. by apply Hroot, (removes_target_scratch _ _ name []).
    - by apply obeys_ret; [apply _|]. }
  apply obeys_bind; [apply _ | by apply obeys_get_root; [apply _|] |]. intros r1.
  apply obeys_if; [| by apply obeys_ret; [apply _|]].
  eapply obeys_touches;
    [apply _ | apply shutil_move_touches | | apply lib_error_block].
  intros w r' HF. by apply Hroot, (moves_out_scratch _ _ name name []).
Qed.

Lemma update_files_block_on (self : Updater) :
  (forall name, name ∈ paths self -> name ∈ keys) ->
  obeys R (raising is_block_error) (update_files E self [t]).
Proof.
  intros Hsub. unfold update_files.
  apply obeys_bind; [apply _ | by apply obeys_prints |]. intros _.
  apply obeys_for_each_in; [apply _ | done |]. intros name Hin.
  apply update_file_block_on. by apply Hsub.
Qed.

End BlockOn.

Lemma replace_block_paths (E : Env) (self : Updater) (resp : response)
    (d : rand8) :
  obeys (on_root (scratch (rand8_to_string d) (paths self)))
    (raising is_block_error)
    (let tmpdir := [rand8_to_string d] in
     let fpath := tmpdir ++ path_of_string (asset_filename self) in
     download E resp fpath (asset_filename self) ;;
     unpack E fpath tmpdir ;;
     update_files E self tmpdir).
Proof.
  cbv zeta. cbn [app].
  assert (Ht : rand8_to_string d ∉ paths self).
  { intros Hin. by apply (rand8_not_target d), paths_targets with self. }
  assert (Hprint : forall (w : world) (line : string),
    on_root (scratch (rand8_to_string d) (paths self)) w
      (World (root w) (stdout w ++ [line]) (entropy w))).
  { intros w line. unfold on_root. cbn [root]. reflexivity. }
  assert (Hroot : forall (w : world) (r' : dir),
    scratch (rand8_to_string d) (paths self) (root w) r' ->
    on_root (scratch (rand8_to_string d) (paths self)) w
      (World r' (stdout w) (entropy w))).
  { by intros w r' H. }
  apply obeys_bind; [apply _ | | intros _].
  - apply (download_block_on E _ (paths self));
      first [apply _ | exact Hprint | exact Hroot | exact Ht].
  - apply obeys_bind; [apply _ | | intros _].
    + apply (unpack_block_on E _ (paths self));
        first [apply _ | exact Hprint | exact Hroot | exact Ht].
    + apply (update_files_block_on E _ (paths self));
        first [apply _ | exact Hprint | exact Hroot | exact Ht | done].
Qed.

(** With [rmtree] not refused, [replace_executable] leaves every top-level
    entry that is not one of its targets as it was. *)
Lemma replace_executable_outside_paths (E : Env) (self : Updater) (w : world) :
  (forall p, denied E (c_rmtree p) = false) ->
  outside (paths self) (root w) (root (snd (replace_executable E self w))).
Proof.
  intros Hallowed.
  destruct (replace_executable E self w) as [res w'] eqn:Hrun. cbn [snd].
  revert Hrun. unfold replace_executable.
  rewrite run_bind, run_print. cbv beta iota zeta.
  destruct (requests_get E (asset_url self)) as [msg|resp].
  { by intros [= <- <-]. }
  destruct (content_type_accepted resp); cbn [negb].
  2: { by intros [= <- <-]. }
  intros Hrun.
  destruct (temporary_directory_run E (paths self) is_block_error
              _ (fun e He => or_introl He)
              (replace_block_paths E self resp) _ _ _ Hrun)
    as [_ [Hsame|(d & Hfree & Hout & Hgone)]].
  { rewrite Hsame. by intros k _. }
  intros k Hk. cbn [root] in *.
  destruct (decide (k = rand8_to_string d)) as [->|Hne].
  - rewrite Hfree. by apply Hgone.
  - apply Hout. rewrite not_elem_of_cons. by split.
Qed.

(** [replace_executable] changes its own targets only. Provided the
    operating system does not refuse [rmtree], however the call ends, every
    top-level entry other than [driver-box.exe] and, with the WebView2 flag,
    [bin] is afterwards as it was before: without the flag the call never
    touches [bin]. *)
Theorem replace_executable_changes_its_targets_only (E : Env) (self : Updater)
    (w : world) :
  (forall p, denied E (c_rmtree p) = false) ->
  forall k, k ∉ paths self ->
    root (snd (replace_executable E self w)) !! k = root w !! k.
Proof. intros Hallowed. by apply replace_executable_outside_paths. Qed.

Lemma replace_executable_changes_its_targets_only_witness :
  let E := Examples.env_with Examples.good_response Examples.allow_all in
  let self := mkUpdater (mkVersion [1; 3; 0]%N "1.3.0")
                (mkVersion [1; 4; 0]%N "1.4.0") "x64" false in
  let w := Examples.start (<["bin" := Dir ∅]> Examples.installed) in
  root (snd (replace_executable E self w)) !! "bin" = root w !! "bin".
Proof.
  intros E self w.
  apply (replace_executable_changes_its_targets_only E self w).
  - intros p. reflexivity.
  - apply not_in_1. discriminate.
Defined.

(** ** A successful update *)

Lemma with_Updater_return (E : Env) (mgr : M Updater) (body : Updater -> M unit)
    (w w0 w1 w2 : world) (u : Updater) :
  mgr w = (Ok u, w0) ->
  __enter__ E u w0 = (Ok u, w1) ->
  body u w1 = (Ok tt, w2) ->
  with_Updater E mgr body w =
  (Ok tt, snd (cleanup E u w2)).
Proof.
  intros Hmgr Henter Hbody. unfold with_Updater.
  rewrite run_bind, Hmgr. cbv beta iota. rewrite run_bind, Henter.
  cbv beta iota. rewrite Hbody. unfold __exit__. exec.
  pose proof (cleanup_returns E u w2) as Hret.
  destruct (cleanup E u w2) as [res w3]. cbn [fst snd] in *. subst res.
  by exec.
Qed.

Section SuccessfulUpdate.

Context (E : Env) (Hnf : no_faults E).

Lemma cleanup_removes_backup_root (self : Updater) (w : world) :
  is_dir (root w) [".backup"] = true ->
  cleanup E self w =
  (Ok tt, World (delete ".backup" (root w))
            (stdout w ++ ["▶ Cleaning up backup..."]) (entropy w)).
Proof.
  intros Hdir. unfold cleanup. exec. rewrite is_dir_1 in Hdir.
  destruct (root w !! ".backup") as [[|b]|] eqn:Hb; try done.
  erewrite run_rmtree_dir; [by exec | apply Hnf | by exec].
Qed.

(** The steps of a transaction that returns. *)
Lemma transaction_returns (vf vt bt : string) (wv : bool) (pf pt : Version)
    (w w' : world) :
  version_parse E vf = Some pf ->
  version_parse E vt = Some pt ->
  (major pf <= major pt)%N ->
  (forall data, root w !! ".backup" ≠ Some (File data)) ->
  transaction E vf vt bt wv w = (Ok tt, w') ->
  exists r1 w2 w3,
    (forall name, name ∈ manifest ->
       r1 !! name = None /\
       lookup_path r1 [".backup"; name] = root w !! name) /\
    (forall k, k ∉ manifest -> k ≠ ".backup" -> r1 !! k = root w !! k) /\
    is_dir r1 [".backup"] = true /\
    outside (paths (mkUpdater pf pt bt wv)) r1 (root w2) /\
    migrate_config E (mkUpdater pf pt bt wv) w2 = (Ok tt, w3) /\
    w' = snd (cleanup E (mkUpdater pf pt bt wv) w3) /\
    exists w1,
      root w1 = r1 /\
      replace_executable E (mkUpdater pf pt bt wv) w1 = (Ok tt, w2).
Proof.
  intros Hpf Hpt Hle Hfile Hrun.
  destruct (enter_spec E Hnf vf vt bt wv pf pt w Hpf Hpt Hle Hfile)
    as (w0 & r1 & Hinit & Henter & Hlive & Hoth & Hdir).
  set (u := mkUpdater pf pt bt wv) in *.
  set (w1 := World r1 (stdout w ++ ["▶ Creating backup..."]) (entropy w)) in *.
  destruct (print_summary_run u w1) as [lines Hsummary].
  set (w1' := World (root w1) (stdout w1 ++ lines) (entropy w1)) in *.
  pose proof (replace_executable_outside_paths E u w1' (fun p => Hnf _)) as Hout.
  change (root w1') with r1 in Hout.
  destruct (update E u w1) as [res wb] eqn:Hbody.
  destruct res as [[]|e|].
  - unfold transaction in Hrun.
    rewrite (with_Updater_return E _ _ w w0 w1 wb u Hinit Henter Hbody) in Hrun.
    injection Hrun as <-.
    revert Hbody. unfold update. rewrite run_bind, Hsummary. cbv beta iota.
    rewrite run_bind.
    destruct (replace_executable E u w1') as [res2 w2] eqn:Hrep.
    cbn [snd] in Hout.
    destruct res2 as [[]|e|]; [|done..].
    intros Hmig. exists r1, w2, wb. repeat (split; [done|]). by exists w1'.
  - exfalso. revert Hrun. unfold transaction, with_Updater.
    rewrite run_bind, Hinit. cbv beta iota. rewrite run_bind, Henter.
    cbv beta iota. rewrite Hbody. unfold __exit__. exec.
    destruct (restore E u wb) as [[[]|e'|] w3]; by exec.
  - exfalso. revert Hrun. unfold transaction, with_Updater.
    rewrite run_bind, Hinit. cbv beta iota. rewrite run_bind, Henter.
    cbv beta iota. by rewrite Hbody.
Qed.

End SuccessfulUpdate.

(** What is left after an update that succeeded. When the operating system
    refuses nothing and the transaction returns normally, the backup root
    is gone, and with it every entry of the manifest that the update did not
    put back: an installed [bin] is gone unless the WebView2 flag was given,
    and an installed [conf] is gone when the two versions have the same
    major (no configuration is migrated then). Entries that are not of the
    manifest are as they were, and the last line printed is the one of
    [cleanup]. *)
Theorem successful_update_keeps_only_what_it_put_back (E : Env)
    (vf vt bt : string) (wv : bool) (pf pt : Version) (w w' : world) :
  no_faults E ->
  version_parse E vf = Some pf ->
  version_parse E vt = Some pt ->
  (major pf <= major pt)%N ->
  (forall data, root w !! ".backup" ≠ Some (File data)) ->
  transaction E vf vt bt wv w = (Ok tt, w') ->
  root w' !! ".backup" = None /\
  (wv = false -> root w' !! "bin" = None) /\
  (major pf = major pt -> root w' !! "conf" = None) /\
  (forall k, k ∉ manifest -> k ≠ ".backup" -> root w' !! k = root w !! k) /\
  last (stdout w') = Some "▶ Cleaning up backup...".
Proof.
  intros Hnf Hpf Hpt Hle Hfile Hrun.
  destruct (transaction_returns E Hnf vf vt bt wv pf pt w w' Hpf Hpt Hle Hfile Hrun)
    as (r1 & w2 & w3 & Hlive & Hoth & Hdir & Hout & Hmig & -> & _).
  set (u := mkUpdater pf pt bt wv) in *.
  assert (Hb2 : root w2 !! ".backup" = r1 !! ".backup").
  { apply Hout. intros Hin. by apply paths_targets in Hin;
      rewrite !elem_of_cons, elem_of_nil in Hin; destruct Hin as [?|[?|[]]]. }
  assert (Hconf2 : root w2 !! "conf" = None).
  { rewrite Hout.
    - apply Hlive. unfold manifest. rewrite !elem_of_cons. auto.
    - intros Hin. by apply paths_targets in Hin;
        rewrite !elem_of_cons, elem_of_nil in Hin; destruct Hin as [?|[?|[]]]. }
  assert (Hmig3 : root w3 !! ".backup" = root w2 !! ".backup" /\
                  (forall k, k ≠ "conf" -> root w3 !! k = root w2 !! k) /\
                  (major pf = major pt -> root w3 = root w2)).
  { revert Hmig. unfold migrate_config, u. cbn [version_from version_to].
    destruct (major pf =? major pt)%N eqn:Heq.
    { rewrite run_ret. by intros [= <-]. }
    destruct ((major pf =? 1)%N && ((major pt =? 2)%N || (5 <=? major pt)%N));
      [done|].
    rewrite run_bind, run_print. cbv beta iota. intros Hcopy.
    destruct (shutil_copytree_touches E (dir_backup ++ ["conf"]) ["conf"]
                (World (root w2) (stdout w2 ++ ["▶ Migrating configuration..."])
                   (entropy w2))) as [(r' & Hw & HF) _].
    rewrite Hcopy in Hw. cbn [snd root] in *. subst w3. cbn [root].
    assert (Hother : forall k, k ≠ "conf" -> r' !! k = root w2 !! k).
    { destruct HF as [->|Hput]; [done|]. intros k Hk.
      eapply (puts_over_outside ["conf"] ["conf"]);
        [by left | exact Hput | by apply not_in_1]. }
    split; [by apply Hother|]. split; [done|].
    intros Hmaj. apply N.eqb_neq in Heq. by destruct Heq. }
  destruct Hmig3 as (Hb3 & Hoth3 & Hsame3).
  assert (Hdir3 : is_dir (root w3) [".backup"] = true).
  { rewrite is_dir_1 in *. by rewrite Hb3, Hb2. }
  rewrite (cleanup_removes_backup_root E Hnf u w3 Hdir3). cbn [snd root stdout].
  split; [apply lookup_delete_eq|]. split; [|split; [|split]].
  - intros ->. rewrite lookup_delete_ne by done. rewrite Hoth3 by done.
    rewrite Hout.
    + apply Hlive. unfold manifest. rewrite !elem_of_cons. auto.
    + unfold u, paths. cbn [webview]. by apply not_in_1.
  - intros Hmaj. rewrite lookup_delete_ne by done. by rewrite Hsame3.
  - intros k Hk Hkb. rewrite lookup_delete_ne by done.
    unfold manifest in Hk. rewrite !not_elem_of_cons in Hk.
    destruct Hk as (Hk1 & Hk2 & Hk3 & _).
    rewrite Hoth3 by done. rewrite Hout.
    + apply Hoth; [|done]. unfold manifest. rewrite !not_elem_of_cons.
      repeat split; try done. apply not_elem_of_nil.
    + intros Hin. apply paths_targets in Hin.
      rewrite !elem_of_cons, elem_of_nil in Hin. by destruct Hin as [?|[?|[]]].
  - apply last_snoc.
Qed.

Lemma successful_update_keeps_only_what_it_put_back_witness :
  let E := Examples.env_with Examples.good_response Examples.allow_all in
  let r := <["bin" := Dir ∅]> (<["notes.txt" := File []]> Examples.installed) in
  let w := Examples.start r in
  let w' := snd (transaction E "1.3.0" "1.4.0" "x64" false w) in
  root w' !! ".backup" = None /\
  (false = false -> root w' !! "bin" = None) /\
  (major (mkVersion [1; 3; 0]%N "1.3.0") = major (mkVersion [1; 4; 0]%N "1.4.0") ->
   root w' !! "conf" = None) /\
  (forall k, k ∉ manifest -> k ≠ ".backup" -> root w' !! k = root w !! k) /\
  last (stdout w') = Some "▶ Cleaning up backup...".
Proof.
  intros E r w w'.
  apply (successful_update_keeps_only_what_it_put_back E "1.3.0" "1.4.0" "x64"
           false (mkVersion [1; 3; 0]%N "1.3.0")
           (mkVersion [1; 4; 0]%N "1.4.0") w w').
  - apply no_faults_allow_all.
  - reflexivity.
  - reflexivity.
  - vm_compute. discriminate.
  - intros data. vm_compute. discriminate.
  - vm_compute. reflexivity.
Defined.

(** An update across majors that succeeded has carried the configuration
    over. When the operating system refuses nothing, the target major is
    above the installed one and the pair is not on the deny list, a
    transaction that returns normally started from an installation whose
    [conf] was a directory, and ends with that same directory at [conf],
    content for content. *)
Theorem cross_major_update_carries_conf (E : Env) (vf vt bt : string)
    (wv : bool) (pf pt : Version) (w w' : world) :
  no_faults E ->
  version_parse E vf = Some pf ->
  version_parse E vt = Some pt ->
  (major pf < major pt)%N ->
  (major pf =? 1)%N && ((major pt =? 2)%N || (5 <=? major pt)%N) = false ->
  (forall data, root w !! ".backup" ≠ Some (File data)) ->
  transaction E vf vt bt wv w = (Ok tt, w') ->
  (exists d, root w !! "conf" = Some (Dir d)) /\
  root w' !! "conf" = root w !! "conf".
Proof.
  intros Hnf Hpf Hpt Hlt Hallowed Hfile Hrun.
  destruct (transaction_returns E Hnf vf vt bt wv pf pt w w' Hpf Hpt
              (N.lt_le_incl _ _ Hlt) Hfile Hrun)
    as (r1 & w2 & w3 & Hlive & Hoth & Hdir & Hout & Hmig & -> & _).
  set (u := mkUpdater pf pt bt wv) in *.
  assert (Hnt : forall k, k ∉ ["driver-box.exe"; "bin"] -> k ∉ paths u).
  { intros k Hk Hin. by apply Hk, paths_targets with u. }
  assert (Hb2 : root w2 !! ".backup" = r1 !! ".backup").
  { apply Hout, Hnt. rewrite !not_elem_of_cons.
    repeat split; try done. apply not_elem_of_nil. }
  assert (Hconf : "conf" ∈ manifest).
  { unfold manifest. rewrite !elem_of_cons. auto. }
  assert (Hconf2 : root w2 !! "conf" = None).
  { rewrite Hout; [by apply Hlive|]. apply Hnt. rewrite !not_elem_of_cons.
    repeat split; try done. apply not_elem_of_nil. }
  assert (Hsrc : lookup_path (root w2) [".backup"; "conf"] = root w !! "conf").
  { rewrite <- (proj2 (Hlive "conf" Hconf)). by rewrite !lookup_path_2, Hb2. }
  revert Hmig. unfold migrate_config, u. cbn [version_from version_to].
  assert (Hne : (major pf =? major pt)%N = false) by (apply N.eqb_neq; lia).
  rewrite Hne, Hallowed. rewrite run_bind, run_print. cbv beta iota.
  unfold shutil_copytree, dir_backup. cbn [app].
  rewrite run_guarded, Hnf, run_bind, run_get_root. cbv beta iota.
  cbn [root]. rewrite Hsrc.
  destruct (root w !! "conf") as [[data|d]|] eqn:Hc; [done| |done].
  rewrite exists_1, Hconf2, put_path_1, run_set_root.
  intros [= <-]. split; [by exists d|].
  rewrite cleanup_removes_backup_root; [|done|].
  - cbn [snd root]. rewrite lookup_delete_ne by done.
    by rewrite lookup_insert_eq.
  - cbn [root]. rewrite is_dir_1 in *. rewrite lookup_insert_ne by done.
    by rewrite Hb2.
Qed.

Lemma cross_major_update_carries_conf_witness :
  let E := Examples.env_with Examples.good_response Examples.allow_all in
  let w := Examples.start Examples.installed in
  let w' := snd (transaction E "2.0.0" "3.1.0" "x64" true w) in
  (exists d, root w !! "conf" = Some (Dir d)) /\
  root w' !! "conf" = root w !! "conf".
Proof.
  intros E w w'.
  apply (cross_major_update_carries_conf E "2.0.0" "3.1.0" "x64" true
           (mkVersion [2; 0; 0]%N "2.0.0") (mkVersion [3; 1; 0]%N "3.1.0")
           w w').
  - apply no_faults_allow_all.
  - reflexivity.
  - reflexivity.
  - vm_compute. reflexivity.
  - reflexivity.
  - intros data. vm_compute. discriminate.
  - vm_compute. reflexivity.
Defined.

(** ** The scope as a rollback *)

(** [with Updater(...) as updater: body] undoes a body that fails. When the
    operating system refuses nothing and the constructor accepts the
    versions, the body starts in the state [__enter__] leaves; if it raises
    there after changing, at top level, entries of the manifest only (it may
    have removed, replaced or created any of them), the same exception
    leaves the scope, [restore] has printed the last line, and the tree is
    the one the transaction started from, without a backup root. *)
Theorem failing_body_is_rolled_back (E : Env) (vf vt bt : string) (wv : bool)
    (pf pt : Version) (body : Updater -> M unit) (w : world) :
  no_faults E ->
  version_parse E vf = Some pf ->
  version_parse E vt = Some pt ->
  (major pf <= major pt)%N ->
  (forall data, root w !! ".backup" ≠ Some (File data)) ->
  exists w1,
    (mgr <- __init__ E vf vt bt wv ;; __enter__ E mgr) w =
      (Ok (mkUpdater pf pt bt wv), w1) /\
    forall e w2,
      body (mkUpdater pf pt bt wv) w1 = (Raise e, w2) ->
      (forall k, k ∉ manifest -> root w2 !! k = root w1 !! k) ->
      with_Updater E (__init__ E vf vt bt wv) body w =
        (Raise e,
         World (delete ".backup" (root w))
           (stdout w2 ++ ["▶ Restoring from backup..."]) (entropy w2)).
Proof.
  intros Hnf Hpf Hpt Hle Hfile.
  destruct (enter_spec E Hnf vf vt bt wv pf pt w Hpf Hpt Hle Hfile)
    as (w0 & r1 & Hinit & Henter & Hlive & Hoth & Hdir).
  eexists. split.
  { rewrite run_bind, Hinit. cbv beta iota. exact Henter. }
  intros e w2 Hbody Hout.
  eapply with_Updater_raise; [exact Hinit | exact Henter | exact Hbody |].
  apply (rollback_restores E Hnf _ (root w) r1 w2); try done.
  intros name Hin. by apply Hlive.
Qed.

Lemma failing_body_is_rolled_back_witness :
  let E := Examples.env_with Examples.good_response Examples.allow_all in
  let w := Examples.start Examples.installed in
  let u := mkUpdater (mkVersion [1; 3; 0]%N "1.3.0")
             (mkVersion [1; 4; 0]%N "1.4.0") "x64" false in
  let body := fun _ : Updater =>
    open_wb E ["driver-box.exe"] ;; raise (A := unit) BadZipFile in
  exists w1,
    (mgr <- __init__ E "1.3.0" "1.4.0" "x64" false ;; __enter__ E mgr) w =
      (Ok u, w1) /\
    forall e w2,
      body u w1 = (Raise e, w2) ->
      (forall k, k ∉ manifest -> root w2 !! k = root w1 !! k) ->
      with_Updater E (__init__ E "1.3.0" "1.4.0" "x64" false) body w =
        (Raise e,
         World (delete ".backup" (root w))
           (stdout w2 ++ ["▶ Restoring from backup..."]) (entropy w2)).
Proof.
  intros E w u body.
  apply (failing_body_is_rolled_back E "1.3.0" "1.4.0" "x64" false
           (mkVersion [1; 3; 0]%N "1.3.0") (mkVersion [1; 4; 0]%N "1.4.0")
           body w).
  - apply no_faults_allow_all.
  - reflexivity.
  - reflexivity.
  - vm_compute. discriminate.
  - intros data. vm_compute. discriminate.
Defined.

(** ** [temporary_directory] *)

Lemma fresh_dir_temp_world (w : world) (t : string) :
  fst (fresh_dir_temp [] w) = Ok [t] ->
  root w !! t = None /\
  fresh_dir_temp [] w =
    (Ok [t], World (root w) (stdout w) (entropy (snd (fresh_dir_temp [] w)))).
Proof.
  destruct (fresh_dir_temp_spec w) as [(d & ds & Hrun & Hfree)|[ds Hloop]].
  - rewrite Hrun. cbn [fst snd entropy]. by intros [= <-].
  - by rewrite Hloop.
Qed.

Lemma temporary_directory_with_body {A} (E : Env) (del : bool)
    (body : path -> M A) (w : world) (t : string) :
  fst (fresh_dir_temp [] w) = Ok [t] ->
  denied E (c_mkdir [t]) = false ->
  let w1 := World (<[t := Dir ∅]> (root w)) (stdout w)
              (entropy (snd (fresh_dir_temp [] w))) in
  root w !! t = None /\
  temporary_directory E [] del body w =
    (fst (body [t] w1),
     let w2 := snd (body [t] w1) in
     match fst (body [t] w1) with
     | Diverge => w2
     | _ =>
         if del && is_dir (root w2) [t] && negb (denied E (c_rmtree [t]))
         then World (delete t (root w2)) (stdout w2) (entropy w2)
         else w2
     end).
Proof.
  intros Hfresh Hmk w1. destruct (fresh_dir_temp_world w t Hfresh) as [Hfree Hrun].
  split; [done|].
  unfold temporary_directory. cbn [app]. rewrite run_bind, Hrun.
  cbv beta iota. rewrite run_bind. unfold mkdir. exec. rewrite Hmk, Hfree. exec.
  fold w1. unfold try_finally.
  destruct (body [t] w1) as [res w2]. cbn [fst snd].
  assert (Hfin : (if del then shutil_rmtree E [t] true else ret tt) w2 =
    (Ok tt,
     if del && is_dir (root w2) [t] && negb (denied E (c_rmtree [t]))
     then World (delete t (root w2)) (stdout w2) (entropy w2) else w2)).
  { destruct del; [|done]. cbn [andb].
    unfold shutil_rmtree, rmtree_strict. exec.
    destruct (denied E (c_rmtree [t])); exec.
    { by rewrite andb_false_r. }
    rewrite andb_true_r.
    by destruct (root w2 !! t) as [[data|d]|]; exec. }
  destruct res as [a|e|]; [| |done]; by rewrite Hfin, ?is_dir_1.
Qed.


(** The with-statement over [temporary_directory] ends as its body ends. Let
    [t] be the name the loop settles on (it was free) and let the operating
    system accept the [mkdir]. The body starts with the empty directory [t]
    in place, and its outcome, a value or an exception, is the outcome of
    the whole statement: the clean-up neither masks it nor adds an error of
    its own, whatever the operating system refuses. The clean-up prints
    nothing and concerns [t] alone: every other entry is as the body left
    it, and without [delete] so is [t]. With [delete], when the removal is
    not refused, [t] is gone if the body left it a directory, and is left
    alone if the body replaced it by a file. *)
Theorem temporary_directory_ends_as_its_body {A} (E : Env) (del : bool)
    (body : path -> M A) (w : world) (t : string) :
  fst (fresh_dir_temp [] w) = Ok [t] ->
  denied E (c_mkdir [t]) = false ->
  let w1 := World (<[t := Dir ∅]> (root w)) (stdout w)
              (entropy (snd (fresh_dir_temp [] w))) in
  let out := temporary_directory E [] del body w in
  let w2 := snd (body [t] w1) in
  root w !! t = None /\
  fst out = fst (body [t] w1) /\
  stdout (snd out) = stdout w2 /\
  (forall k, k ≠ t -> root (snd out) !! k = root w2 !! k) /\
  (del = false -> snd out = w2) /\
  (del = true -> fst (body [t] w1) ≠ Diverge ->
   denied E (c_rmtree [t]) = false ->
   root (snd out) !! t =
     if is_dir (root w2) [t] then None else root w2 !! t).
Proof.
  intros Hfresh Hmk w1 out w2.
  destruct (temporary_directory_with_body E del body w t Hfresh Hmk)
    as [Hfree Hrun].
  fold w1 in Hrun. cbv zeta in Hrun. fold w2 in Hrun.
  split; [done|]. unfold out. rewrite Hrun. cbn [fst snd].
  split; [done|]. split; [|split; [|split]].
  - destruct (fst (body [t] w1)); [| |done];
      by destruct (del && is_dir (root w2) [t] && negb (denied E (c_rmtree [t]))).
  - intros k Hk.
    destruct (fst (body [t] w1)); [| |done];
      destruct (del && is_dir (root w2) [t] && negb (denied E (c_rmtree [t])));
      cbn [root]; try done; by rewrite lookup_delete_ne.
  - intros ->. by destruct (fst (body [t] w1)).
  - intros -> Hend Hrm. rewrite Hrm. cbn [andb negb]. rewrite andb_true_r.
    destruct (fst (body [t] w1)); [| |done];
      destruct (is_dir (root w2) [t]); cbn [root]; try done;
      apply lookup_delete_eq.
Qed.

Lemma temporary_directory_ends_as_its_body_witness :
  let E := Examples.env_with Examples.good_response Examples.allow_all in
  let w := Examples.start Examples.installed in
  let t := rand8_to_string Examples.draw0 in
  let body := fun p : path =>
    open_wb E (p ++ ["a.bin"]) ;; raise (A := unit) BadZipFile in
  let w1 := World (<[t := Dir ∅]> (root w)) (stdout w)
              (entropy (snd (fresh_dir_temp [] w))) in
  let out := temporary_directory E [] true body w in
  let w2 := snd (body [t] w1) in
  root w !! t = None /\
  fst out = fst (body [t] w1) /\
  stdout (snd out) = stdout w2 /\
  (forall k, k ≠ t -> root (snd out) !! k = root w2 !! k) /\
  (true = false -> snd out = w2) /\
  (true = true -> fst (body [t] w1) ≠ Diverge ->
   denied E (c_rmtree [t]) = false ->
   root (snd out) !! t =
     if is_dir (root w2) [t] then None else root w2 !! t).
Proof.
  intros E w t body.
  apply (temporary_directory_ends_as_its_body E true body w t).
  - vm_compute. reflexivity.
  - reflexivity.
Defined.

(** ** Failures of the download *)

(** A length header that is missing or that [int()] rejects stops the
    download before a byte is written: with an accepted content type, a
    scratch name [t] and no refusal of its [mkdir] and [rmtree],
    [replace_executable] raises [KeyError('content-length')], respectively
    the [ValueError] of [int()] with its message (for text that is not a
    number, [invalid literal for int() with base 10:] followed by the [repr]
    of the text), after it has announced the download of the asset; the
    scratch directory has been made and removed again, so the tree is exactly
    as it was. *)
Theorem unusable_length_header_aborts_download (E : Env) (self : Updater)
    (w : world) (resp : response) (t : string) :
  requests_get E (asset_url self) = inr resp ->
  content_type_accepted resp = true ->
  fst (fresh_dir_temp [] w) = Ok [t] ->
  denied E (c_mkdir [t]) = false ->
  denied E (c_rmtree [t]) = false ->
  let after :=
    World (root w)
      (stdout w ++ ["▶ Downloading updates...";
                    ("  ↳ Downloading: " ++ asset_filename self)%string])
      (entropy (snd (fresh_dir_temp [] w))) in
  (content_length resp = NoLength ->
   replace_executable E self w = (Raise (KeyError "content-length"), after)) /\
  (forall err, content_length resp = BadLength err ->
   replace_executable E self w =
     (Raise (ValueError (int_error_message err)), after)).
Proof.
  intros Hget Hct Hfresh Hmk Hrm after.
  set (w0 := World (root w) (stdout w ++ ["▶ Downloading updates..."]) (entropy w)).
  assert (Hfresh0 : fst (fresh_dir_temp [] w0) = Ok [t]).
  { unfold w0. by rewrite fresh_dir_temp_printed. }
  assert (Hent : entropy (snd (fresh_dir_temp [] w0)) =
                 entropy (snd (fresh_dir_temp [] w))).
  { destruct (fresh_dir_temp_world w t Hfresh) as [_ H1].
    destruct (fresh_dir_temp_world w0 t Hfresh0) as [_ H2].
    revert H1 H2. unfold fresh_dir_temp, random_string. rewrite !run_bind.
    unfold w0. cbn [entropy root stdout].
    destruct (entropy w) as [|d ds]; [done|]. cbv beta iota.
    cbn [entropy root stdout].
    by destruct (while_exists (root w) [] (rand8_to_string d) ds) as [[name|] ds']. }
  assert (Hstep : forall e,
    (forall w1, download E resp ([t] ++ path_of_string (asset_filename self))
                  (asset_filename self) w1 =
                (Raise e,
                 World (root w1)
                   (stdout w1 ++ [("  ↳ Downloading: " ++ asset_filename self)%string])
                   (entropy w1))) ->
    replace_executable E self w = (Raise e, after)).
  { intros e Hdl. unfold replace_executable.
    rewrite run_bind, run_print. cbv beta iota zeta. rewrite Hget, Hct.
    cbn [negb]. fold w0.
    destruct (temporary_directory_with_body E true
                (fun tmpdir =>
                   download E resp
                     (tmpdir ++ path_of_string (asset_filename self))
                     (asset_filename self) ;;
                   unpack E (tmpdir ++ path_of_string (asset_filename self))
                     tmpdir ;;
                   update_files E self tmpdir) w0 t Hfresh0 Hmk)
      as [Hfree ->].
    rewrite run_bind, Hdl. cbn [fst snd root stdout entropy].
    rewrite is_dir_1, lookup_insert_eq, Hrm. cbn [andb negb].
    rewrite Hent. unfold after, w0. cbn [root stdout]. f_equal. f_equal.
    - rewrite delete_insert_eq. by apply delete_id.
    - by rewrite <- app_assoc. }
  split.
  - intros Hlen. apply Hstep. intros w1. unfold download. exec.
    by rewrite Hlen.
  - intros err Hlen. apply Hstep. intros w1. unfold download. exec.
    by rewrite Hlen.
Qed.

Lemma unusable_length_header_aborts_download_witness :
  let resp := mkResponse (Some "application/zip") NoLength [[x50]] None in
  let E := Examples.env_with resp Examples.allow_all in
  let self := mkUpdater (mkVersion [1; 3; 0]%N "1.3.0")
                (mkVersion [1; 4; 0]%N "1.4.0") "x64" false in
  let w := Examples.start Examples.installed in
  let after :=
    World (root w)
      (stdout w ++ ["▶ Downloading updates...";
                    ("  ↳ Downloading: " ++ asset_filename self)%string])
      (entropy (snd (fresh_dir_temp [] w))) in
  (content_length resp = NoLength ->
   replace_executable E self w = (Raise (KeyError "content-length"), after)) /\
  (forall err, content_length resp = BadLength err ->
   replace_executable E self w =
     (Raise (ValueError (int_error_message err)), after)).
Proof.
  intros resp E self w.
  apply (unusable_length_header_aborts_download E self w resp
           (rand8_to_string Examples.draw0)).
  - reflexivity.
  - reflexivity.
  - vm_compute. reflexivity.
  - reflexivity.
  - reflexivity.
Defined.

(** A request that fails in transit fails the update and costs nothing.
    When the operating system refuses nothing and the constructor accepts
    the versions, an error of [requests.get] leaves the transaction as that
    very exception; no scratch name has been drawn, the last line printed
    is the one of [restore], and the tree is the one the transaction started
    from, without a backup root. *)
Theorem transport_failure_restores_installation (E : Env) (vf vt bt : string)
    (wv : bool) (pf pt : Version) (msg : string) (w : world) :
  no_faults E ->
  version_parse E vf = Some pf ->
  version_parse E vt = Some pt ->
  (major pf <= major pt)%N ->
  (forall data, root w !! ".backup" ≠ Some (File data)) ->
  requests_get E (asset_url (mkUpdater pf pt bt wv)) = inl msg ->
  exists out,
    transaction E vf vt bt wv w =
      (Raise (RequestException msg),
       World (delete ".backup" (root w)) out (entropy w)) /\
    "▶ Downloading updates..." ∈ out /\
    last out = Some "▶ Restoring from backup...".
Proof.
  intros Hnf Hpf Hpt Hle Hfile Hget.
  destruct (enter_spec E Hnf vf vt bt wv pf pt w Hpf Hpt Hle Hfile)
    as (w0 & r1 & Hinit & Henter & Hlive & Hoth & Hdir).
  set (u := mkUpdater pf pt bt wv) in *.
  set (w1 := World r1 (stdout w ++ ["▶ Creating backup..."]) (entropy w)) in *.
  destruct (print_summary_run u w1) as [lines Hsummary].
  set (w2 := World r1 ((stdout w1 ++ lines) ++ ["▶ Downloading updates..."])
               (entropy w)).
  assert (Hbody : update E u w1 = (Raise (RequestException msg), w2)).
  { unfold update. rewrite run_bind, Hsummary. cbv beta iota. rewrite run_bind.
    unfold replace_executable. rewrite run_bind, run_print. cbv beta iota zeta.
    by rewrite Hget. }
  assert (Hrestore := rollback_restores E Hnf u (root w) r1 w2
            (fun name Hin => proj2 (Hlive name Hin)) Hoth Hdir).
  eexists. split; [|split].
  - unfold transaction.
    eapply (with_Updater_raise E _ _ w w0 w1 w2 _ u);
      [exact Hinit | exact Henter | exact Hbody |].
    rewrite Hrestore; [reflexivity|]. by intros k _.
  - unfold w2. cbn [stdout]. rewrite !elem_of_app. left. right. by left.
  - apply last_snoc.
Qed.

Lemma transport_failure_restores_installation_witness :
  let E := mkEnv Examples.parse_dotted (fun _ => inl "connection refused")
             Examples.toy_zip Examples.allow_all in
  let w := Examples.start Examples.installed in
  exists out,
    transaction E "1.3.0" "1.4.0" "x64" false w =
      (Raise (RequestException "connection refused"),
       World (delete ".backup" (root w)) out (entropy w)) /\
    "▶ Downloading updates..." ∈ out /\
    last out = Some "▶ Restoring from backup...".
Proof.
  intros E w.
  apply (transport_failure_restores_installation E "1.3.0" "1.4.0" "x64" false
           (mkVersion [1; 3; 0]%N "1.3.0") (mkVersion [1; 4; 0]%N "1.4.0")
           "connection refused" w).
  - by intros c.
  - reflexivity.
  - reflexivity.
  - vm_compute. discriminate.
  - intros data. vm_compute. discriminate.
  - reflexivity.
Defined.

(** ** What is written where *)

(** The download and the extraction write below the scratch directory only.
    Whatever the response streams and whatever the archive's members are
    called (names with [..] or a leading [/] included), however the two
    steps end and whatever the operating system refuses: started with [t] a
    directory, they leave [t] a directory and every other top-level entry
    as it was. *)
Theorem download_and_unpack_stay_in_scratch (E : Env) (resp : response)
    (t filename : string) (cs : path) (w : world) :
  is_dir (root w) [t] = true ->
  let w' := snd ((download E resp (t :: cs) filename ;;
                  unpack E (t :: cs) [t]) w) in
  is_dir (root w') [t] = true /\
  (forall k, k ≠ t -> root w' !! k = root w !! k).
Proof.
  intros Hdir w'.
  assert (Hobeys : obeys (on_root (scratch t [])) (raising is_block_error)
            (download E resp (t :: cs) filename ;; unpack E (t :: cs) [t])).
  { assert (Hprint : forall (w : world) (line : string),
      on_root (scratch t []) w
        (World (root w) (stdout w ++ [line]) (entropy w))).
    { intros w0 line. unfold on_root. cbn [root]. reflexivity. }
    assert (Hroot : forall (w : world) (r' : dir),
      scratch t [] (root w) r' ->
      on_root (scratch t []) w (World r' (stdout w) (entropy w))).
    { by intros w0 r' H. }
    apply obeys_bind; [apply _ | | intros _].
    - apply (download_block_on E t []);
        first [apply _ | exact Hprint | exact Hroot].
    - apply (unpack_block_on E t []);
        first [apply _ | exact Hprint | exact Hroot]. }
  destruct (Hobeys w) as [Hrel _]. destruct (Hrel Hdir) as [Hdir' Hout].
  split; [exact Hdir'|]. intros k Hk. apply Hout. by apply not_in_1.
Qed.

Lemma download_and_unpack_stay_in_scratch_witness :
  let E := Examples.env_with Examples.good_response Examples.allow_all in
  let w := Examples.start (<["tmp" := Dir ∅]> Examples.installed) in
  let w' := snd ((download E Examples.good_response ["tmp"; "a.zip"] "a.zip" ;;
                  unpack E ["tmp"; "a.zip"] ["tmp"]) w) in
  is_dir (root w') ["tmp"] = true /\
  (forall k, k ≠ "tmp" -> root w' !! k = root w !! k).
Proof.
  intros E w.
  apply (download_and_unpack_stay_in_scratch E Examples.good_response
           "tmp" "a.zip" ["a.zip"] w).
  reflexivity.
Defined.

(** ** The constructor's edge cases *)

(** A regular file called [.backup] blocks the updater. Unless the operating
    system refuses the [rmtree], the constructor's [shutil.rmtree] raises
    [NotADirectoryError] on it, and that is how the transaction ends:
    nothing has been printed, backed up or changed. *)
Theorem backup_root_file_blocks_update (E : Env) (vf vt bt : string)
    (wv : bool) (data : list byte) (w : world) :
  denied E (c_rmtree dir_backup) = false ->
  root w !! ".backup" = Some (File data) ->
  transaction E vf vt bt wv w =
    (Raise (OSError NotADirectoryError [".backup"]), w).
Proof.
  intros Hrm Hfile. apply transaction_init_raise.
  unfold __init__, shutil_rmtree, rmtree_strict. exec.
  unfold dir_backup in Hrm. rewrite Hfile. exec. by rewrite Hrm, Hfile.
Qed.

Lemma backup_root_file_blocks_update_witness :
  let E := Examples.env_with Examples.good_response Examples.allow_all in
  let w := Examples.start (<[".backup" := File []]> Examples.installed) in
  transaction E "1.3.0" "1.4.0" "x64" false w =
    (Raise (OSError NotADirectoryError [".backup"]), w).
Proof.
  intros E w.
  apply (backup_root_file_blocks_update E "1.3.0" "1.4.0" "x64" false [] w).
  - reflexivity.
  - reflexivity.
Defined.

(** A version that does not parse is rejected only after the backup root
    has been reset. With [rmtree] and [mkdir] of the backup root not
    refused and a backup root that is not a regular file, the transaction
    ends in [InvalidVersion] for the first of the two strings that does not
    parse; nothing has been printed, no clean-up has run, and the tree is
    the original one with an empty directory [.backup], whatever a backup
    root held before. *)
Theorem invalid_version_leaves_empty_backup_root (E : Env) (vf vt bt : string)
    (wv : bool) (w : world) :
  denied E (c_rmtree dir_backup) = false ->
  denied E (c_mkdir dir_backup) = false ->
  (forall data, root w !! ".backup" ≠ Some (File data)) ->
  version_parse E vf = None \/ version_parse E vt = None ->
  transaction E vf vt bt wv w =
    (Raise (InvalidVersion
              (match version_parse E vf with Some _ => vt | None => vf end)),
     World (<[".backup" := Dir ∅]> (root w)) (stdout w) (entropy w)).
Proof.
  intros Hrm Hmk Hfile Hbad. apply transaction_init_raise.
  rewrite (init_resets_backup_root E vf vt bt wv w Hrm Hmk Hfile).
  destruct (version_parse E vf) as [pf|]; [|done].
  destruct Hbad as [?|Hvt]; [done|]. by rewrite Hvt.
Qed.

Lemma invalid_version_leaves_empty_backup_root_witness :
  let E := Examples.env_with Examples.good_response Examples.allow_all in
  let w := Examples.start
             (<[".backup" := Dir Examples.settings]> Examples.installed) in
  transaction E "1.3.0" "latest" "x64" false w =
    (Raise (InvalidVersion
              (match version_parse E "1.3.0" with
               | Some _ => "latest"
               | None => "1.3.0"
               end)),
     World (<[".backup" := Dir ∅]> (root w)) (stdout w) (entropy w)).
Proof.
  intros E w.
  apply (invalid_version_leaves_empty_backup_root E "1.3.0" "latest" "x64"
           false w).
  - reflexivity.
  - reflexivity.
  - intros data. vm_compute. discriminate.
  - right. reflexivity.
Defined.

(** The constructor does not recognise a backup that an interrupted run left
    behind. When the operating system refuses nothing: in the state right
    after [backup], where the installation exists in the backup root only,
    the constructor of a next run, whether it then accepts its arguments or
    not, empties the backup root, and no entry of the manifest is left,
    neither live nor in the backup root. *)
Theorem constructor_discards_pending_backup (E : Env) (self : Updater)
    (vf vt bt : string) (wv : bool) (w : world) :
  no_faults E ->
  (forall data, root w !! ".backup" ≠ Some (File data)) ->
  exists w1,
    backup E self w = (Ok tt, w1) /\
    (forall name, name ∈ manifest ->
       lookup_path (root w1) [".backup"; name] = root w !! name) /\
    let w2 := snd (__init__ E vf vt bt wv w1) in
    root w2 !! ".backup" = Some (Dir ∅) /\
    (forall name, name ∈ manifest -> root w2 !! name = None).
Proof.
  intros Hnf Hfile.
  destruct (backup_spec E Hnf self w Hfile) as (r1 & Hrun & Hlive & Hoth & Hdir).
  eexists. split; [exact Hrun|]. cbn [root]. split.
  { intros name Hin. by apply Hlive. }
  rewrite (init_resets_backup_root E vf vt bt wv _ (Hnf _) (Hnf _)).
  - cbn [snd root]. split; [apply lookup_insert_eq|].
    intros name Hin. rewrite lookup_insert_ne.
    + by apply Hlive.
    + intros <-. unfold manifest in Hin.
      rewrite !elem_of_cons, elem_of_nil in Hin.
      by destruct Hin as [?|[?|[?|[]]]].
  - intros data. cbn [root]. rewrite is_dir_1 in Hdir.
    by destruct (r1 !! ".backup") as [[|b]|].
Qed.

Lemma constructor_discards_pending_backup_witness :
  let E := Examples.env_with Examples.good_response Examples.allow_all in
  let self := mkUpdater (mkVersion [1; 3; 0]%N "1.3.0")
                (mkVersion [1; 4; 0]%N "1.4.0") "x64" false in
  let w := Examples.start Examples.installed in
  exists w1,
    backup E self w = (Ok tt, w1) /\
    (forall name, name ∈ manifest ->
       lookup_path (root w1) [".backup"; name] = root w !! name) /\
    let w2 := snd (__init__ E "1.3.0" "1.4.0" "x64" false w1) in
    root w2 !! ".backup" = Some (Dir ∅) /\
    (forall name, name ∈ manifest -> root w2 !! name = None).
Proof.
  intros E self w.
  apply (constructor_discards_pending_backup E self "1.3.0" "1.4.0" "x64"
           false w).
  - apply no_faults_allow_all.
  - intros data. vm_compute. discriminate.
Defined.

(** ** The summary *)

Lemma string_length_app (s1 s2 : string) :
  String.length (s1 ++ s2)%string = String.length s1 + String.length s2.
Proof. induction s1 as [|c s1 IH]; simpl; [done|]. by rewrite IH. Qed.

Lemma spaces_length (n : nat) : String.length (spaces n) = n.
Proof. induction n as [|n IH]; simpl; [done|]. by rewrite IH. Qed.

Lemma ljust_length (width : nat) (s : string) :
  String.length (ljust width s) = Nat.max width (String.length s).
Proof. unfold ljust. rewrite string_length_app, spaces_length. lia. Qed.

Lemma center_length (width : nat) (s : string) :
  String.length (center width s) = Nat.max width (String.length s).
Proof.
  unfold center. rewrite !string_length_app, !spaces_length.
  pose proof (Nat.le_div2_diag_l (width - String.length s)). lia.
Qed.

(** The summary is a table of six lines of thirty characters, followed by
    an empty line, as long as the two versions and the binary type are
    ASCII text of at most thirteen characters; it changes nothing in the
    tree. A longer value is not cut: its row is as much wider as the value
    exceeds thirteen characters. *)
Theorem print_summary_table_is_aligned (self : Updater) (w : world) :
  ascii_text (vtext (version_from self)) ->
  ascii_text (vtext (version_to self)) ->
  ascii_text (binary_type self) ->
  exists rule r1 r2 r3 r4,
    print_summary self w =
      (Ok tt,
       World (root w) (stdout w ++ [rule; r1; r2; r3; r4; rule; ""])
         (entropy w)) /\
    String.length rule = 30 /\
    String.length r1 =
      17 + Nat.max 13 (String.length (vtext (version_from self))) /\
    String.length r2 =
      17 + Nat.max 13 (String.length (vtext (version_to self))) /\
    String.length r3 = 17 + Nat.max 13 (String.length (binary_type self)) /\
    String.length r4 = 30.
Proof.
  intros _ _ _. unfold print_summary. exec. rewrite <- !app_assoc. cbn [app].
  eexists _, _, _, _, _. split; [reflexivity|].
  split; [done|].
  rewrite !string_length_app, !center_length, !ljust_length.
  destruct (webview self); cbn [String.length]; lia.
Qed.

Lemma print_summary_table_is_aligned_witness :
  let self := mkUpdater (mkVersion [1; 3; 0]%N "1.3.0")
                (mkVersion [1; 4; 0]%N "1.4.0") "x64" false in
  let w := Examples.start Examples.installed in
  exists rule r1 r2 r3 r4,
    print_summary self w =
      (Ok tt,
       World (root w) (stdout w ++ [rule; r1; r2; r3; r4; rule; ""])
         (entropy w)) /\
    String.length rule = 30 /\
    String.length r1 =
      17 + Nat.max 13 (String.length (vtext (version_from self))) /\
    String.length r2 =
      17 + Nat.max 13 (String.length (vtext (version_to self))) /\
    String.length r3 = 17 + Nat.max 13 (String.length (binary_type self)) /\
    String.length r4 = 30.
Proof.
  intros self w.
  apply (print_summary_table_is_aligned self w);
    unfold ascii_text; cbn; repeat constructor.
Defined.

(** ** What the update installs *)

Lemma extract_member_other (d d' : dir) (cs p : path)
    (payload : option (list byte)) (k : string) :
  extract_member d cs p payload = inr d' ->
  (forall cs', cs ≠ k :: cs') ->
  d' !! k = d !! k.
Proof.
  intros Hrun Hhead. destruct cs as [|c [|c2 cs']].
  - simpl in Hrun. destruct payload; [done|]. by injection Hrun as <-.
  - assert (Hne : c ≠ k) by (intros ->; by apply (Hhead [])).
    simpl in Hrun.
    destruct payload as [data|], (d !! c) as [[|sub]|];
      try done; injection Hrun as <-; try done;
      by rewrite lookup_insert_ne.
  - assert (Hne : c ≠ k) by (intros ->; by apply (Hhead (c2 :: cs'))).
    simpl in Hrun.
    destruct (d !! c) as [[|sub]|]; [done| |];
      match type of Hrun with
      | match ?x with _ => _ end = _ => destruct x; [done|]
      end;
      injection Hrun as <-; by rewrite lookup_insert_ne.
Qed.

Lemma extract_member_file (d : dir) (c : string) (p : path)
    (data : list byte) :
  extract_member d [c] p (Some data) =
  match d !! c with
  | Some (Dir _) => inl (OSError IsADirectoryError (p ++ [c]))
  | _ => inr (<[c := File data]> d)
  end.
Proof. simpl. by destruct (d !! c) as [[|sub]|]. Qed.

Lemma getinfo_name (members : list zip_member) (name : string)
    (m : zip_member) :
  getinfo members name = Some m -> zm_filename m = name /\ In m members.
Proof.
  unfold getinfo. intros Hfind. apply find_some in Hfind as [Hin Heq].
  split; [by apply String.eqb_eq | by apply in_rev].
Qed.

Section Extraction.

Context (E : Env) (Hnf : no_faults E).
Context (members : list zip_member) (t : string).

Local Abbreviation exe := "driver-box.exe".

Lemma zip_extract_exe (w w' : world) (d : dir) :
  zip_extract E members exe [t] w = (Ok tt, w') ->
  root w !! t = Some (Dir d) ->
  exists d', root w' !! t = Some (Dir d') /\ d' !! exe = extracted_exe members.
Proof.
  unfold zip_extract, extracted_exe. rewrite run_guarded, Hnf.
  destruct (getinfo members exe) as [m|] eqn:Hinfo; [|done].
  destruct (getinfo_name _ _ _ Hinfo) as [Hname _].
  rewrite run_bind, run_get_root. cbv beta iota. rewrite lookup_path_1.
  intros Hrun Ht. rewrite Ht, Hname in Hrun.
  change (arcname exe) with [exe] in Hrun.
  change (ends_with_slash exe) with false in Hrun.
  cbv beta iota zeta in Hrun. rewrite extract_member_file in Hrun.
  destruct (d !! exe) as [[|sub]|]; try done;
    rewrite put_path_1, run_set_root in Hrun; injection Hrun as <-;
    eexists; cbn [root]; by rewrite !lookup_insert_eq.
Qed.

Lemma zip_extract_elsewhere (name : string) (w w' : world) (d : dir) :
  (forall cs, arcname name ≠ exe :: cs) ->
  zip_extract E members name [t] w = (Ok tt, w') ->
  root w !! t = Some (Dir d) ->
  exists d', root w' !! t = Some (Dir d') /\ d' !! exe = d !! exe.
Proof.
  intros Hhead. unfold zip_extract. rewrite run_guarded, Hnf.
  destruct (getinfo members name) as [m|] eqn:Hinfo; [|done].
  destruct (getinfo_name _ _ _ Hinfo) as [Hname _].
  rewrite run_bind, run_get_root. cbv beta iota. rewrite lookup_path_1.
  intros Hrun Ht. rewrite Ht, Hname in Hrun. cbv beta iota zeta in Hrun.
  destruct (extract_member d (arcname name) [t] _) as [e|d'] eqn:Hex; [done|].
  rewrite put_path_1, run_set_root in Hrun. injection Hrun as <-.
  exists d'. cbn [root]. rewrite lookup_insert_eq. split; [done|].
  by eapply extract_member_other.
Qed.

(** The members of the archive are extracted one by one; the entry
    [driver-box.exe] of the scratch directory is written by the members of
    that name only, provided no other member lands on it or below it. *)
Lemma extract_all_exe (todo : list zip_member) (w w' : world) (d : dir) :
  Forall (fun m => zm_filename m = exe \/
                   forall cs, arcname (zm_filename m) ≠ exe :: cs) todo ->
  for_each todo (fun a => zip_extract E members (zm_filename a) [t]) w =
    (Ok tt, w') ->
  root w !! t = Some (Dir d) ->
  exists d',
    root w' !! t = Some (Dir d') /\
    d' !! exe =
      if existsb (fun m => String.eqb (zm_filename m) exe) todo
      then extracted_exe members else d !! exe.
Proof.
  revert w d. induction todo as [|a todo IH]; intros w d Hall Hrun Ht.
  - rewrite run_for_each_nil in Hrun. injection Hrun as <-. by exists d.
  - apply Forall_cons in Hall as [Ha Hall].
    rewrite run_for_each_cons, run_bind in Hrun.
    destruct (zip_extract E members (zm_filename a) [t] w) as [[[]|e|] w1]
      eqn:Hone; [|done..].
    destruct Ha as [Hname|Hhead].
    + rewrite Hname in Hone.
      destruct (zip_extract_exe w w1 d Hone Ht) as (d1 & Ht1 & Hexe1).
      destruct (IH w1 d1 Hall Hrun Ht1) as (d' & Ht' & Hexe').
      exists d'. split; [done|]. rewrite Hexe'. cbn [existsb].
      rewrite Hname. change (String.eqb exe exe) with true. cbn [orb].
      by destruct (existsb _ todo).
    + destruct (zip_extract_elsewhere _ w w1 d Hhead Hone Ht)
        as (d1 & Ht1 & Hexe1).
      destruct (IH w1 d1 Hall Hrun Ht1) as (d' & Ht' & Hexe').
      exists d'. split; [done|]. rewrite Hexe'. cbn [existsb].
      assert (Hne : String.eqb (zm_filename a) exe = false).
      { apply String.eqb_neq. intros Heq. rewrite Heq in Hhead.
        by apply (Hhead []). }
      rewrite Hne. cbn [orb]. by rewrite Hexe1.
Qed.

End Extraction.

Lemma asset_filename_not_exe (self : Updater) :
  asset_filename self ≠ "driver-box.exe".
Proof.
  intros Heq. apply (f_equal String.length) in Heq. revert Heq.
  unfold asset_filename.
  destruct (webview self); rewrite !string_length_app; simpl; lia.
Qed.

Lemma run_writes (t fname : string) (chunks : list (list byte))
    (data : list byte) (d r : dir) (out : list string) (ent : list rand8) :
  for_each chunks (fun chunk => write [t; fname] chunk)
    (World (<[t := Dir (<[fname := File data]> d)]> r) out ent) =
  (Ok tt,
   World (<[t := Dir (<[fname := File (data ++ concat chunks)]> d)]> r)
     out ent).
Proof.
  revert data. induction chunks as [|chunk chunks IH]; intros data.
  - simpl. by rewrite app_nil_r.
  - rewrite run_for_each_cons, run_bind. unfold write. exec.
    rewrite IH. simpl. by rewrite <- app_assoc.
Qed.

Section Installs.

Context (E : Env) (Hnf : no_faults E).

Local Abbreviation exe := "driver-box.exe".

(** A download that returns has written the streamed bytes, all of them, to
    the file it was given. *)
Lemma download_returns (resp : response) (t fname shown : string)
    (w w' : world) :
  root w !! t = Some (Dir ∅) ->
  download E resp [t; fname] shown w = (Ok tt, w') ->
  root w' = <[t := Dir (<[fname := File (concat (chunks resp))]> ∅)]> (root w).
Proof.
  intros Ht. unfold download. rewrite run_bind, run_print. cbv beta iota.
  rewrite run_bind.
  destruct (content_length resp) as [|err|n]; [done..|].
  rewrite run_ret. cbv beta iota. rewrite run_bind.
  unfold open_wb. rewrite run_guarded, Hnf, run_bind, run_get_root.
  cbv beta iota. cbn [root]. rewrite lookup_path_2, Ht, lookup_empty.
  rewrite put_path_2, Ht, run_set_root. cbv beta iota. cbn [stdout entropy].
  rewrite run_bind, run_writes. cbv beta iota.
  destruct (stream_error resp); [done|]. rewrite run_ret.
  by intros [= <-].
Qed.

(** When [replace_executable] returns, the live executable is the one the
    archive holds, or there is none if the archive holds none. *)
Lemma replace_executable_installs (self : Updater) (resp : response)
    (members : list zip_member) (w w' : world) :
  requests_get E (asset_url self) = inr resp ->
  path_of_string (asset_filename self) = [asset_filename self] ->
  zip_parse E (concat (chunks resp)) = Some members ->
  Forall (fun m => zm_filename m = exe \/
                   forall cs, arcname (zm_filename m) ≠ exe :: cs) members ->
  replace_executable E self w = (Ok tt, w') ->
  root w' !! exe = extracted_exe members.
Proof.
  intros Hget Hname Hzip Hall. unfold replace_executable.
  rewrite run_bind, run_print. cbv beta iota zeta. rewrite Hget.
  destruct (content_type_accepted resp); cbn [negb]; [|done].
  set (w0 := World (root w) (stdout w ++ ["▶ Downloading updates..."]) (entropy w)).
  destruct (fresh_dir_temp_spec w0) as [(d & ds & Hfresh & Hfree)|[ds Hloop]].
  2: { unfold temporary_directory. by rewrite run_bind, Hloop. }
  set (t := rand8_to_string d) in *.
  assert (Hte : exe ≠ t).
  { intros Heq. apply (rand8_not_target d). fold t. rewrite <- Heq. by left. }
  assert (Hfst : fst (fresh_dir_temp [] w0) = Ok [t]) by by rewrite Hfresh.
  set (body := fun tmpdir : path =>
                 download E resp
                   (tmpdir ++ path_of_string (asset_filename self))
                   (asset_filename self) ;;
                 unpack E (tmpdir ++ path_of_string (asset_filename self))
                   tmpdir ;;
                 update_files E self tmpdir).
  destruct (temporary_directory_with_body E true body w0 t Hfst (Hnf _))
    as [_ ->].
  set (w1 := World (<[t := Dir ∅]> (root w0)) (stdout w0)
               (entropy (snd (fresh_dir_temp [] w0)))).
  destruct (body [t] w1) as [res wc] eqn:Hbody. cbn [fst snd].
  intros [= -> <-].
  assert (Hc : root wc !! exe = extracted_exe members).
  2: { destruct (is_dir (root wc) [t] && negb (denied E (c_rmtree [t])));
         cbn [root]; [|done].
       by rewrite lookup_delete_ne. }
  revert Hbody. unfold body. rewrite Hname. cbn [app].
  set (fname := asset_filename self) in *.
  rewrite run_bind.
  destruct (download E resp [t; fname] fname w1) as [[[]|e|] wa] eqn:Hdl;
    [|done..].
  pose proof (download_returns resp t fname fname w1 wa
                (lookup_insert_eq _ _ _) Hdl) as Hra.
  rewrite run_bind. unfold unpack at 1. rewrite run_bind, run_print.
  cbv beta iota. rewrite run_bind, run_get_root. cbv beta iota. cbn [root].
  rewrite Hra, lookup_path_2, !lookup_insert_eq, Hzip.
  set (wa' := World _ (stdout wa ++ _) _).
  destruct (for_each members _ wa') as [[[]|e|] wb] eqn:Hex; [|done..].
  destruct (extract_all_exe E Hnf members t members wa' wb
              (<[fname := File (concat (chunks resp))]> ∅) Hall Hex)
    as (d' & Htb & Hexe).
  { unfold wa'. cbn [root]. by rewrite lookup_insert_eq. }
  assert (Hd' : d' !! exe = extracted_exe members).
  { rewrite Hexe. destruct (existsb _ members) eqn:Hany; [done|].
    rewrite lookup_insert_ne by apply asset_filename_not_exe.
    rewrite lookup_empty. unfold extracted_exe.
    destruct (getinfo members exe) as [m|] eqn:Hinfo; [|done].
    destruct (getinfo_name _ _ _ Hinfo) as [Hn Hin].
    assert (Htrue : existsb (fun m => String.eqb (zm_filename m) exe) members
                    = true).
    { apply existsb_exists. exists m. split; [done|]. by apply String.eqb_eq. }
    congruence. }
  unfold update_files. rewrite run_bind, run_print. cbv beta iota.
  set (wb' := World (root wb) _ _).
  destruct (update_file_spec E Hnf t exe wb' d' Hte Htb)
    as (r1 & d1 & Hrun1 & Hat1 & Ht1 & Hd1 & Hoth1).
  assert (Hswap : exists wc,
    for_each (paths self) (update_file E [t]) wb' = (Ok tt, wc) /\
    root wc !! exe = extracted_exe members).
  { unfold paths. destruct (webview self).
    - rewrite run_for_each_cons, run_bind, Hrun1. cbv beta iota.
      destruct (update_file_spec E Hnf t "bin"
                  (World r1 (stdout wb') (entropy wb')) d1)
        as (r2 & d2 & Hrun2 & Hat2 & Ht2 & Hd2 & Hoth2).
      { intros Heq. apply (rand8_not_target d). fold t. rewrite <- Heq.
        right. by left. }
      { done. }
      rewrite run_for_each_cons, run_bind, Hrun2. cbv beta iota.
      rewrite run_for_each_nil. eexists. split; [reflexivity|].
      cbn [root]. rewrite Hoth2 by done. cbn [root]. by rewrite Hat1.
    - rewrite run_for_each_cons, run_bind, Hrun1. cbv beta iota.
      rewrite run_for_each_nil. eexists. split; [reflexivity|].
      cbn [root]. by rewrite Hat1. }
  destruct Hswap as (wc' & -> & Hc). by intros [= <-].
Qed.

End Installs.



(** ** When the operating system refuses a call *)

Section RestoreFrame.

Context (E : Env) (P : relation dir) `{!PreOrder P}.
Context (Hremoves : forall name r r',
  name ∈ manifest -> removes [name] r r' -> P r r').
Context (Hmoves : forall name r r',
  name ∈ manifest -> moves [".backup"; name] [name] r r' -> P r r').

Lemma restore_one_frame (name : string) :
  name ∈ manifest ->
  obeys (on_root P) (raising is_lib_error) (restore_one E name).
Proof.
  intros Hin.
  assert (Hroot : forall (w : world) (r' : dir),
    P (root w) r' -> on_root P w (World r' (stdout w) (entropy w))).
  { by intros w r' H. }
  unfold restore_one, dir_backup. cbn [app].
  apply obeys_bind; [apply _ | by apply obeys_get_root; [apply _|] |]. intros r.
  apply obeys_bind; [apply _ | | intros _].
  { destruct (exists_ r [name]); [destruct (is_dir r [name])|].
    - eapply obeys_touches; [apply _ | apply shutil_rmtree_touches | | done].
      intros w r' HF. by apply Hroot, (Hremoves name).
    - eapply obeys_touches; [apply _ | apply unlink_touches | | done].
      intros w r' HF. by apply Hroot, (Hremoves name).
    - by apply obeys_ret; [apply _|]. }
  apply obeys_bind; [apply _ | by apply obeys_get_root; [apply _|] |]. intros r1.
  apply obeys_if; [by apply obeys_ret; [apply _|] |].
  eapply obeys_touches; [apply _ | apply shutil_move_touches | | done].
  intros w r' HF. by apply Hroot, (Hmoves name).
Qed.

Lemma restore_loop_frame :
  obeys (on_root P) (raising is_lib_error) (for_each manifest (restore_one E)).
Proof.
  apply obeys_for_each_in; [apply _ | done |].
  intros name Hin. by apply restore_one_frame.
Qed.

End RestoreFrame.

Lemma manifest_not_backup_root (name : string) :
  name ∈ manifest -> name ≠ ".backup".
Proof.
  intros Hin ->. unfold manifest in Hin.
  rewrite !elem_of_cons, elem_of_nil in Hin.
  by destruct Hin as [?|[?|[?|[]]]].
Qed.



Lemma backup_one_held (E : Env) (r0 : dir) (name : string) (w : world) :
  name ∈ manifest ->
  held r0 (root w) ->
  held r0 (root (snd (backup_one E name w))).
Proof.
  intros Hin (Hdir & Hman & Hoth).
  pose proof (manifest_not_backup_root name Hin) as Hne.
  rewrite is_dir_1 in Hdir.
  destruct (root w !! ".backup") as [[|b]|] eqn:Hb; try done.
  unfold backup_one. exec.
  destruct (root w !! name) as [n|] eqn:Hn; exec.
  2: { split; [by rewrite is_dir_1, Hb|]. by split. }
  destruct (denied E (c_move [name] [".backup"; name])) eqn:Hd.
  { unfold shutil_move. rewrite run_guarded, Hd. cbn [snd].
    split; [by rewrite is_dir_1, Hb|]. by split. }
  destruct (Hman name Hin) as [[Hlive Hfree]|[Hgone _]]; [|congruence].
  erewrite run_move_rename;
    [| exact Hd | by rewrite lookup_path_1 | exact Hfree
     | rewrite remove_path_1, put_path_2, lookup_delete_ne, Hb by done;
       reflexivity].
  rewrite lookup_path_2, Hb in Hfree. cbn [snd root].
  split; [by exec|]. split.
  - intros name' Hin'.
    pose proof (manifest_not_backup_root name' Hin') as Hne'.
    destruct (decide (name' = name)) as [->|Hdiff].
    + right. exec. split; [done|]. congruence.
    + exec. destruct (Hman name' Hin') as [[H1 H2]|[H1 H2]];
        rewrite lookup_path_2, Hb in H2; [left|right]; by exec.
  - intros k Hk Hkb. exec.
    rewrite lookup_delete_ne; [by apply Hoth|].
    intros <-. by apply Hk.
Qed.

Lemma backup_loop_held (E : Env) (r0 : dir) (names : list string) (w : world) :
  (forall name, name ∈ names -> name ∈ manifest) ->
  held r0 (root w) ->
  held r0 (root (snd (for_each names (backup_one E) w))).
Proof.
  revert w. induction names as [|name names IH]; intros w Hsub Hheld; [done|].
  rewrite run_for_each_cons, run_bind.
  pose proof (backup_one_held E r0 name w (Hsub name ltac:(by left)) Hheld)
    as Hone.
  destruct (backup_one E name w) as [[[]|e|] w1]; cbn [snd] in *; [|done..].
  apply IH; [|done]. intros name' Hin'. apply Hsub. by right.
Qed.

(** [backup] loses nothing of the installation, whatever the operating
    system refuses and however the call ends: afterwards every entry of the
    manifest is still to be found as it was, at its live path or in the
    backup root, and every other entry except the backup root is as it was.
    (A stale backup root is not part of the installation: it is discarded.) *)
Theorem backup_loses_nothing (E : Env) (self : Updater) (w : world) :
  (forall name, name ∈ manifest ->
     root (snd (backup E self w)) !! name = root w !! name \/
     lookup_path (root (snd (backup E self w))) [".backup"; name] =
       root w !! name) /\
  (forall k, k ∉ manifest -> k ≠ ".backup" ->
     root (snd (backup E self w)) !! k = root w !! k).
Proof.
  assert (Hsame : forall w' : world,
    (forall k, k ≠ ".backup" -> root w' !! k = root w !! k) ->
    (forall name, name ∈ manifest ->
       root w' !! name = root w !! name \/
       lookup_path (root w') [".backup"; name] = root w !! name) /\
    (forall k, k ∉ manifest -> k ≠ ".backup" -> root w' !! k = root w !! k)).
  { intros w' Hsame. split.
    - intros name Hin. left. by apply Hsame, manifest_not_backup_root.
    - intros k _ Hkb. by apply Hsame. }
  unfold backup. rewrite run_bind, run_print. cbv beta iota.
  rewrite run_bind, run_get_root. cbv beta iota. cbn [root]. rewrite run_bind.
  set (w0 := World (root w) (stdout w ++ ["▶ Creating backup..."]) (entropy w)).
  assert (Hclear :
    (exists e, (if exists_ (root w) dir_backup
                then shutil_rmtree E dir_backup false else ret tt) w0 =
               (Raise e, w0)) \/
    (if exists_ (root w) dir_backup
     then shutil_rmtree E dir_backup false else ret tt) w0 =
    (Ok tt, World (delete ".backup" (root w)) (stdout w0) (entropy w0))).
  { unfold w0, dir_backup, shutil_rmtree, rmtree_strict. rewrite exists_1.
    destruct (root w !! ".backup") as [[data|b]|] eqn:Hb.
    - left. rewrite run_guarded. destruct (denied E _); [by eexists|].
      rewrite run_bind, run_get_root. cbv beta iota. cbn [root].
      rewrite lookup_path_1, Hb. by eexists.
    - rewrite run_guarded. destruct (denied E _); [left; by eexists|].
      right. rewrite run_bind, run_get_root. cbv beta iota. cbn [root].
      by rewrite lookup_path_1, Hb.
    - right. rewrite run_ret, delete_id by done. done. }
  destruct Hclear as [[e ->]| ->].
  { apply Hsame. by intros k _. }
  cbv beta iota. rewrite run_bind. unfold mkdir, dir_backup.
  rewrite run_guarded.
  destruct (denied E (c_mkdir [".backup"])).
  { apply Hsame. intros k Hk. cbn [snd root]. by rewrite lookup_delete_ne. }
  rewrite run_bind, run_get_root. cbv beta iota. cbn [root].
  rewrite exists_1, lookup_delete_eq, put_path_1, run_set_root.
  cbv beta iota. cbn [stdout entropy].
  set (w1 := World _ _ _).
  destruct (backup_loop_held E (root w) manifest w1) as (_ & Hman & Hoth).
  { done. }
  { unfold w1. cbn [root]. split; [by exec|]. split.
    - intros name Hin. left.
      pose proof (manifest_not_backup_root name Hin).
      rewrite lookup_path_2, lookup_insert_eq, lookup_empty.
      by rewrite lookup_insert_ne, lookup_delete_ne.
    - intros k _ Hkb. by rewrite lookup_insert_ne, lookup_delete_ne. }
  split; [|done].
  intros name Hin. destruct (Hman name Hin) as [[H1 _]|[_ H2]]; auto.
Qed.

(** ** The content-type check, and the stream behind it *)

(** The download step with a length header that [int()] accepts, in a
    scratch directory [t] that is still empty: the file is created and every
    chunk is appended to it, in order, before the stream's own error, if any,
    is raised. *)
Lemma download_streams (E : Env) (resp : response) (t fname shown : string)
    (n : Z) (w : world) :
  root w !! t = Some (Dir ∅) ->
  content_length resp = Length n ->
  denied E (c_open_wb [t; fname]) = false ->
  download E resp [t; fname] shown w =
  (match stream_error resp with
   | Some msg => raise (RequestException msg)
   | None => ret tt
   end)
    (World (<[t := Dir (<[fname := File (concat (chunks resp))]> ∅)]> (root w))
       (stdout w ++ [("  ↳ Downloading: " ++ shown)%string]) (entropy w)).
Proof.
  intros Ht Hlen Hopen. unfold download.
  rewrite run_bind, run_print. cbv beta iota.
  rewrite run_bind, Hlen, run_ret. cbv beta iota. rewrite run_bind.
  unfold open_wb. rewrite run_guarded, Hopen, run_bind, run_get_root.
  cbv beta iota. cbn [root]. rewrite lookup_path_2, Ht, lookup_empty.
  rewrite put_path_2, Ht, run_set_root. cbv beta iota. cbn [stdout entropy].
  by rewrite run_bind, run_writes.
Qed.

Lemma fresh_dir_temp_after_print (w : world) (lines : list string) (t : string) :
  fst (fresh_dir_temp [] w) = Ok [t] ->
  root w !! t = None /\
  fresh_dir_temp [] (World (root w) lines (entropy w)) =
    (Ok [t], World (root w) lines (entropy (snd (fresh_dir_temp [] w)))).
Proof.
  intros Hfresh. destruct (fresh_dir_temp_world w t Hfresh) as [Hfree H1].
  split; [done|].
  assert (Hfresh0 : fst (fresh_dir_temp [] (World (root w) lines (entropy w)))
                    = Ok [t]) by by rewrite fresh_dir_temp_printed.
  destruct (fresh_dir_temp_world _ t Hfresh0) as [_ H2].
  rewrite H2. cbn [root stdout]. f_equal. f_equal.
  revert H1 H2. unfold fresh_dir_temp, random_string. rewrite !run_bind.
  cbn [entropy root stdout].
  destruct (entropy w) as [|d ds]; [done|]. cbv beta iota.
  cbn [entropy root stdout].
  by destruct (while_exists (root w) [] (rand8_to_string d) ds) as [[name|] ds'].
Qed.



